(** * giotto-deep: the tensorboard visualiser

    A shallow embedding of [gdeep/visualisation/visualiser.py] (class
    [Visualiser]) together with the part of the PyTorch tensor interface
    it relies on, and the properties of the visualisation pipeline.

    Layout:
    - [Py]     : Python exceptions and the result type of fallible code;
    - [Torch]  : dense tensors (a shape and row-major data) with the
                 indexing, permutation, concatenation and reshaping
                 operations the visualiser calls;
    - [Vis]    : the [Visualiser] methods, written in a state-and-exception
                 monad over the instance attributes and a trace of the calls
                 made to the collaborators (writer, model extractor, ...);
    - theorems, grouped by method. *)

From Stdlib Require Import String Ascii.
From Stdlib Require Import List Arith Lia Bool PeanoNat.
From Stdlib Require Import Permutation Sorted QArith.
From Stdlib Require DecimalString DecimalNat DecimalFacts.
Import ListNotations.

Set Implicit Arguments.

(* ------------------------------------------------------------------ *)
(** ** Python exceptions *)

Module Py.

(** The exception classes that the modelled code can raise or catch. *)
Inductive Exn : Type :=
| StopIteration
| IndexError
| ValueError
| AttributeError
| RuntimeError.

(** A computation either raises or returns. *)
Inductive result (T : Type) : Type :=
| Raise (e : Exn)
| Ok (v : T).
Arguments Raise {T} e.
Arguments Ok {T} v.

Definition rbind {T U} (r : result T) (k : T -> result U) : result U :=
  match r with
  | Raise e => Raise e
  | Ok v => k v
  end.

(** [str(n)] for a non-negative Python int. *)
Definition str_nat (n : nat) : string :=
  DecimalString.NilEmpty.string_of_uint (Nat.to_uint n).

End Py.
Export Py.

Declare Scope py_scope.
Delimit Scope py_scope with py.
Notation "x <-- r ;; k" := (rbind r (fun x => k))
  (at level 61, r at next level, right associativity) : py_scope.
Open Scope py_scope.
Open Scope string_scope.
Open Scope list_scope.
Open Scope nat_scope.

(* ------------------------------------------------------------------ *)
(** ** Tensors *)

Module Torch.

(** Number of elements of a shape. *)
Definition numel (sh : list nat) : nat := fold_right Nat.mul 1 sh.

(** All multi-indices of a shape, in row-major order. *)
Fixpoint indices (sh : list nat) : list (list nat) :=
  match sh with
  | [] => [[]]
  | n :: sh' => flat_map (fun i => map (cons i) (indices sh')) (seq 0 n)
  end.

(** Row-major position of a multi-index. *)
Fixpoint offset (sh idx : list nat) : nat :=
  match sh, idx with
  | _ :: sh', i :: idx' => i * numel sh' + offset sh' idx'
  | _, _ => 0
  end.

(** [idx] addresses an element of a tensor of shape [sh]. *)
Definition in_bounds (idx sh : list nat) : Prop := Forall2 lt idx sh.

(** What the tensor library provides and the visualiser does not own:
    the element type with its dtypes, and [torch.argsort] on a list of
    extents.  [argsort] is left abstract because PyTorch does not fix
    the order of equal keys; [sorting_argsort] below is its contract. *)
Class Backend (A : Type) : Type := {
  Dtype : Type;
  default_dtype : Dtype;              (* dtype of [torch.zeros(...)] *)
  zero : A;
  cast : Dtype -> A -> A;             (* element conversion of [.to(dtype)] *)
  scalar_str : A -> string;           (* [str(x)] of a Python scalar *)
  argsort : list nat -> list nat
}.

(** [torch.argsort(torch.tensor(l))]: the positions of [l], ordered so
    that the extents read in that order are ascending. *)
Definition sorting_argsort (srt : list nat -> list nat) : Prop :=
  forall l,
    Permutation (srt l) (seq 0 (length l)) /\
    Sorted le (map (fun a => nth a l 0) (srt l)).

(** A concrete [argsort]: insertion of the positions, stable on ties. *)
Fixpoint insert_pos (l : list nat) (a : nat) (p : list nat) : list nat :=
  match p with
  | [] => [a]
  | b :: p' =>
      if nth a l 0 <? nth b l 0 then a :: b :: p'
      else b :: insert_pos l a p'
  end.

Definition stable_argsort (l : list nat) : list nat :=
  fold_left (fun p a => insert_pos l a p) (seq 0 (length l)) [].

Section Elems.

Context {A : Type} {B : Backend A}.

Record Tensor : Type :=
  mkTensor { dtype : Dtype; shape : list nat; data : list A }.

Definition rank (t : Tensor) : nat := length (shape t).

Definition well_formed (t : Tensor) : Prop :=
  length (data t) = numel (shape t).

(** [t[i0, i1, ...]] for a full multi-index. *)
Definition get (t : Tensor) (idx : list nat) : A :=
  nth (offset (shape t) idx) (data t) zero.

(** The tensor of shape [sh] whose element at [idx] is [f idx]. *)
Definition tabulate (dt : Dtype) (sh : list nat) (f : list nat -> A)
  : Tensor :=
  mkTensor dt sh (map f (indices sh)).

(** [torch.zeros(sh)] *)
Definition zeros (sh : list nat) : Tensor :=
  tabulate default_dtype sh (fun _ => zero).

(** [t.to(dt)] *)
Definition to (dt : Dtype) (t : Tensor) : Tensor :=
  mkTensor dt (shape t) (map (cast dt) (data t)).

(** [t.shape[0]], [t.shape[-1]] *)
Definition shape_first (t : Tensor) : result nat :=
  match shape t with
  | [] => Raise IndexError
  | n :: _ => Ok n
  end.

Definition shape_last (t : Tensor) : result nat :=
  match rev (shape t) with
  | [] => Raise IndexError
  | n :: _ => Ok n
  end.

(** [t[0]]: the first slice along the leading axis. *)
Definition select0 (t : Tensor) : result Tensor :=
  match shape t with
  | [] => Raise IndexError
  | 0 :: _ => Raise IndexError
  | S _ :: sh =>
      Ok (tabulate (dtype t) sh (fun idx => get t (0 :: idx)))
  end.

(** [t[0, :, :, :]] *)
Definition getitem_0___ (t : Tensor) : result Tensor :=
  if rank t <? 4 then Raise IndexError else select0 t.

(** [t[0, :, :, :, 0]]: index 0 on axis 0 and on axis 4. *)
Definition getitem_0___0 (t : Tensor) : result Tensor :=
  match shape t with
  | s0 :: s1 :: s2 :: s3 :: s4 :: rest =>
      if (s0 =? 0) || (s4 =? 0) then Raise IndexError
      else Ok (tabulate (dtype t) (s1 :: s2 :: s3 :: rest)
                 (fun idx =>
                    match idx with
                    | i1 :: i2 :: i3 :: r =>
                        get t (0 :: i1 :: i2 :: i3 :: 0 :: r)
                    | _ => zero
                    end))
  | _ => Raise IndexError
  end.

(** [t[:n]] *)
Definition slice0 (n : nat) (t : Tensor) : result Tensor :=
  match shape t with
  | [] => Raise IndexError
  | s0 :: sh =>
      Ok (tabulate (dtype t) (Nat.min n s0 :: sh) (fun idx => get t idx))
  end.

(** [t[:, :, :n]] *)
Definition getitem___upto (n : nat) (t : Tensor) : result Tensor :=
  match shape t with
  | s0 :: s1 :: s2 :: rest =>
      Ok (tabulate (dtype t) (s0 :: s1 :: Nat.min n s2 :: rest)
            (fun idx => get t idx))
  | _ => Raise IndexError
  end.

(** [p] lists every axis [0 .. n-1] exactly once. *)
Definition is_permutation (p : list nat) (n : nat) : bool :=
  (length p =? n) &&
  forallb (fun a => existsb (Nat.eqb a) p) (seq 0 n).

Fixpoint index_of (a : nat) (p : list nat) : nat :=
  match p with
  | [] => 0
  | b :: p' => if a =? b then 0 else S (index_of a p')
  end.

(** The index into the source tensor of the element that
    [permute p] places at [idx]: axis [j] of the result is axis
    [nth j p] of the source. *)
Definition unpermute (p idx : list nat) : list nat :=
  map (fun a => nth (index_of a p) idx 0) (seq 0 (length p)).

(** [t.permute( *p )] *)
Definition permute (p : list nat) (t : Tensor) : result Tensor :=
  if is_permutation p (rank t) then
    Ok (tabulate (dtype t) (map (fun a => nth a (shape t) 0) p)
          (fun idx => get t (unpermute p idx)))
  else Raise RuntimeError.

(** [t.squeeze()] *)
Definition squeeze (t : Tensor) : Tensor :=
  mkTensor (dtype t) (filter (fun n => negb (n =? 1)) (shape t)) (data t).

(** *** Assignment into a slice, with broadcasting *)

(** Leading extents equal to 1 are dropped from the assigned value
    before it is broadcast. *)
Fixpoint strip_ones (sh : list nat) : list nat :=
  match sh with
  | 1 :: sh' => strip_ones sh'
  | _ => sh
  end.

Fixpoint broadcastable (vsh tsh : list nat) : bool :=
  match vsh, tsh with
  | [], [] => true
  | d :: vsh', s :: tsh' =>
      ((d =? s) || (d =? 1)) && broadcastable vsh' tsh'
  | _, _ => false
  end.

Fixpoint broadcast_index (vsh idx : list nat) : list nat :=
  match vsh, idx with
  | d :: vsh', i :: idx' =>
      (if d =? 1 then 0 else i) :: broadcast_index vsh' idx'
  | _, _ => []
  end.

(** [temporary[:, :, :2] = value] on a 3-axis [temporary]; the result
    is the updated [temporary]. *)
Definition setitem___upto2 (temporary value : Tensor) : result Tensor :=
  match shape temporary with
  | [s0; s1; s2] =>
      let region := [s0; s1; Nat.min 2 s2] in
      let vsh := strip_ones (shape value) in
      let lead := rank value - length vsh in
      if 3 <? length vsh then Raise RuntimeError
      else
        let padn := 3 - length vsh in
        let vsh3 := repeat 1 padn ++ vsh in
        if broadcastable vsh3 region then
          Ok (tabulate (dtype temporary) (shape temporary)
                (fun idx =>
                   match idx with
                   | [_; _; k] =>
                       if k <? 2 then
                         cast (dtype temporary)
                           (get value
                              (repeat 0 lead ++
                               skipn padn (broadcast_index vsh3 idx)))
                       else get temporary idx
                   | _ => get temporary idx
                   end))
        else Raise RuntimeError
  | _ => Raise IndexError
  end.

(** *** Joining and reshaping *)

Definition shape_eqb (a b : list nat) : bool :=
  if list_eq_dec Nat.eq_dec a b then true else false.

(** [torch.cat(ts)] along axis 0.  One-axis tensors with no element
    are skipped, as PyTorch does; the result takes the dtype of the
    first tensor. *)
Definition cat (ts : list Tensor) : result Tensor :=
  match ts with
  | [] => Raise RuntimeError
  | t0 :: _ =>
      if existsb (fun t => rank t =? 0) ts then Raise RuntimeError
      else
        match filter (fun t => negb (shape_eqb (shape t) [0])) ts with
        | [] => Ok (mkTensor (dtype t0) [0] [])
        | (t1 :: _) as ts' =>
            if forallb
                 (fun t => shape_eqb (tl (shape t)) (tl (shape t1))) ts'
            then
              Ok (mkTensor (dtype t0)
                    (list_sum (map (fun t => hd 0 (shape t)) ts')
                       :: tl (shape t1))
                    (concat (map data ts')))
            else Raise RuntimeError
        end
  end.

(** [torch.stack(ts)] along a new axis 0. *)
Definition stack (ts : list Tensor) : result Tensor :=
  match ts with
  | [] => Raise RuntimeError
  | t0 :: _ =>
      if forallb (fun t => shape_eqb (shape t) (shape t0)) ts then
        Ok (mkTensor (dtype t0) (length ts :: shape t0)
              (concat (map data ts)))
      else Raise RuntimeError
  end.

(** [t.view( *pre, -1, *post )] and [t.reshape( *pre, -1, *post )]:
    the extent written [-1] is inferred from the number of elements.
    Tensors are taken to be contiguous, so that [view] does not refuse
    them for their strides. *)
Definition view_infer (pre post : list nat) (t : Tensor)
  : result Tensor :=
  let known := numel (pre ++ post) in
  let n := numel (shape t) in
  if known =? 0 then Raise RuntimeError
  else if n mod known =? 0 then
    Ok (mkTensor (dtype t) (pre ++ [n / known] ++ post) (data t))
  else Raise RuntimeError.

(** *** [Visualiser._adjust_tensors_to_plot] *)

(** The static method of [Visualiser]: it only touches its argument.
    The trailing [.cpu().detach().numpy()] keeps shape and values. *)
Definition _adjust_tensors_to_plot (tensor : Tensor) : result Tensor :=
  tensor <-- (if rank tensor =? 4 then getitem_0___ tensor
              else if 4 <? rank tensor then getitem_0___0 tensor
              else Ok tensor) ;;
  let list_of_permutation := rev (argsort (shape tensor)) in
  tensor <-- permute list_of_permutation tensor ;;
  last_extent <-- shape_last tensor ;;
  tensor <-- (if last_extent =? 2 then
                match shape tensor with
                | s0 :: s1 :: _ =>
                    let temporary := zeros [s0; s1; 3] in
                    setitem___upto2 temporary tensor
                | _ => Raise IndexError
                end
              else getitem___upto 4 tensor) ;;
  permute [1; 0; 2] tensor.

(** *** Closed form on three axes *)

(** What [_adjust_tensors_to_plot] returns for a 3-axis tensor that
    [permute p] brings to the shape [x; y; z]: the two leading axes are
    exchanged, and the last axis is completed to three channels when it
    has two entries and cut to four entries otherwise. *)
Definition oriented_image (t : Tensor) (p : list nat) (x y z : nat)
  : Tensor :=
  if z =? 2 then
    tabulate default_dtype [y; x; 3]
      (fun idx =>
         match idx with
         | [j; i; k] =>
             if k <? 2 then
               cast default_dtype (get t (unpermute p [i; j; k]))
             else zero
         | _ => zero
         end)
  else
    tabulate (dtype t) [y; x; Nat.min 4 z]
      (fun idx =>
         match idx with
         | [j; i; k] => get t (unpermute p [i; j; k])
         | _ => zero
         end).

(** *** Tensors that share the slices the method reads *)

(** [t1] and [t2] have one dtype and the same slice at index 0 of the
    leading axis. *)
Definition agree_on_batch0 (t1 t2 : Tensor) : Prop :=
  dtype t1 = dtype t2 /\
  exists b1 b2 sh,
    shape t1 = S b1 :: sh /\
    shape t2 = S b2 :: sh /\
    forall idx, in_bounds idx sh -> get t1 (0 :: idx) = get t2 (0 :: idx).

(** [t1] and [t2] have one dtype and the same slice at index 0 of the
    leading axis and index 0 of the last axis. *)
Definition agree_on_batch0_last0 (t1 t2 : Tensor) : Prop :=
  dtype t1 = dtype t2 /\
  exists b1 b2 l1 l2 mid,
    shape t1 = S b1 :: mid ++ [S l1] /\
    shape t2 = S b2 :: mid ++ [S l2] /\
    forall idx,
      in_bounds idx mid ->
      get t1 (0 :: idx ++ [0]) = get t2 (0 :: idx ++ [0]).

(** *** The shapes the method accepts *)

(** The shapes on which [_adjust_tensors_to_plot] returns: three axes;
    four or five axes with a first batch element (and, with five, a first
    entry on the last axis); and the 2 x 2 matrix, which the assignment
    into the zero tensor broadcasts. *)
Definition adjustable (sh : list nat) : bool :=
  match sh with
  | [a; b] => (a =? 2) && (b =? 2)
  | [_; _; _] => true
  | [b; _; _; _] => 0 <? b
  | [b; _; _; _; l] => (0 <? b) && (0 <? l)
  | _ => false
  end.

End Elems.

Arguments Tensor A {B}.

End Torch.

(* ------------------------------------------------------------------ *)
(** ** The visualiser *)

Module Vis.
Import Torch.

(** [Compactification(neural_net=..., precision=..., n_samples=...,
    epsilon=..., n_features=..., n_epochs=...)]: the constructor
    arguments, as the visualiser passes them.  The decimal literals are
    kept as the rationals they denote. *)
Record Compactification (Model : Type) : Type := mkCompactification {
  neural_net : Model;
  precision : Q;
  n_samples : nat;
  epsilon : Q;
  n_features : nat;
  n_epochs : nat
}.

Section Visualiser.

Context {A : Type} {B : Backend A}.

#[local] Abbreviation Tensor := (Torch.Tensor A).

(** *** Data loaders *)

(** The label half of a batch: a tensor with one row per sample, or
    the list of strings that collation builds from string labels. *)
Inductive Labels : Type :=
| LabelTensor (t : Tensor)
| LabelList (l : list string).

(** One label, [lab[0]]. *)
Inductive Label : Type :=
| LTensor (t : Tensor)
| LStr (s : string).

Definition Batch : Type := (Tensor * Labels)%type.

(** A loader is iterated from its first batch on every [iter(...)];
    [dataset_data] is the attribute [loader.dataset.data], which a
    dataset may lack. *)
Record DataLoader : Type := mkDataLoader {
  batches : list Batch;
  dataset_data : option Tensor
}.

(** [lab[0]] *)
Definition labels_getitem0 (lab : Labels) : result Label :=
  match lab with
  | LabelTensor t => t0 <-- select0 t ;; Ok (LTensor t0)
  | LabelList [] => Raise IndexError
  | LabelList (s :: _) => Ok (LStr s)
  end.

(** [l.item()]: a tensor with one element gives that element, any
    other tensor raises [ValueError] ("only one element tensors can be
    converted to Python scalars"); a string has no [item]. *)
Definition item (l : Label) : result A :=
  match l with
  | LTensor t =>
      if numel (shape t) =? 1 then Ok (nth 0 (data t) zero)
      else Raise ValueError
  | LStr _ => Raise AttributeError
  end.

(** [str(lab[0].item())] *)
Definition label_text (lab : Labels) : result string :=
  l0 <-- labels_getitem0 lab ;;
  v <-- item l0 ;;
  Ok (scalar_str v).

(** *** Collaborators *)

(** The pipeline's objects and the external functions the visualiser
    calls; none of them is defined in this file.  A function whose type
    ends in [result] may raise; the others are taken to return. *)
Class Collaborators : Type := {
  Model : Type;
  LossFn : Type;
  Diagram : Type;
  Plot : Type;
  Figure : Type;
  BettiCurves : Type;
  Samplings : Type;
  Visualisations : Type;
  Kwargs : Type;
  (* torchvision *)
  make_grid : Tensor -> Tensor;
  (* gdeep.models.ModelExtractor *)
  get_activations : Model -> LossFn -> Tensor -> list Tensor;
  get_decision_boundary : Model -> LossFn -> Tensor -> Tensor;
  (* gdeep.visualisation *)
  persistence_diagrams_of_activations : list Tensor -> list Diagram;
  plotly2tensor : Plot -> Tensor;
  png2tensor : Figure -> Tensor;
  boundary_distance : Compactification Model -> list nat -> A;
  boundary_labels : Compactification Model -> Tensor;
  (* gtda *)
  plot_diagram : Diagram -> Plot;
  betti_curve_fit_transform : list Diagram -> BettiCurves * Samplings;
  plot_betti_surfaces :
    BettiCurves -> Samplings -> option (list Z) -> list Plot;
  (* sklearn.manifold.MDS(...).fit_transform *)
  mds_fit_transform : nat -> string -> Tensor -> Tensor;
  (* captum and matplotlib *)
  visualize_text : Visualisations -> Figure;
  visualize_image_attr_multiple : Tensor -> Tensor -> Figure;
  visualize_image_attr : Tensor -> Kwargs -> Figure;
  interpolated_attribution : Tensor -> Tensor -> result Tensor;
  (* numpy: a.sum(0) divided by its 1-norm *)
  normalised_sum : Tensor -> result Tensor;
  (* matplotlib: the new figure with its axes and title; ax.bar on the
     positions 0 .. columns - 1; the view, the ticks and the legend *)
  new_bar_figure : Figure;
  ax_bar : Figure -> nat -> Tensor -> nat * nat * nat -> result Figure;
  finish_bar_figure : Figure -> nat -> option (list string) -> result Figure;
  (* random.randint(0, 255), by number of the draw *)
  randint_0_255 : nat -> nat
}.

Context {C : Collaborators}.

(** Modelled from the spec: [Compactification.create_final_distance_matrix]
    belongs to [gdeep.visualisation] and is not among the sources.  The
    specification gives the distance matrix the dimensions
    n_samples x n_samples; its entries and the labels are left to
    [boundary_distance] and [boundary_labels]. *)
Definition create_final_distance_matrix (cc : Compactification Model)
  : Tensor * Tensor :=
  (tabulate default_dtype [n_samples cc; n_samples cc]
     (boundary_distance cc),
   boundary_labels cc).

(** [gdeep.analysis.interpretability.Interpreter], the attributes read. *)
Record Interpreter : Type := mkInterpreter {
  x : Tensor;
  attribution : Tensor;
  attribution_list : list Tensor;
  method : string;
  features_list : option (list string);
  stored_visualisations : Visualisations
}.

(** [gdeep.trainer.Trainer], the attributes read; the writer is part of
    the trace below. *)
Record Trainer : Type := mkTrainer {
  model : Model;
  dataloaders : list DataLoader;
  loss_fn : LossFn
}.

(** *** The trace of calls with an effect *)

Inductive Event : Type :=
(* self.pipe.writer *)
| AddGraph (m : Model) (input_to_model : Tensor)
| AddImage (tag : string) (img_tensor : Tensor)
           (global_step : option nat) (dataformats : option string)
| AddImages (tag : string) (img_tensor : Tensor) (dataformats : string)
| AddEmbedding (mat : Tensor) (metadata : option (list Label))
               (label_img : option Tensor) (tag : string)
               (global_step : nat)
| AddFigure (tag : string) (figure : Figure)
| Flush
(* ModelExtractor *)
| GetActivations (inputs : Tensor)
| GetDecisionBoundary (inputs : Tensor)
(* constructors and calls whose arguments are recorded *)
| NewCompactification (cc : Compactification Model)
| NewMDS (n_components : nat) (dissimilarity : string)
| PlotBettiSurfaces (dgms : BettiCurves) (samplings : Samplings)
                    (homology_dimensions : option (list Z))
(* the console, figures and files *)
| ConsolePrint (s : string) (end_ : string)
| ShowPlot (p : Plot)
| Screenshot (fig : Figure) (save_as : string).

Definition is_writer_event (e : Event) : bool :=
  match e with
  | AddGraph _ _ | AddImage _ _ _ _ | AddImages _ _ _
  | AddEmbedding _ _ _ _ _ | AddFigure _ _ | Flush => true
  | _ => false
  end.

Definition is_get_activations (e : Event) : bool :=
  match e with
  | GetActivations _ => true
  | _ => false
  end.

(** *** State and monad *)

(** A [Visualiser] instance ([pipe], [persistence_diagrams]) with the
    trace of the calls made so far and the number of random draws. *)
Record State : Type := mkState {
  pipe : Trainer;
  persistence_diagrams : option (list Diagram);
  trace : list Event;
  random_draws : nat
}.

(** A method either raises or returns, and in both cases leaves the
    state it reached. *)
Definition M (T : Type) : Type := State -> result T * State.

Definition ret {T} (v : T) : M T := fun s => (Ok v, s).

Definition bind {T U} (m : M T) (k : T -> M U) : M U :=
  fun s =>
    match m s with
    | (Ok v, s') => k v s'
    | (Raise e, s') => (Raise e, s')
    end.

Definition lift {T} (r : result T) : M T := fun s => (r, s).

Definition raise {T} (e : Exn) : M T := lift (Raise e).

Definition emit (e : Event) : M unit :=
  fun s =>
    (Ok tt,
     mkState (pipe s) (persistence_diagrams s) (trace s ++ [e])
       (random_draws s)).

Definition self_pipe : M Trainer := fun s => (Ok (pipe s), s).

Definition self_persistence_diagrams : M (option (list Diagram)) :=
  fun s => (Ok (persistence_diagrams s), s).

Definition set_persistence_diagrams (d : list Diagram) : M unit :=
  fun s =>
    (Ok tt, mkState (pipe s) (Some d) (trace s) (random_draws s)).

Definition randint : M nat :=
  fun s =>
    (Ok (randint_0_255 (random_draws s)),
     mkState (pipe s) (persistence_diagrams s) (trace s)
       (S (random_draws s))).

#[local] Notation "v <- m ;; k" := (bind m (fun v => k))
  (at level 61, m at next level, right associativity).

(** [l[0]] on a Python list *)
Definition list_getitem0 {T} (l : list T) : result T :=
  match l with
  | [] => Raise IndexError
  | v :: _ => Ok v
  end.

Definition is_not_None {T} (o : option T) : bool :=
  match o with
  | Some _ => true
  | None => false
  end.

Definition newline : string := String (ascii_of_nat 10) EmptyString.
Definition carriage_return : string :=
  String (ascii_of_nat 13) EmptyString.

(** *** [Visualiser.__init__] *)

(** A new instance over a pipeline; [past] and [draws] are what the
    writer, the console and the random generator have seen so far. *)
Definition __init__ (pipe : Trainer) (past : list Event) (draws : nat)
  : State :=
  mkState pipe None past draws.

(** *** [plot_data_model] *)

(** The [for img, lab in dataiter] loop; [dataiter] is what is left of
    the iterator when the loop is entered. *)
Fixpoint plot_data_model_loop (dataiter : list Batch) (index : nat)
    (features_list : list Tensor) (labels_list : list string)
  : result (list Tensor * list string) :=
  match dataiter with
  | [] => Ok (features_list, labels_list)
  | (img, lab) :: dataiter' =>
      let index := index + 1 in
      img0 <-- select0 img ;;
      let features_list := features_list ++ [img0] in
      labels_list <--
        match label_text lab with
        | Ok s => Ok (labels_list ++ [s])
        | Raise ValueError => Ok (labels_list ++ ["Label not available"])
        | Raise e => Raise e
        end ;;
      if index =? 1000 then Ok (features_list, labels_list)
      else plot_data_model_loop dataiter' index features_list labels_list
  end.

Definition plot_data_model : M unit :=
  pipe <- self_pipe ;;
  loader <- lift (list_getitem0 (dataloaders pipe)) ;;
  match batches loader with
  | [] => raise StopIteration
  | (images, labels) :: dataiter =>
      _ <- emit (AddGraph (model pipe) images) ;;
      fl <- lift (plot_data_model_loop dataiter 0 [] []) ;;
      let '(features_list, labels_list) := fl in
      let max_number := Nat.min 1000 (length labels_list) in
      features <- lift (cat features_list) ;;
      _ <- (if 3 <=? rank features then
              fg <- (if rank features =? 3 then
                       features' <-
                         lift (view_infer [max_number]
                                 [nth 1 (shape features) 0;
                                  nth 2 (shape features) 0] features) ;;
                       ret (features', make_grid features')
                     else ret (features, make_grid features)) ;;
              let '(features, grid) := fg in
              _ <- emit (AddImage "dataset" grid (Some 0) None) ;;
              mat <- lift (view_infer [max_number] [] features) ;;
              emit (AddEmbedding mat (Some (map LStr labels_list))
                      (Some features) "dataset" 0)
            else
              mat <- lift (view_infer [max_number] [] features) ;;
              emit (AddEmbedding mat (Some (map LStr labels_list))
                      None "dataset" 0)) ;;
      emit Flush
  end.

(** *** [plot_activations] *)

(** The [for j, item in enumerate(...)] loop, left at [j == 100]. *)
Fixpoint plot_activations_loop (items : list Batch) (j : nat)
    (inputs : list Tensor) (labels : list Label)
  : result (list Tensor * list Label) :=
  match items with
  | [] => Ok (inputs, labels)
  | item :: items' =>
      l0 <-- labels_getitem0 (snd item) ;;
      let labels := labels ++ [l0] in
      x0 <-- select0 (fst item) ;;
      let inputs := inputs ++ [x0] in
      if j =? 100 then Ok (inputs, labels)
      else plot_activations_loop items' (S j) inputs labels
  end.

(** The [for i, act in enumerate(acts)] loop; [n] is [len(acts)]. *)
Fixpoint plot_activations_send (acts : list Tensor) (i n : nat)
    (labels : list Label) : M unit :=
  match acts with
  | [] => ret tt
  | act :: acts' =>
      _ <- emit (ConsolePrint ("Step " ++ str_nat (i + 1) ++ "/" ++ str_nat n)
                   carriage_return) ;;
      length <- lift (shape_first act) ;;
      mat <- lift (view_infer [length] [] act) ;;
      _ <- emit (AddEmbedding mat (Some labels) None
                   ("activations_" ++ str_nat i) 0) ;;
      _ <- emit Flush ;;
      plot_activations_send acts' (S i) n labels
  end.

Definition plot_activations (example : option Tensor) : M unit :=
  pipe <- self_pipe ;;
  loader <- lift (list_getitem0 (dataloaders pipe)) ;;
  il <- lift (plot_activations_loop (batches loader) 0 [] []) ;;
  let '(inputs, labels) := il in
  inputs <- lift (stack inputs) ;;
  let inputs :=
    match example with
    | Some e => to (dtype e) inputs
    | None => inputs
    end in
  _ <- emit (GetActivations inputs) ;;
  let acts := get_activations (model pipe) (loss_fn pipe) inputs in
  _ <- emit (ConsolePrint "Sending the plots to tensorboard: " newline) ;;
  plot_activations_send acts 0 (length acts) labels.

(** *** [plot_persistence_diagrams] *)

Fixpoint plot_persistence_diagrams_loop (items : list Batch) (j : nat)
    (inputs : list Tensor) : result (list Tensor) :=
  match items with
  | [] => Ok inputs
  | item :: items' =>
      x0 <-- select0 (fst item) ;;
      let inputs := inputs ++ [x0] in
      if j =? 100 then Ok inputs
      else plot_persistence_diagrams_loop items' (S j) inputs
  end.

Definition plot_persistence_diagrams (example : option Tensor)
  : M unit :=
  pipe <- self_pipe ;;
  cached <- self_persistence_diagrams ;;
  diagrams <-
    match cached with
    | None =>
        loader <- lift (list_getitem0 (dataloaders pipe)) ;;
        inputs <-
          lift (plot_persistence_diagrams_loop (batches loader) 0 []) ;;
        inputs <- lift (stack inputs) ;;
        let inputs :=
          match example with
          | Some e => to (dtype e) inputs
          | None => inputs
          end in
        _ <- emit (GetActivations inputs) ;;
        let activ := get_activations (model pipe) (loss_fn pipe) inputs in
        let d := persistence_diagrams_of_activations activ in
        _ <- set_persistence_diagrams d ;;
        ret d
    | Some d => ret d
    end ;;
  let list_of_dgms :=
    map (fun persistence_diagram =>
           plotly2tensor (plot_diagram persistence_diagram)) diagrams in
  features <- lift (stack list_of_dgms) ;;
  _ <- emit (AddImages "persistence_diagrams_of_activations" features
               "NHWC") ;;
  emit Flush.

(** *** [plot_decision_boundary] *)

Definition plot_decision_boundary (compact : bool)
  : M (Tensor * option Tensor * option Tensor) :=
  pipe <- self_pipe ;;
  loader <- lift (list_getitem0 (dataloaders pipe)) ;;
  x <- match batches loader with
       | [] => raise StopIteration
       | first :: _ => lift (select0 (fst first))
       end ;;
  if compact then
    features <- lift (shape_first x) ;;
    let cc :=
      mkCompactification (model pipe) (1 # 10) 500 (51 # 1000)
        features 100 in
    _ <- emit (NewCompactification cc) ;;
    let '(d_final, label_final) := create_final_distance_matrix cc in
    _ <- emit (NewMDS 3 "precomputed") ;;
    let db := mds_fit_transform 3 "precomputed" d_final in
    _ <- emit (AddEmbedding db None None
                 "compactified_decision_boundary" 0) ;;
    _ <- emit Flush ;;
    ret (db, Some d_final, Some label_final)
  else
    _ <- emit (GetDecisionBoundary x) ;;
    let db := get_decision_boundary (model pipe) (loss_fn pipe) x in
    _ <- emit (AddEmbedding db None None "decision_boundary" 0) ;;
    _ <- emit Flush ;;
    ret (db, None, None).

(** *** [betti_plot_layers] *)

Fixpoint show_all (plots : list Plot) : M unit :=
  match plots with
  | [] => ret tt
  | p :: plots' => _ <- emit (ShowPlot p) ;; show_all plots'
  end.

Definition betti_plot_layers (homology_dimension : option (list Z))
    (example : option Tensor) : M unit :=
  let homology_dimension :=
    if is_not_None homology_dimension then Some [0%Z; 1%Z]
    else homology_dimension in
  pipe <- self_pipe ;;
  cached <- self_persistence_diagrams ;;
  diagrams <-
    match cached with
    | None =>
        loader <- lift (list_getitem0 (dataloaders pipe)) ;;
        inputs <-
          match dataset_data loader with
          | None => raise AttributeError
          | Some d => lift (slice0 100 d)
          end ;;
        let inputs :=
          match example with
          | Some e => to (dtype e) inputs
          | None => inputs
          end in
        _ <- emit (GetActivations inputs) ;;
        let d :=
          persistence_diagrams_of_activations
            (get_activations (model pipe) (loss_fn pipe) inputs) in
        _ <- set_persistence_diagrams d ;;
        ret d
    | Some d => ret d
    end ;;
  let '(dgms, samplings) := betti_curve_fit_transform diagrams in
  _ <- emit (PlotBettiSurfaces dgms samplings homology_dimension) ;;
  let plots := plot_betti_surfaces dgms samplings homology_dimension in
  show_all plots.

(** *** The interpreter plots *)

Definition plot_interpreter_text (interpreter : Interpreter)
  : M Figure :=
  let viz := stored_visualisations interpreter in
  let fig := visualize_text viz in
  let name := "out.png" in
  _ <- emit (Screenshot fig name) ;;
  let img_ten := png2tensor fig in
  _ <- emit (AddImage (method interpreter) img_ten None (Some "HWC")) ;;
  ret fig.

(** The [except ValueError] branch, which interpolates the attribution
    to the size of the input, is [interpolated_attribution]. *)
Definition plot_interpreter_image (interpreter : Interpreter)
  : M Figure :=
  attrib <-
    lift (match permute [1; 2; 0] (squeeze (attribution interpreter)) with
          | Raise ValueError =>
              interpolated_attribution (attribution interpreter)
                (x interpreter)
          | r => r
          end) ;;
  img <- lift (permute [1; 2; 0] (squeeze (x interpreter))) ;;
  let fig := visualize_image_attr_multiple attrib img in
  _ <- emit (AddFigure (method interpreter) fig) ;;
  ret fig.

(** The loop over [interpreter.attribution_list]: for each attribution the
    normalised sum, then the three draws of the colour, then the bar. *)
Fixpoint feature_importance_bars (columns : nat)
    (attributions : list Tensor) (fig : Figure) : M Figure :=
  match attributions with
  | [] => ret fig
  | a :: attributions' =>
      attribution_norm_sum <- lift (normalised_sum a) ;;
      r <- randint ;;
      g <- randint ;;
      b <- randint ;;
      fig <- lift (ax_bar fig columns attribution_norm_sum (r, g, b)) ;;
      feature_importance_bars columns attributions' fig
  end.

(** The method returns the [pyplot] module, which holds the figure; the
    figure stands for it here. *)
Definition plot_feature_importance (interpreter : Interpreter)
  : M Figure :=
  let x_test := x interpreter in
  columns <- lift (match shape x_test with
                   | _ :: n :: _ => Ok n
                   | _ => Raise IndexError
                   end) ;;
  let legends := features_list interpreter in
  let fig := new_bar_figure in
  fig <- feature_importance_bars columns (attribution_list interpreter)
           fig ;;
  fig <- lift (finish_bar_figure fig columns legends) ;;
  _ <- emit (AddFigure "Feature Importance" fig) ;;
  ret fig.

Definition plot_attribution (interpreter : Interpreter) (kwargs : Kwargs)
  : M (Figure * Figure) :=
  t1 <- lift (_adjust_tensors_to_plot (x interpreter)) ;;
  t2 <- lift (_adjust_tensors_to_plot (attribution interpreter)) ;;
  let fig1 := visualize_image_attr t1 kwargs in
  let fig2 := visualize_image_attr t2 kwargs in
  _ <- emit (AddFigure "Datum x" fig1) ;;
  _ <- emit (AddFigure "Generic attribution of x" fig2) ;;
  ret (fig1, fig2).

(** *** Calls on an instance *)

(** A method call with its arguments. *)
Inductive Call : Type :=
| Call_plot_data_model
| Call_plot_activations (example : option Tensor)
| Call_plot_persistence_diagrams (example : option Tensor)
| Call_plot_decision_boundary (compact : bool)
| Call_betti_plot_layers (homology_dimension : option (list Z))
                         (example : option Tensor)
| Call_plot_interpreter_text (interpreter : Interpreter)
| Call_plot_interpreter_image (interpreter : Interpreter)
| Call_plot_feature_importance (interpreter : Interpreter)
| Call_plot_attribution (interpreter : Interpreter) (kwargs : Kwargs).

(** The state in which a call leaves the instance, whether it returns
    or raises. *)
Definition after (c : Call) (s : State) : State :=
  match c with
  | Call_plot_data_model => snd (plot_data_model s)
  | Call_plot_activations e => snd (plot_activations e s)
  | Call_plot_persistence_diagrams e =>
      snd (plot_persistence_diagrams e s)
  | Call_plot_decision_boundary c => snd (plot_decision_boundary c s)
  | Call_betti_plot_layers h e => snd (betti_plot_layers h e s)
  | Call_plot_interpreter_text i => snd (plot_interpreter_text i s)
  | Call_plot_interpreter_image i => snd (plot_interpreter_image i s)
  | Call_plot_feature_importance i => snd (plot_feature_importance i s)
  | Call_plot_attribution i k => snd (plot_attribution i k s)
  end.

Definition after_all (cs : list Call) (s : State) : State :=
  fold_left (fun s c => after c s) cs s.

(** The events a computation adds to the trace of [s]. *)
Definition emitted {T} (m : M T) (s : State) : list Event :=
  skipn (length (trace s)) (trace (snd (m s))).

(** *** Vocabulary of the statements *)

Definition is_add_embedding (e : Event) : bool :=
  match e with
  | AddEmbedding _ _ _ _ _ => true
  | _ => false
  end.

(** The first sample of a batch, [img[0]], when the batch has one. *)
Definition first_sample (b : Batch) : Tensor :=
  tabulate (dtype (fst b)) (tl (shape (fst b)))
    (fun idx => get (fst b) (0 :: idx)).

(** The batch holds at least one sample, of shape [fs]. *)
Definition sample_shaped (fs : list nat) (b : Batch) : Prop :=
  exists n, shape (fst b) = S n :: fs.

(** What [plot_data_model] records for a label: its text, or the
    placeholder. *)
Definition recorded_label (lab : Labels) : string :=
  match label_text lab with
  | Ok s => s
  | Raise _ => "Label not available"
  end.

(** Converting the label returns or raises [ValueError]. *)
Definition label_recordable (lab : Labels) : Prop :=
  match label_text lab with
  | Ok _ | Raise ValueError => True
  | Raise _ => False
  end.

(** An activation of shape (batch, *feature_dims) with batch >= 1. *)
Definition batched (act : Tensor) : Prop :=
  exists n sh, shape act = S n :: sh.

(** [act.view(act.shape[0], -1)] for such an activation. *)
Definition flattened (act : Tensor) : Tensor :=
  mkTensor (dtype act) [hd 0 (shape act); numel (tl (shape act))] (data act).

(** The writer records of [plot_activations] for layers [i], [i+1], ... *)
Fixpoint activation_records (acts : list Tensor) (i : nat)
    (labels : list Label) : list Event :=
  match acts with
  | [] => []
  | act :: acts' =>
      AddEmbedding (flattened act) (Some labels) None
        ("activations_" ++ str_nat i) 0
      :: Flush :: activation_records acts' (S i) labels
  end.

(** What [betti_plot_layers] passes on for its first argument. *)
Definition passed_homology_dimensions (h : option (list Z))
  : option (list Z) :=
  match h with
  | Some _ => Some [0%Z; 1%Z]
  | None => None
  end.

(** [m] leaves the instance attributes alone and only adds events that
    satisfy [P] to the trace. *)
Definition frames (P : Event -> bool) {T} (m : M T) : Prop :=
  forall s,
  exists evs k,
    snd (m s) =
      mkState (pipe s) (persistence_diagrams s) (trace s ++ evs) k /\
    forallb P evs = true.

Definition count_get_activations (evs : list Event) : nat :=
  length (filter is_get_activations evs).

(** Any event but a request for activations. *)
Definition no_extraction (e : Event) : bool := negb (is_get_activations e).

(** A call of [plot_activations], which asks for activations on every
    call. *)
Definition is_plot_activations_call (c : Call) : bool :=
  match c with
  | Call_plot_activations _ => true
  | _ => false
  end.

(** The images that [plot_persistence_diagrams] writes for the diagrams
    [d]. *)
Definition diagram_images (d : list Diagram) : result Tensor :=
  stack (map (fun persistence_diagram =>
                plotly2tensor (plot_diagram persistence_diagram)) d).

(** *** More vocabulary *)

Definition is_flush (e : Event) : bool :=
  match e with
  | Flush => true
  | _ => false
  end.

(** The batch has a first label, [item[1][0]]. *)
Definition labelled (b : Batch) : Prop :=
  exists l, labels_getitem0 (snd b) = Ok l.

(** That label. *)
Definition first_label (b : Batch) : Label :=
  match labels_getitem0 (snd b) with
  | Ok l => l
  | Raise _ => LStr EmptyString
  end.

(** [inputs.to(example.dtype)] when an example is given. *)
Definition as_example (example : option Tensor) (inputs : Tensor) : Tensor :=
  match example with
  | Some e => to (dtype e) inputs
  | None => inputs
  end.

(** The instance [s] over another pipeline. *)
Definition with_pipe (p : Trainer) (s : State) : State :=
  mkState p (persistence_diagrams s) (trace s) (random_draws s).


End Visualiser.

End Vis.


(* ------------------------------------------------------------------ *)
(** ** Concrete instances *)

(** A small backend and pipeline on which the methods can be run. *)
Module Examples.
Import Torch Vis.

(** Natural numbers as elements, one dtype, and the stable [argsort]. *)
#[export] Instance NatBackend : Backend nat := {|
  Dtype := unit;
  default_dtype := tt;
  zero := 0;
  cast := fun _ v => v;
  scalar_str := str_nat;
  argsort := stable_argsort
|}.

(** The tensor of shape [sh] holding 1, 2, 3, ... in row-major order. *)
Definition iota (sh : list nat) : Tensor nat :=
  mkTensor tt sh (seq 1 (numel sh)).

(** The tensor of shape [sh] with the elements [l]. *)
Definition tensor_of (sh l : list nat) : Tensor nat := mkTensor tt sh l.

(** The first of the two batch elements of [iota [2; 2; 3; 4]], alone. *)
Definition iota_first_element : Tensor nat :=
  tensor_of [1; 2; 3; 4] (seq 1 24).

(** Collaborators that hand their argument on: a network with two
    layers, diagrams and plots that are the activations themselves.  The
    first row of an attribution stands for its normalised sum, which has
    that shape and exists for a vector or a matrix only; a bar is drawn
    when there is one height per position, or one height in all. *)
#[export] Instance ToyCollaborators : Collaborators (A := nat) := {|
  Model := unit;
  LossFn := unit;
  Diagram := Tensor nat;
  Plot := Tensor nat;
  Figure := unit;
  BettiCurves := list (Tensor nat);
  Samplings := unit;
  Visualisations := unit;
  Kwargs := unit;
  make_grid := fun t => t;
  get_activations := fun _ _ inputs => [inputs; inputs];
  get_decision_boundary := fun _ _ inputs => inputs;
  persistence_diagrams_of_activations := fun acts => acts;
  plotly2tensor := fun p => p;
  png2tensor := fun _ => iota [1; 1; 3];
  boundary_distance := fun _ _ => 0;
  boundary_labels := fun cc => zeros [n_samples cc];
  plot_diagram := fun d => d;
  betti_curve_fit_transform := fun d => (d, tt);
  plot_betti_surfaces :=
    fun _ _ hd =>
      match hd with
      | Some l => map (fun _ => iota [1]) l
      | None => [iota [1]]
      end;
  mds_fit_transform := fun n _ d => zeros [hd 0 (shape d); n];
  visualize_text := fun _ => tt;
  visualize_image_attr_multiple := fun _ _ => tt;
  visualize_image_attr := fun _ _ => tt;
  interpolated_attribution := fun a _ => Ok a;
  normalised_sum :=
    fun a =>
      match shape a with
      | _ :: ([_] as sh) | _ :: ([_; _] as sh) =>
          Ok (mkTensor tt sh (firstn (numel sh) (data a)))
      | _ => Raise ValueError
      end;
  new_bar_figure := tt;
  ax_bar :=
    fun _ columns heights _ =>
      match shape heights with
      | [n] => if (n =? columns) || (n =? 1) then Ok tt
               else Raise ValueError
      | _ => Raise ValueError
      end;
  finish_bar_figure := fun _ _ _ => Ok tt;
  randint_0_255 := fun n => n mod 256
|}.

(** The batch of one sample [[k; k + 1]] with the label [k]. *)
Definition batch_of (k : nat) : Batch :=
  (mkTensor tt [1; 2] [k; k + 1], LabelTensor (mkTensor tt [1] [k])).

(** A loader of [n] such batches, over a dataset without [data]. *)
Definition loader_of (n : nat) : DataLoader :=
  mkDataLoader (map batch_of (seq 0 n)) None.

(** A batch whose labels are strings, and one whose label rows have two
    entries. *)
Definition batch_of_strings : Batch :=
  (mkTensor tt [1; 2] [7; 8], LabelList ["cat"]).

Definition batch_of_pairs : Batch :=
  (mkTensor tt [1; 2] [7; 8], LabelTensor (mkTensor tt [1; 2] [0; 1])).

Definition pipe_of (loaders : list DataLoader) : Trainer :=
  mkTrainer tt loaders tt.

(** A fresh visualiser over a pipeline with one loader. *)
Definition fresh (l : DataLoader) : State := __init__ (pipe_of [l]) [] 0.

(** A dataset that has [data]: four rows of two features. *)
Definition loader_with_data : DataLoader :=
  mkDataLoader (map batch_of (seq 0 2)) (Some (iota [4; 2])).

(** An interpreter result on one image of three channels. *)
Definition image_interpreter : Interpreter :=
  mkInterpreter (iota [1; 3; 4; 5]) (iota [1; 3; 4; 5])
    [iota [2; 2]; iota [2; 2]] "saliency" None tt.


End Examples.

(* ================================================================== *)
(** * Properties *)

Import Torch.

(* ------------------------------------------------------------------ *)
(** ** Row-major indexing *)

Section Indexing.

Lemma flat_map_seq_blocks (m n : nat) :
  flat_map (fun i => seq (i * m) m) (seq 0 n) = seq 0 (n * m).
Proof.
  induction n as [|n IH].
  - reflexivity.
  - rewrite seq_S, flat_map_app, IH. simpl.
    rewrite app_nil_r, <- seq_app. f_equal. lia.
Qed.

Lemma map_add_seq (a s m : nat) :
  map (fun k => a + k) (seq s m) = seq (a + s) m.
Proof.
  revert s. induction m as [|m IH]; intros s; simpl.
  - reflexivity.
  - rewrite IH. do 2 f_equal. lia.
Qed.

Lemma map_offset_cons (n i : nat) (sh : list nat) (l : list (list nat)) :
  map (offset (n :: sh)) (map (cons i) l) =
  map (fun k => i * numel sh + k) (map (offset sh) l).
Proof.
  rewrite !map_map. reflexivity.
Qed.

(** The multi-indices of a shape are listed in the order of their
    row-major positions. *)
Lemma map_offset_indices (sh : list nat) :
  map (offset sh) (indices sh) = seq 0 (numel sh).
Proof.
  induction sh as [|n sh IH].
  - reflexivity.
  - cbn [indices numel fold_right].
    change (fold_right Nat.mul 1 sh) with (numel sh).
    rewrite <- flat_map_seq_blocks.
    rewrite flat_map_concat_map, concat_map, map_map.
    rewrite flat_map_concat_map. f_equal.
    apply map_ext. intros i.
    rewrite map_offset_cons, IH.
    rewrite map_add_seq. f_equal. lia.
Qed.

Lemma length_indices (sh : list nat) : length (indices sh) = numel sh.
Proof.
  rewrite <- (length_map (offset sh)), map_offset_indices.
  apply length_seq.
Qed.

Lemma in_indices (sh idx : list nat) :
  In idx (indices sh) <-> in_bounds idx sh.
Proof.
  revert idx. induction sh as [|n sh IH]; intros idx; simpl.
  - split.
    + intros [<-|[]]. constructor.
    + intros H. inversion H. now left.
  - rewrite in_flat_map. split.
    + intros (i & Hi & Hin). apply in_map_iff in Hin.
      destruct Hin as (idx' & <- & Hin').
      apply in_seq in Hi. constructor; [lia | now apply IH].
    + intros H. inversion H as [|i ? idx' ? Hlt Hrest]; subst.
      exists i. split; [apply in_seq; lia|].
      apply in_map. now apply IH.
Qed.

Lemma offset_indices_nth (sh : list nat) (k : nat) (d : list nat) :
  k < numel sh -> offset sh (nth k (indices sh) d) = k.
Proof.
  intros Hk.
  assert (H : nth k (map (offset sh) (indices sh)) (offset sh d) = k).
  { rewrite map_offset_indices. now rewrite seq_nth. }
  now rewrite map_nth in H.
Qed.

End Indexing.

(* ------------------------------------------------------------------ *)
(** ** Tensors as tables *)

Section TensorFacts.

Context {A : Type} {B : Backend A}.

Lemma nth_offset_indices (sh idx d : list nat) :
  in_bounds idx sh ->
  offset sh idx < numel sh /\ nth (offset sh idx) (indices sh) d = idx.
Proof.
  intros Hb. apply in_indices in Hb.
  destruct (In_nth _ _ d Hb) as (k & Hk & Hnth).
  rewrite length_indices in Hk.
  rewrite <- Hnth at 1 2.
  rewrite (offset_indices_nth sh d Hk). auto.
Qed.

(** Reading a table back. *)
Lemma get_tabulate (dt : Dtype) (sh : list nat) (f : list nat -> A)
    (idx : list nat) :
  in_bounds idx sh -> get (tabulate dt sh f) idx = f idx.
Proof.
  intros Hb. unfold get, tabulate. cbn [shape data].
  destruct (nth_offset_indices idx Hb) as [Hlt Hnth].
  rewrite (nth_indep _ zero (f idx)) by now rewrite length_map, length_indices.
  rewrite map_nth. now rewrite Hnth.
Qed.

(** Two tables over one shape are equal once their entries agree. *)
Lemma tabulate_ext (dt : Dtype) (sh : list nat) (f g : list nat -> A) :
  (forall idx, in_bounds idx sh -> f idx = g idx) ->
  tabulate dt sh f = tabulate dt sh g.
Proof.
  intros H. unfold tabulate. f_equal.
  apply map_ext_in. intros idx Hin. apply H. now apply in_indices.
Qed.

Lemma tabulate_well_formed (dt : Dtype) (sh : list nat) (f : list nat -> A) :
  well_formed (tabulate dt sh f).
Proof.
  unfold well_formed, tabulate. cbn [shape data].
  now rewrite length_map, length_indices.
Qed.

Lemma in_bounds3 (idx : list nat) (a b c : nat) :
  in_bounds idx [a; b; c] ->
  exists i j k, idx = [i; j; k] /\ i < a /\ j < b /\ k < c.
Proof.
  intros H.
  inversion H as [|i ? r1 ? Hi H1]; subst.
  inversion H1 as [|j ? r2 ? Hj H2]; subst.
  inversion H2 as [|k ? r3 ? Hk H3]; subst.
  inversion H3; subst. now exists i, j, k.
Qed.

Lemma in_bounds3_intro (i j k a b c : nat) :
  i < a -> j < b -> k < c -> in_bounds [i; j; k] [a; b; c].
Proof.
  intros. repeat constructor; assumption.
Qed.

End TensorFacts.

(* ------------------------------------------------------------------ *)
(** ** Sorting the extents *)

Section Argsort.

Lemma insert_pos_perm (l : list nat) (a : nat) (p : list nat) :
  Permutation (insert_pos l a p) (a :: p).
Proof.
  induction p as [|b p IH]; simpl.
  - apply Permutation_refl.
  - destruct (nth a l 0 <? nth b l 0).
    + apply Permutation_refl.
    + rewrite IH. apply perm_swap.
Qed.

Lemma insert_pos_sorted (l : list nat) (a : nat) (p : list nat) :
  Sorted le (map (fun i => nth i l 0) p) ->
  Sorted le (map (fun i => nth i l 0) (insert_pos l a p)).
Proof.
  induction p as [|b p IH]; simpl; intros Hs.
  - repeat constructor.
  - destruct (Nat.ltb_spec (nth a l 0) (nth b l 0)) as [Hlt|Hge].
    + simpl. constructor; [assumption|]. constructor. lia.
    + simpl. inversion Hs as [|? ? Hs' Hhd]; subst.
      constructor; [now apply IH|].
      destruct p as [|c p]; simpl.
      * constructor. assumption.
      * destruct (nth a l 0 <? nth c l 0); simpl; constructor.
        -- assumption.
        -- now inversion Hhd.
Qed.

Lemma fold_insert_pos (l xs acc : list nat) :
  Sorted le (map (fun i => nth i l 0) acc) ->
  Permutation (fold_left (fun p a => insert_pos l a p) xs acc) (acc ++ xs) /\
  Sorted le
    (map (fun i => nth i l 0) (fold_left (fun p a => insert_pos l a p) xs acc)).
Proof.
  revert acc. induction xs as [|a xs IH]; intros acc Hs; simpl.
  - rewrite List.app_nil_r. split; [apply Permutation_refl | assumption].
  - destruct (IH (insert_pos l a acc) (insert_pos_sorted l a acc Hs))
      as [Hp Hs'].
    split; [|assumption].
    eapply Permutation_trans; [exact Hp|].
    eapply Permutation_trans;
      [apply Permutation_app_tail, insert_pos_perm|].
    simpl. apply Permutation_middle.
Qed.

(** The stable sort of the positions meets the contract of [argsort]. *)
Lemma stable_argsort_sorts : sorting_argsort stable_argsort.
Proof.
  intros l. unfold stable_argsort.
  assert (Hnil : Sorted le (map (fun i => nth i l 0) [])) by constructor.
  destruct (fold_insert_pos l (seq 0 (length l)) [] Hnil) as [Hp Hs].
  split; assumption.
Qed.

(** The six orders of three axes. *)
Lemma permutation3 (p : list nat) :
  Permutation p [0; 1; 2] ->
  p = [0; 1; 2] \/ p = [0; 2; 1] \/ p = [1; 0; 2] \/
  p = [1; 2; 0] \/ p = [2; 0; 1] \/ p = [2; 1; 0].
Proof.
  intros Hp.
  assert (Hlen := Permutation_length Hp).
  assert (Hnd : NoDup p).
  { apply (Permutation_NoDup (Permutation_sym Hp)).
    repeat constructor; simpl; intuition lia. }
  destruct p as [|a [|b [|c [|? ?]]]]; try discriminate.
  assert (Ha : In a [0; 1; 2]) by (apply (Permutation_in _ Hp); simpl; auto).
  assert (Hb : In b [0; 1; 2]) by (apply (Permutation_in _ Hp); simpl; auto).
  assert (Hc : In c [0; 1; 2]) by (apply (Permutation_in _ Hp); simpl; auto).
  inversion Hnd as [|? ? Hna Hnd1]; subst.
  inversion Hnd1 as [|? ? Hnb _]; subst.
  simpl in Ha, Hb, Hc, Hna, Hnb.
  destruct Ha as [<-|[<-|[<-|[]]]]; destruct Hb as [<-|[<-|[<-|[]]]];
    destruct Hc as [<-|[<-|[<-|[]]]];
    try (exfalso; intuition congruence); intuition congruence.
Qed.

End Argsort.


(* ------------------------------------------------------------------ *)
(** ** [_adjust_tensors_to_plot] on three axes *)

Section Adjust3.

Context {A : Type} {B : Backend A}.

Lemma permute3_eq (t : Tensor A) (a b c p0 p1 p2 : nat) :
  shape t = [a; b; c] ->
  Permutation [p0; p1; p2] [0; 1; 2] ->
  permute [p0; p1; p2] t =
  Ok (tabulate (dtype t)
        [nth p0 [a; b; c] 0; nth p1 [a; b; c] 0; nth p2 [a; b; c] 0]
        (fun idx => get t (unpermute [p0; p1; p2] idx))).
Proof.
  intros Hsh Hp. unfold permute, rank. rewrite Hsh.
  destruct (permutation3 Hp) as [E|[E|[E|[E|[E|E]]]]];
    injection E as -> -> ->; reflexivity.
Qed.

Lemma swap01_eq (dt : Dtype) (x y w : nat) (f : list nat -> A) :
  permute [1; 0; 2] (tabulate dt [x; y; w] f) =
  Ok (tabulate dt [y; x; w]
        (fun idx =>
           match idx with
           | [j; i; k] => f [i; j; k]
           | _ => zero
           end)).
Proof.
  unfold permute, rank. cbn [shape tabulate length is_permutation].
  cbn -[tabulate get]. f_equal. apply tabulate_ext.
  intros idx Hb. destruct (in_bounds3 Hb) as (j & i & k & -> & Hj & Hi & Hk).
  cbn -[tabulate get]. apply get_tabulate.
  now apply in_bounds3_intro.
Qed.

Lemma upto4_eq (v : Tensor A) (x y z : nat) :
  shape v = [x; y; z] ->
  getitem___upto 4 v = Ok (tabulate (dtype v) [x; y; Nat.min 4 z] (get v)).
Proof.
  intros Hsh. unfold getitem___upto. now rewrite Hsh.
Qed.

Lemma pad_eq (v : Tensor A) (x y : nat) :
  shape v = [x; y; 2] -> 2 <= x ->
  setitem___upto2 (zeros [x; y; 3]) v =
  Ok (tabulate default_dtype [x; y; 3]
        (fun idx =>
           match idx with
           | [i; j; k] =>
               if k <? 2 then cast default_dtype (get v [i; j; k]) else zero
           | _ => zero
           end)).
Proof.
  intros Hsh Hx.
  destruct x as [|[|x]]; try lia.
  unfold setitem___upto2, rank. rewrite Hsh.
  cbn -[tabulate get Nat.eqb Nat.ltb zeros].
  unfold zeros at 1 2 3. cbn [shape dtype tabulate].
  rewrite !Nat.eqb_refl. change (3 <? 3) with false. cbn [orb andb].
  f_equal. apply tabulate_ext.
  intros idx Hb. destruct (in_bounds3 Hb) as (i & j & k & -> & Hi & Hj & Hk).
  destruct (Nat.ltb_spec k 2) as [Hk2|Hk2].
  - cbn [Nat.eqb]. destruct (Nat.eqb_spec y 1) as [->|Hy].
    + replace j with 0 by lia. reflexivity.
    + reflexivity.
  - unfold zeros. now rewrite get_tabulate.
Qed.

Lemma argsort3_cases (a b c : nat) :
  sorting_argsort argsort ->
  (argsort [a; b; c] = [0; 1; 2] /\ a <= b <= c) \/
  (argsort [a; b; c] = [0; 2; 1] /\ a <= c <= b) \/
  (argsort [a; b; c] = [1; 0; 2] /\ b <= a <= c) \/
  (argsort [a; b; c] = [1; 2; 0] /\ b <= c <= a) \/
  (argsort [a; b; c] = [2; 0; 1] /\ c <= a <= b) \/
  (argsort [a; b; c] = [2; 1; 0] /\ c <= b <= a).
Proof.
  intros Hsort.
  destruct (Hsort [a; b; c]) as [Hp Hs]. simpl in Hp.
  destruct (permutation3 Hp) as [E|[E|[E|[E|[E|E]]]]];
    rewrite E in Hs |- *; simpl in Hs;
    inversion Hs as [|? ? Hs1 Hh1]; subst;
    inversion Hs1 as [|? ? _ Hh2]; subst;
    inversion Hh1; inversion Hh2; subst; intuition lia.
Qed.

(** On a 3-axis tensor the method returns, and its result is the closed
    form for the permutation that sorts the extents in descending
    order. *)
Lemma adjust_rank3 (t : Tensor A) (a b c : nat) :
  sorting_argsort argsort ->
  shape t = [a; b; c] ->
  exists p x y z,
    Permutation p [0; 1; 2] /\
    map (fun i => nth i [a; b; c] 0) p = [x; y; z] /\
    z <= y <= x /\
    _adjust_tensors_to_plot t = Ok (oriented_image t p x y z).
Proof.
  intros Hsort Hsh.
  assert (Hstep : forall p0 p1 p2,
             rev (argsort [a; b; c]) = [p0; p1; p2] ->
             Permutation [p0; p1; p2] [0; 1; 2] ->
             nth p2 [a; b; c] 0 <= nth p1 [a; b; c] 0 <= nth p0 [a; b; c] 0 ->
             _adjust_tensors_to_plot t =
             Ok (oriented_image t [p0; p1; p2] (nth p0 [a; b; c] 0)
                   (nth p1 [a; b; c] 0) (nth p2 [a; b; c] 0))).
  { intros p0 p1 p2 Hrev Hp Hle.
    unfold _adjust_tensors_to_plot, rank. rewrite Hsh.
    cbn [length Nat.eqb Nat.ltb Nat.leb rbind]. rewrite Hsh, Hrev.
    rewrite (permute3_eq t Hsh Hp). cbn [rbind].
    set (x := nth p0 [a; b; c] 0) in *.
    set (y := nth p1 [a; b; c] 0) in *.
    set (z := nth p2 [a; b; c] 0) in *.
    unfold shape_last. cbn [shape tabulate rev app rbind].
    unfold oriented_image.
    destruct (Nat.eqb_spec z 2) as [Hz|Hz].
    - rewrite Hz. rewrite pad_eq by (cbn [shape tabulate]; congruence || lia).
      cbn [rbind]. rewrite swap01_eq. f_equal. apply tabulate_ext.
      intros idx Hb.
      destruct (in_bounds3 Hb) as (j & i & k & -> & Hj & Hi & Hk).
      destruct (Nat.ltb_spec k 2) as [Hk2|Hk2]; [|reflexivity].
      rewrite get_tabulate by (apply in_bounds3_intro; lia). reflexivity.
    - rewrite (@upto4_eq _ x y z) by reflexivity.
      cbn [rbind dtype tabulate]. rewrite swap01_eq. f_equal.
      apply tabulate_ext. intros idx Hb.
      destruct (in_bounds3 Hb) as (j & i & k & -> & Hj & Hi & Hk).
      rewrite !get_tabulate by (apply in_bounds3_intro; lia). reflexivity. }
  assert (Hperm : forall p,
             In p [[0; 1; 2]; [0; 2; 1]; [1; 0; 2];
                   [1; 2; 0]; [2; 0; 1]; [2; 1; 0]] ->
             Permutation p [0; 1; 2]).
  { intros p Hin. apply NoDup_Permutation.
    - simpl in Hin. intuition subst; repeat constructor; simpl; intuition lia.
    - repeat constructor; simpl; intuition lia.
    - intros n. simpl in Hin. intuition subst; simpl in *; intuition lia. }
  destruct (argsort3_cases a b c Hsort)
    as [[E H]|[[E H]|[[E H]|[[E H]|[[E H]|[E H]]]]]];
    rewrite E in Hstep; cbn [rev app] in Hstep;
    (exists (rev (argsort [a; b; c])),
            (nth 0 (map (fun i => nth i [a; b; c] 0)
                               (rev (argsort [a; b; c]))) 0),
                     (nth 1 (map (fun i => nth i [a; b; c] 0)
                               (rev (argsort [a; b; c]))) 0),
                     (nth 2 (map (fun i => nth i [a; b; c] 0)
                               (rev (argsort [a; b; c]))) 0);
     rewrite E; cbn [rev app map nth];
     split; [apply Hperm; simpl; tauto|];
     split; [reflexivity|]; split; [lia|];
     apply Hstep; [reflexivity|apply Hperm; simpl; tauto|cbn [nth]; lia]).
Qed.

End Adjust3.

Section AdjustRanks.

Context {A : Type} {B : Backend A}.

Lemma adjust_rank4 (t : Tensor A) :
  rank t = 4 ->
  _adjust_tensors_to_plot t = rbind (select0 t) _adjust_tensors_to_plot.
Proof.
  intros Hr. unfold _adjust_tensors_to_plot at 1. rewrite Hr.
  cbn [Nat.eqb]. unfold getitem_0___. rewrite Hr.
  change (4 <? 4) with false. cbv iota.
  unfold select0. unfold rank in Hr.
  destruct (shape t) as [|s0 [|s1 [|s2 [|s3 [|? ?]]]]] eqn:Hsh; try discriminate.
  destruct s0 as [|s0]; [reflexivity|].
  cbn [rbind]. unfold _adjust_tensors_to_plot, rank.
  cbn [shape tabulate length Nat.eqb Nat.ltb Nat.leb rbind]. reflexivity.
Qed.

Lemma adjust_rank5 (t : Tensor A) :
  rank t = 5 ->
  _adjust_tensors_to_plot t =
  rbind (getitem_0___0 t) _adjust_tensors_to_plot.
Proof.
  intros Hr. unfold _adjust_tensors_to_plot at 1. rewrite Hr.
  cbn [Nat.eqb]. change (4 <? 5) with true. cbv iota.
  unfold getitem_0___0. unfold rank in Hr.
  destruct (shape t) as [|s0 [|s1 [|s2 [|s3 [|s4 [|? ?]]]]]] eqn:Hsh;
    try discriminate.
  destruct ((s0 =? 0) || (s4 =? 0)); [reflexivity|].
  cbn [rbind]. unfold _adjust_tensors_to_plot, rank.
  cbn [shape tabulate length Nat.eqb Nat.ltb Nat.leb rbind]. reflexivity.
Qed.

End AdjustRanks.

Section AdjustRank6.

Context {A : Type} {B : Backend A}.

Lemma sorted_head_least (l : list nat) (n m : nat) :
  Sorted le (n :: l) -> In m (n :: l) -> n <= m.
Proof.
  intros Hs Hin.
  apply Sorted_StronglySorted in Hs; [|intros ? ? ?; lia].
  inversion Hs as [|? ? _ Hall]; subst.
  destruct Hin as [<-|Hin]; [lia|].
  rewrite Forall_forall in Hall. now apply Hall.
Qed.

Lemma strip_ones_big (n : nat) (sh : list nat) :
  2 <= n -> strip_ones (n :: sh) = n :: sh.
Proof.
  intros Hn. destruct n as [|[|n]]; try lia. reflexivity.
Qed.

(** With six axes or more the method raises: the two indexing steps leave
    at least four axes, which neither the channel completion nor the last
    permutation accepts. *)
Lemma adjust_rank6 (t : Tensor A) (s0 s1 s2 s3 s4 s5 : nat)
    (rest : list nat) :
  sorting_argsort argsort ->
  shape t = s0 :: s1 :: s2 :: s3 :: s4 :: s5 :: rest ->
  _adjust_tensors_to_plot t =
  if (s0 =? 0) || (s4 =? 0) then Raise IndexError else Raise RuntimeError.
Proof.
  intros Hsort Hsh.
  unfold _adjust_tensors_to_plot at 1. unfold rank at 1 2. rewrite Hsh.
  cbn [length Nat.eqb Nat.ltb Nat.leb].
  unfold getitem_0___0. rewrite Hsh.
  destruct ((s0 =? 0) || (s4 =? 0)); [reflexivity|].
  cbn [rbind shape tabulate].
  set (sh := s1 :: s2 :: s3 :: s5 :: rest).
  set (v := tabulate (dtype t) sh _).
  unfold permute.
  destruct (is_permutation (rev (argsort sh)) (rank v)) eqn:Hperm;
    [|reflexivity].
  cbn [rbind].
  set (sh' := map (fun a => nth a (shape v) 0) (rev (argsort sh))).
  set (v' := tabulate (dtype v) sh' _).
  assert (Hlen : 4 <= length sh').
  { unfold sh'. rewrite length_map.
    unfold is_permutation in Hperm. apply andb_prop in Hperm.
    destruct Hperm as [Hl _]. apply Nat.eqb_eq in Hl. rewrite Hl.
    unfold rank, v. cbn [shape tabulate]. unfold sh. simpl. lia. }
  assert (Hsorted : Sorted le (rev sh')).
  { unfold sh'. rewrite <- map_rev, rev_involutive.
    unfold v. cbn [shape tabulate]. apply Hsort. }
  unfold shape_last. change (shape v') with sh'.
  destruct (rev sh') as [|n S'] eqn:Hrev.
  { apply (f_equal (@length nat)) in Hrev.
    rewrite length_rev in Hrev. simpl in Hrev. lia. }
  cbn [rbind].
  assert (Hsh' : sh' = rev S' ++ [n]).
  { rewrite <- (rev_involutive sh'), Hrev. reflexivity. }
  destruct sh' as [|x0 [|x1 [|x2 [|x3 r]]]] eqn:Esh'; simpl in Hlen; try lia.
  destruct (Nat.eqb_spec n 2) as [Hn|Hn].
  - assert (Hx0 : 2 <= x0).
    { rewrite <- Hn. apply (@sorted_head_least S' n x0 Hsorted).
      rewrite <- Hrev. apply -> in_rev. now left. }
    unfold setitem___upto2. cbn [shape zeros tabulate].
    change (shape v') with (x0 :: x1 :: x2 :: x3 :: r).
    rewrite strip_ones_big by assumption.
    cbn [length Nat.ltb Nat.leb]. reflexivity.
  - unfold getitem___upto. change (shape v') with (x0 :: x1 :: x2 :: x3 :: r).
    cbn [rbind]. unfold permute, rank. cbn [shape tabulate length].
    unfold is_permutation. cbn [length Nat.eqb andb]. reflexivity.
Qed.

End AdjustRank6.

(* ------------------------------------------------------------------ *)
(** ** [_adjust_tensors_to_plot]: channels, copies and slices *)

Section AdjustClaims.

Context {A : Type} {B : Backend A}.

Lemma select0_shape4 (t : Tensor A) (b c h w : nat) :
  shape t = S b :: [c; h; w] ->
  select0 t = Ok (tabulate (dtype t) [c; h; w] (fun idx => get t (0 :: idx))).
Proof.
  intros Hsh. unfold select0. now rewrite Hsh.
Qed.

(** C5, as amended: for a 4-axis tensor of shape (B, 2, H, W) with B >= 1,
    H >= 2 and W >= 2 the method returns a tensor whose last axis has
    exactly 3 entries and whose third channel is zero everywhere. *)
Theorem adjust_two_channels (t : Tensor A) (b h w : nat) :
  sorting_argsort argsort ->
  shape t = [b; 2; h; w] ->
  1 <= b -> 2 <= h -> 2 <= w ->
  exists out,
    _adjust_tensors_to_plot t = Ok out /\
    shape out = [Nat.min h w; Nat.max h w; 3] /\
    forall i j, i < Nat.min h w -> j < Nat.max h w -> get out [i; j; 2] = zero.
Proof.
  intros Hsort Hsh Hb Hh Hw.
  destruct b as [|b]; [lia|].
  rewrite adjust_rank4 by (unfold rank; now rewrite Hsh).
  rewrite (select0_shape4 t Hsh). cbn [rbind].
  set (t' := tabulate (dtype t) [2; h; w] _).
  destruct (@adjust_rank3 _ _ t' 2 h w Hsort eq_refl)
    as (p & x & y & z & Hp & Hmap & Hle & Hadj).
  assert (Hz : z = 2 /\ y = Nat.min h w /\ x = Nat.max h w).
  { destruct (permutation3 Hp) as [E|[E|[E|[E|[E|E]]]]]; subst p;
      cbn [map nth] in Hmap; injection Hmap as <- <- <-; clear - Hh Hw Hle; lia. }
  destruct Hz as (-> & -> & ->).
  rewrite Hadj. unfold oriented_image. cbn [Nat.eqb].
  eexists. split; [reflexivity|]. split; [reflexivity|].
  intros i j Hi Hj.
  clear Hmap.
  rewrite get_tabulate by (apply in_bounds3_intro; first [assumption | lia]).
  reflexivity.
Qed.

(** C6, as amended: for a 4-axis tensor of shape (B, 5, H, W) with B >= 1,
    H >= 4 and W >= 4 the method returns a tensor whose last axis has
    exactly 4 entries; when moreover H > 5 and W > 5, that axis is the
    channel axis and holds channels 0 to 3 of the first batch element, the
    channel of index 4 being dropped. *)
Theorem adjust_five_channels (t : Tensor A) (b h w : nat) :
  sorting_argsort argsort ->
  shape t = [b; 5; h; w] ->
  1 <= b -> 4 <= h -> 4 <= w ->
  exists out,
    _adjust_tensors_to_plot t = Ok out /\
    (exists m n, shape out = [m; n; 4]) /\
    (5 < h -> 5 < w ->
     (shape out = [h; w; 4] /\
      forall i j k, i < h -> j < w -> k < 4 ->
        get out [i; j; k] = get t [0; k; i; j]) \/
     (shape out = [w; h; 4] /\
      forall i j k, i < h -> j < w -> k < 4 ->
        get out [j; i; k] = get t [0; k; i; j])).
Proof.
  intros Hsort Hsh Hb Hh Hw.
  destruct b as [|b]; [lia|].
  rewrite adjust_rank4 by (unfold rank; now rewrite Hsh).
  rewrite (select0_shape4 t Hsh). cbn [rbind].
  set (t' := tabulate (dtype t) [5; h; w] (fun idx => get t (0 :: idx))).
  destruct (@adjust_rank3 _ _ t' 5 h w Hsort eq_refl)
    as (p & x & y & z & Hp & Hmap & Hle & Hadj).
  assert (Hz : 4 <= z).
  { destruct (permutation3 Hp) as [E|[E|[E|[E|[E|E]]]]]; subst p;
      cbn [map nth] in Hmap; injection Hmap as <- <- <-;
      clear - Hh Hw Hle; lia. }
  rewrite Hadj. unfold oriented_image.
  destruct (Nat.eqb_spec z 2) as [E|_]; [clear - E Hz; lia|].
  replace (Nat.min 4 z) with 4 by (clear - Hz; lia).
  eexists. split; [reflexivity|]. cbn [shape tabulate].
  split; [now exists y, x|].
  intros Hh5 Hw5.
  destruct (permutation3 Hp) as [E|[E|[E|[E|[E|E]]]]]; subst p;
    cbn [map nth] in Hmap; injection Hmap as <- <- <-;
    try (exfalso; clear - Hh5 Hw5 Hle; lia).
  - right. split; [reflexivity|]. intros i j k Hi Hj Hk.
    rewrite get_tabulate
      by (apply in_bounds3_intro; first [assumption | lia]).
    cbn -[get tabulate]. unfold t'.
    rewrite get_tabulate
      by (apply in_bounds3_intro; first [assumption | lia]).
    reflexivity.
  - left. split; [reflexivity|]. intros i j k Hi Hj Hk.
    rewrite get_tabulate
      by (apply in_bounds3_intro; first [assumption | lia]).
    cbn -[get tabulate]. unfold t'.
    rewrite get_tabulate
      by (apply in_bounds3_intro; first [assumption | lia]).
    reflexivity.
Qed.

(** C4, as amended: for a 3-axis tensor whose last axis has at most 4
    entries and whose smallest extent is not 2, the method returns an
    axis-permuted copy of its input, no element changed; and when the three
    extents are pairwise distinct, the method applied to its own result
    returns that result. *)
Theorem adjust_three_axes_permuted_copy (t : Tensor A) (a b c : nat) :
  sorting_argsort argsort ->
  shape t = [a; b; c] ->
  c <= 4 ->
  Nat.min a (Nat.min b c) <> 2 ->
  exists q out,
    Permutation q [0; 1; 2] /\
    permute q t = Ok out /\
    _adjust_tensors_to_plot t = Ok out /\
    (a <> b -> b <> c -> a <> c -> _adjust_tensors_to_plot out = Ok out).
Proof.
  intros Hsort Hsh Hc Hmin.
  destruct (adjust_rank3 t Hsort Hsh)
    as (p & x & y & z & Hp & Hmap & Hle & Hadj).
  assert (Hz : z <> 2 /\ Nat.min 4 z = z).
  { destruct (permutation3 Hp) as [E|[E|[E|[E|[E|E]]]]]; subst p;
      cbn [map nth] in Hmap; injection Hmap as <- <- <-;
      clear - Hc Hmin Hle; lia. }
  destruct Hz as [Hz2 Hz4].
  assert (Hout : oriented_image t p x y z =
                 tabulate (dtype t) [y; x; z]
                   (fun idx =>
                      match idx with
                      | [j; i; k] => get t (unpermute p [i; j; k])
                      | _ => zero
                      end)).
  { unfold oriented_image.
    destruct (Nat.eqb_spec z 2) as [E|_]; [contradiction|].
    now rewrite Hz4. }
  assert (Hq : exists q,
             Permutation q [0; 1; 2] /\
             permute q t = Ok (oriented_image t p x y z)).
  { rewrite Hout.
    destruct (permutation3 Hp) as [E|[E|[E|[E|[E|E]]]]]; subst p;
      cbn [map nth] in Hmap; injection Hmap as <- <- <-;
      [ exists [1; 0; 2] | exists [2; 0; 1] | exists [0; 1; 2]
      | exists [2; 1; 0] | exists [0; 2; 1] | exists [1; 2; 0] ];
      (split;
       [ apply NoDup_Permutation;
         [ repeat constructor; simpl; intuition lia
         | repeat constructor; simpl; intuition lia
         | intros n; simpl; intuition lia ]
       | unfold permute, rank; rewrite Hsh;
         cbn -[tabulate get unpermute]; f_equal; apply tabulate_ext;
         intros idx Hb;
         destruct (in_bounds3 Hb) as (j & i & k & -> & _); reflexivity ]). }
  destruct Hq as (q & Hpq & Hperm).
  exists q, (oriented_image t p x y z).
  split; [assumption|]. split; [assumption|]. split; [assumption|].
  intros Hab Hbc Hac.
  rewrite Hout.
  set (g := fun idx : list nat => _).
  destruct (@adjust_rank3 _ _ (tabulate (dtype t) [y; x; z] g) y x z
              Hsort eq_refl)
    as (p' & x' & y' & z' & Hp' & Hmap' & Hle' & Hadj').
  rewrite Hadj'.
  assert (Hdist : z < y < x).
  { destruct (permutation3 Hp) as [E|[E|[E|[E|[E|E]]]]]; subst p;
      cbn [map nth] in Hmap; injection Hmap as <- <- <-;
      clear - Hab Hbc Hac Hle; lia. }
  destruct (permutation3 Hp') as [E|[E|[E|[E|[E|E]]]]]; subst p';
    cbn [map nth] in Hmap'; injection Hmap' as <- <- <-;
    try (exfalso; clear - Hdist Hle'; lia).
  f_equal. unfold oriented_image.
  destruct (Nat.eqb_spec z 2) as [E|_]; [contradiction|].
  rewrite Hz4. cbn [dtype tabulate]. apply tabulate_ext.
  intros idx Hb. destruct (in_bounds3 Hb) as (j & i & k & -> & Hj & Hi & Hk).
  cbn -[get tabulate].
  now rewrite get_tabulate by (apply in_bounds3_intro; assumption).
Qed.

(** C10: for a tensor of rank 4 the result depends only on the slice at
    index 0 of the leading axis, and for rank 5 or more only on the slice at
    index 0 of the leading axis and index 0 of the last axis: two tensors
    that agree there give the same result, whatever their other batch
    elements hold. *)
Theorem adjust_reads_first_slice_only (t1 t2 : Tensor A) :
  sorting_argsort argsort ->
  (rank t1 = 4 -> agree_on_batch0 t1 t2 ->
   _adjust_tensors_to_plot t1 = _adjust_tensors_to_plot t2) /\
  (5 <= rank t1 -> agree_on_batch0_last0 t1 t2 ->
   _adjust_tensors_to_plot t1 = _adjust_tensors_to_plot t2).
Proof.
  intros Hsort. split.
  - intros Hr (Hdt & b1 & b2 & sh & H1 & H2 & Hag).
    assert (Hr2 : rank t2 = 4).
    { unfold rank in *. rewrite H1 in Hr. rewrite H2. exact Hr. }
    rewrite (adjust_rank4 t1 Hr), (adjust_rank4 t2 Hr2).
    f_equal. unfold select0. rewrite H1, H2, Hdt. f_equal.
    now apply tabulate_ext.
  - intros Hr (Hdt & b1 & b2 & l1 & l2 & mid & H1 & H2 & Hag).
    unfold rank in Hr. rewrite H1 in Hr. cbn [length] in Hr.
    rewrite length_app in Hr. cbn [length] in Hr.
    destruct mid as [|m1 [|m2 [|m3 [|m4 r]]]]; cbn [length] in Hr; try lia.
    + (* rank 5 *)
      rewrite (@adjust_rank5 _ _ t1), (@adjust_rank5 _ _ t2)
        by (unfold rank; rewrite ?H1, ?H2; reflexivity).
      f_equal. unfold getitem_0___0. rewrite H1, H2, Hdt.
      cbn [app Nat.eqb orb]. f_equal. apply tabulate_ext.
      intros idx Hb. destruct (in_bounds3 Hb) as (i & j & k & -> & _).
      exact (Hag [i; j; k] Hb).
    + (* rank 6 or more: both calls raise *)
      destruct r as [|m5 r]; cbn [app] in H1, H2.
      * rewrite (adjust_rank6 t1 Hsort H1), (adjust_rank6 t2 Hsort H2).
        reflexivity.
      * rewrite (adjust_rank6 t1 Hsort H1), (adjust_rank6 t2 Hsort H2).
        reflexivity.
Qed.

End AdjustClaims.

(* ------------------------------------------------------------------ *)
(** ** [plot_data_model] *)

Import Vis.

Section DataModel.

Context {A : Type} {B : Backend A} {C : Collaborators}.

Lemma select0_sample (fs : list nat) (b : Batch) :
  sample_shaped fs b -> select0 (fst b) = Ok (first_sample b).
Proof.
  intros [n Hsh]. unfold select0, first_sample. now rewrite Hsh.
Qed.

Lemma first_sample_shape (fs : list nat) (b : Batch) :
  sample_shaped fs b -> shape (first_sample b) = fs.
Proof.
  intros [n Hsh]. unfold first_sample. cbn [shape tabulate]. now rewrite Hsh.
Qed.

(** The loop records one sample and one label per batch, for at most
    [1000 - index] batches. *)
Lemma plot_data_model_loop_run (fs : list nat) (dataiter : list Batch) :
  forall index features_list labels_list,
    index < 1000 ->
    Forall (fun b => sample_shaped fs b /\ label_recordable (snd b))
      (firstn (1000 - index) dataiter) ->
    plot_data_model_loop dataiter index features_list labels_list =
    Ok (features_list ++ map first_sample (firstn (1000 - index) dataiter),
        labels_list ++
          map (fun b => recorded_label (snd b))
            (firstn (1000 - index) dataiter)).
Proof.
  induction dataiter as [|[img lab] rest IH];
    intros index features_list labels_list Hidx Hall.
  - rewrite firstn_nil. simpl. now rewrite !List.app_nil_r.
  - replace (1000 - index) with (S (1000 - (index + 1))) in * by lia.
    rewrite firstn_cons in *. inversion Hall as [|? ? [Hs Hl] Hrest]; subst.
    cbn [plot_data_model_loop].
    pose proof (select0_sample Hs) as Hsel. cbn [fst] in Hsel.
    rewrite Hsel. cbn [rbind].
    unfold label_recordable in Hl. cbn [snd] in Hl.
    cbn [map]. unfold recorded_label at 1. cbn [snd].
    assert (Hlab :
      match label_text lab with
      | Ok s0 => Ok (labels_list ++ [s0])
      | Raise ValueError => Ok (labels_list ++ ["Label not available"])
      | Raise e => Raise e
      end =
      Ok (labels_list ++
            [match label_text lab with
             | Ok s0 => s0
             | Raise _ => "Label not available"
             end])).
    { destruct (label_text lab) as [[]|]; tauto. }
    rewrite Hlab. cbn [rbind].
    destruct (Nat.eqb_spec (index + 1) 1000) as [E|E].
    + replace (1000 - (index + 1)) with 0 by lia. rewrite firstn_0.
      reflexivity.
    + rewrite IH by (assumption || lia).
      now rewrite <- !List.app_assoc.
Qed.

(** A conversion that raises something else than [ValueError] ends the
    loop with that exception. *)
Lemma plot_data_model_loop_raises (fs : list nat) (pre : list Batch)
    (img : Tensor A) (lab : Labels) (post : list Batch) (e : Exn) :
  forall index features_list labels_list,
    index + length pre < 1000 ->
    Forall (fun b => sample_shaped fs b /\ label_recordable (snd b)) pre ->
    sample_shaped fs (img, lab) ->
    label_text lab = Raise e ->
    e <> ValueError ->
    plot_data_model_loop (pre ++ (img, lab) :: post) index
      features_list labels_list = Raise e.
Proof.
  induction pre as [|[img0 lab0] pre IH];
    intros index features_list labels_list Hidx Hall Hs Hl He.
  - cbn [app plot_data_model_loop].
    pose proof (select0_sample Hs) as Hsel. cbn [fst] in Hsel.
    rewrite Hsel. cbn [rbind]. rewrite Hl.
    destruct e; try reflexivity. contradiction.
  - inversion Hall as [|? ? [Hs0 Hl0] Hrest]; subst.
    cbn [app plot_data_model_loop].
    pose proof (select0_sample Hs0) as Hsel. cbn [fst] in Hsel.
    rewrite Hsel. cbn [rbind].
    unfold label_recordable in Hl0. cbn [snd] in Hl0. cbn [length] in Hidx.
    destruct (label_text lab0) as [[]|]; try tauto; cbn [rbind];
      (destruct (Nat.eqb_spec (index + 1) 1000); [lia|]);
      apply IH; assumption || lia.
Qed.

Lemma list_sum_uniform (ts : list (Tensor A)) (f0 : nat) (fs : list nat) :
  Forall (fun t => shape t = f0 :: fs) ts ->
  list_sum (map (fun t => hd 0 (shape t)) ts) = length ts * f0.
Proof.
  induction 1 as [|t ts Ht _ IH]; simpl.
  - reflexivity.
  - rewrite Ht, IH. reflexivity.
Qed.

Lemma shape_eqb_refl (sh : list nat) : shape_eqb sh sh = true.
Proof.
  unfold shape_eqb. destruct (list_eq_dec Nat.eq_dec sh sh); congruence.
Qed.

(** Concatenating samples of one non-empty shape. *)
Lemma cat_uniform (t0 : Tensor A) (ts : list (Tensor A)) (f0 : nat)
    (fs : list nat) :
  Forall (fun t => shape t = f0 :: fs) (t0 :: ts) ->
  0 < numel (f0 :: fs) ->
  cat (t0 :: ts) =
  Ok (mkTensor (dtype t0) (length (t0 :: ts) * f0 :: fs)
        (concat (map data (t0 :: ts)))).
Proof.
  intros Hall Hn.
  assert (Hne : f0 :: fs <> [0]).
  { intros E. rewrite E in Hn. simpl in Hn. lia. }
  unfold cat.
  assert (H0 : existsb (fun t => rank t =? 0) (t0 :: ts) = false).
  { apply not_true_is_false. intros H. apply existsb_exists in H.
    destruct H as (t & Hin & Hr). rewrite Forall_forall in Hall.
    unfold rank in Hr. rewrite (Hall t Hin) in Hr. discriminate. }
  rewrite H0.
  assert (Hf : filter (fun t => negb (shape_eqb (shape t) [0])) (t0 :: ts)
               = t0 :: ts).
  { apply forallb_filter_id. apply forallb_forall. intros t Hin.
    rewrite Forall_forall in Hall. rewrite (Hall t Hin).
    unfold shape_eqb. destruct (list_eq_dec Nat.eq_dec (f0 :: fs) [0]);
      [contradiction|reflexivity]. }
  rewrite Hf.
  assert (Ht : forallb
                 (fun t => shape_eqb (tl (shape t)) (tl (shape t0)))
                 (t0 :: ts) = true).
  { apply forallb_forall. intros t Hin. rewrite Forall_forall in Hall.
    rewrite (Hall t Hin), (Hall t0 (or_introl eq_refl)).
    apply shape_eqb_refl. }
  rewrite Ht, (list_sum_uniform Hall).
  inversion Hall as [|? ? Ht0 _]; subst. now rewrite Ht0.
Qed.

Lemma view_rows (t : Tensor A) (k c : nat) :
  0 < k ->
  numel (shape t) = c * k ->
  view_infer [k] [] t = Ok (mkTensor (dtype t) [k; c] (data t)).
Proof.
  intros Hk Hn. unfold view_infer. cbn [app numel fold_right].
  rewrite Nat.mul_1_r.
  destruct (Nat.eqb_spec k 0) as [E|_]; [lia|].
  change (fold_right Nat.mul 1 (shape t)) with (numel (shape t)).
  rewrite Hn, Nat.Div0.mod_mul, Nat.div_mul by lia. reflexivity.
Qed.

Lemma reshape_images (t : Tensor A) (k f0 f1 f2 : nat) :
  0 < k -> 0 < f1 -> 0 < f2 ->
  numel (shape t) = f0 * (k * (f1 * (f2 * 1))) ->
  view_infer [k] [f1; f2] t =
  Ok (mkTensor (dtype t) [k; f0; f1; f2] (data t)).
Proof.
  intros Hk H1 H2 Hn. unfold view_infer. cbn [app numel fold_right].
  change (fold_right Nat.mul 1 (shape t)) with (numel (shape t)).
  assert (Hpos : k * (f1 * (f2 * 1)) <> 0) by nia.
  destruct (Nat.eqb_spec (k * (f1 * (f2 * 1))) 0) as [E|_]; [lia|].
  rewrite Hn, Nat.Div0.mod_mul, Nat.div_mul by assumption. reflexivity.
Qed.

(** A run of [plot_data_model] on a loader that yields at least two
    batches, the batches after the first holding samples of one non-empty
    shape [fs]: the graph record, the image record when samples have three
    axes or more, then one embedding record and the flush. *)
Lemma plot_data_model_run (s : State) (loader : DataLoader)
    (rest : list DataLoader) (first b1 : Batch) (others : list Batch)
    (fs : list nat) :
  dataloaders (pipe s) = loader :: rest ->
  batches loader = first :: b1 :: others ->
  fs <> [] ->
  0 < numel fs ->
  Forall (fun b => sample_shaped fs b /\ label_recordable (snd b))
    (firstn 1000 (b1 :: others)) ->
  exists mat img pre,
    plot_data_model s =
      (Ok tt,
       mkState (pipe s) (persistence_diagrams s)
         (trace s ++
          AddGraph (model (pipe s)) (fst first) :: pre ++
          [AddEmbedding mat
             (Some (map (fun b => LStr (recorded_label (snd b)))
                      (firstn 1000 (b1 :: others))))
             img "dataset" 0;
           Flush])
         (random_draws s)) /\
    shape mat = [Nat.min 1000 (length (b1 :: others)); numel fs] /\
    forallb (fun e => negb (is_add_embedding e)) pre = true /\
    (length fs <= 3 ->
     forall f,
       img = Some f ->
       hd 0 (shape f) = Nat.min 1000 (length (b1 :: others))).
Proof.
  intros Hdl Hb Hfs Hn Hall.
  pose proof (@plot_data_model_loop_run fs (b1 :: others) 0 [] []
                ltac:(lia)) as Hloop.
  change (1000 - 0) with 1000 in Hloop. specialize (Hloop Hall).
  cbn [app] in Hloop.
  set (batches1000 := firstn 1000 (b1 :: others)) in *.
  set (k := Nat.min 1000 (length (b1 :: others))).
  assert (Hlen : length batches1000 = k) by apply length_firstn.
  assert (Hk : 0 < k) by (unfold k; cbn [length]; lia).
  assert (Hshapes : Forall (fun t : Tensor A => shape t = fs)
                      (map first_sample batches1000)).
  { apply Forall_map. eapply Forall_impl; [|exact Hall].
    intros b [Hs _]. exact (first_sample_shape Hs). }
  destruct fs as [|f0 fs']; [congruence|].
  destruct (map first_sample batches1000) as [|t0 ts] eqn:Hsamples.
  { apply (f_equal (@length _)) in Hsamples.
    rewrite length_map, Hlen in Hsamples. simpl in Hsamples. lia. }
  assert (Hcount : length (t0 :: ts) = k).
  { rewrite <- Hsamples, length_map. exact Hlen. }
  pose proof (cat_uniform Hshapes Hn) as Hcat. rewrite Hcount in Hcat.
  set (features := mkTensor (dtype t0) (k * f0 :: fs')
                     (concat (map data (t0 :: ts)))) in *.
  unfold plot_data_model, bind, self_pipe, lift, raise, emit.
  rewrite Hdl. cbn [list_getitem0]. rewrite Hb. destruct first as [images labels].
  cbn [pipe persistence_diagrams trace random_draws fst].
  rewrite Hloop, Hcat. unfold Batch in *. rewrite !length_map, Hlen.
  replace (Nat.min 1000 k) with k by (unfold k; lia).
  assert (Hnumel : numel (shape features) = numel (f0 :: fs') * k).
  { unfold features. cbn [shape numel fold_right]. lia. }
  rewrite map_map.
  destruct (3 <=? rank features) eqn:H3.
  - destruct (rank features =? 3) eqn:E3.
    + unfold rank, features in E3. cbn [shape length] in E3.
      destruct fs' as [|f1 [|f2 [|? ?]]]; try discriminate.
      cbn [numel fold_right] in Hn.
      cbn [shape features nth].
      rewrite (@reshape_images features k f0 f1 f2)
        by (try nia; unfold features; cbn [shape numel fold_right]; lia).
      cbn [ret pipe persistence_diagrams trace random_draws].
      rewrite (@view_rows _ k (numel [f0; f1; f2]))
        by (try assumption; cbn [shape numel fold_right]; lia).
      cbn [pipe persistence_diagrams trace random_draws].
      eexists _, _, [_]. split.
      * rewrite <- !List.app_assoc. reflexivity.
      * split; [reflexivity|]. split; [reflexivity|].
        intros _ f E. injection E as <-. reflexivity.
    + cbn [ret pipe persistence_diagrams trace random_draws].
      rewrite (@view_rows _ k (numel (f0 :: fs'))) by assumption.
      cbn [pipe persistence_diagrams trace random_draws].
      eexists _, _, [_]. split.
      * rewrite <- !List.app_assoc. reflexivity.
      * split; [reflexivity|]. split; [reflexivity|].
        intros Hle f _. exfalso.
        apply Nat.leb_le in H3. apply Nat.eqb_neq in E3.
        unfold rank, features in H3, E3. cbn [shape length] in H3, E3, Hle.
        clear - H3 E3 Hle. lia.
  - rewrite (@view_rows _ k (numel (f0 :: fs'))) by assumption.
    cbn [pipe persistence_diagrams trace random_draws].
    eexists _, _, []. split.
    + rewrite <- !List.app_assoc. reflexivity.
    + split; [reflexivity|]. split; [reflexivity|].
      intros _ f E. discriminate E.
Qed.

Lemma skipn_app_exact {T} (l l' : list T) : skipn (length l) (l ++ l') = l'.
Proof.
  induction l as [|a l IH]; simpl; [reflexivity | exact IH].
Qed.

Lemma filter_embedding_others (pre : list Event) :
  forallb (fun e => negb (is_add_embedding e)) pre = true ->
  filter is_add_embedding pre = [].
Proof.
  induction pre as [|e pre IH]; simpl; intros H; [reflexivity|].
  apply andb_prop in H. destruct H as [He Hpre].
  destruct (is_add_embedding e); [discriminate | now apply IH].
Qed.

(** C1, as amended: [plot_data_model] uses the first batch of the loader
    for the graph record and takes one sample from each later batch, at
    most 1000 of them.  For a loader that yields N >= 2 batches, each with
    a sample, whose samples share a shape of one to three axes, none of
    them empty, and whose first labels convert to text or raise
    [ValueError] on conversion, it returns and writes exactly one
    embedding record, with min(1000, N - 1) rows, one metadata entry for
    each row and, when label images are attached, one image for each row.
    A loader that yields no batch makes it raise [StopIteration] with
    nothing written, and a loader that yields a single batch makes it
    raise after the graph record. *)
Theorem plot_data_model_rows (s : State) (loader : DataLoader)
    (rest : list DataLoader) :
  dataloaders (pipe s) = loader :: rest ->
  (batches loader = [] -> plot_data_model s = (Raise StopIteration, s)) /\
  (forall first,
     batches loader = [first] ->
     fst (plot_data_model s) = Raise RuntimeError /\
     emitted plot_data_model s = [AddGraph (model (pipe s)) (fst first)]) /\
  (forall fs,
     2 <= length (batches loader) ->
     fs <> [] ->
     length fs <= 3 ->
     0 < numel fs ->
     Forall (fun b => sample_shaped fs b /\ label_recordable (snd b))
       (firstn 1000 (tl (batches loader))) ->
     fst (plot_data_model s) = Ok tt /\
     exists mat meta img,
       filter is_add_embedding (emitted plot_data_model s) =
         [AddEmbedding mat (Some meta) img "dataset" 0] /\
       shape mat =
         [Nat.min 1000 (length (batches loader) - 1); numel fs] /\
       length meta = Nat.min 1000 (length (batches loader) - 1) /\
       forall f,
         img = Some f ->
         hd 0 (shape f) = Nat.min 1000 (length (batches loader) - 1)).
Proof.
  intros Hdl. split; [|split].
  - intros Hb. unfold plot_data_model, bind, self_pipe, lift, raise.
    rewrite Hdl. cbn [list_getitem0]. now rewrite Hb.
  - intros [images labels] Hb.
    unfold emitted, plot_data_model, bind, self_pipe, lift, raise, emit.
    rewrite Hdl. cbn [list_getitem0]. rewrite Hb.
    cbn [plot_data_model_loop cat fst snd trace].
    split; [reflexivity | apply skipn_app_exact].
  - intros fs Hlen Hfs Haxes Hn Hall.
    destruct (batches loader) as [|first [|b1 others]] eqn:Hb;
      cbn [length] in Hlen; try lia.
    cbn [tl] in Hall.
    destruct (plot_data_model_run s Hdl Hb Hfs Hn Hall)
      as (mat & img & pre & Hrun & Hshape & Hpre & Himg).
    unfold emitted. rewrite Hrun. cbn [fst snd trace].
    split; [reflexivity|].
    eexists mat, _, img. rewrite skipn_app_exact.
    cbn [filter is_add_embedding]. rewrite filter_app.
    rewrite (filter_embedding_others _ Hpre). cbn [app filter is_add_embedding].
    split; [reflexivity|].
    replace (length (first :: b1 :: others) - 1)
      with (length (b1 :: others)) by (cbn [length]; lia).
    split; [exact Hshape|]. split; [|exact (Himg Haxes)].
    rewrite length_map. apply length_firstn.
Qed.

(** C7, as amended: in [plot_data_model] a label whose conversion raises
    [ValueError] is recorded as "Label not available" and a label that
    converts is recorded as its text, so that the embedding record carries
    one entry per sample; a conversion that raises any other exception
    ends the call with that exception and no embedding record. *)
Theorem plot_data_model_label_placeholder (s : State) (loader : DataLoader)
    (rest : list DataLoader) (first : Batch) :
  dataloaders (pipe s) = loader :: rest ->
  (forall b1 others fs,
     batches loader = first :: b1 :: others ->
     fs <> [] ->
     0 < numel fs ->
     Forall (fun b => sample_shaped fs b /\ label_recordable (snd b))
       (firstn 1000 (b1 :: others)) ->
     exists mat img,
       filter is_add_embedding (emitted plot_data_model s) =
         [AddEmbedding mat
            (Some (map (fun b =>
                          LStr (match label_text (snd b) with
                                | Ok text => text
                                | Raise _ => "Label not available"
                                end))
                     (firstn 1000 (b1 :: others))))
            img "dataset" 0]) /\
  (forall pre img lab post fs e,
     batches loader = first :: pre ++ (img, lab) :: post ->
     length pre < 1000 ->
     Forall (fun b => sample_shaped fs b /\ label_recordable (snd b)) pre ->
     sample_shaped fs (img, lab) ->
     label_text lab = Raise e ->
     e <> ValueError ->
     fst (plot_data_model s) = Raise e /\
     filter is_add_embedding (emitted plot_data_model s) = []).
Proof.
  intros Hdl. split.
  - intros b1 others fs Hb Hfs Hn Hall.
    destruct (plot_data_model_run s Hdl Hb Hfs Hn Hall)
      as (mat & img & pre & Hrun & _ & Hpre & _).
    exists mat, img. unfold emitted. rewrite Hrun. cbn [snd trace].
    rewrite skipn_app_exact.
    cbn [filter is_add_embedding]. rewrite filter_app.
    rewrite (filter_embedding_others _ Hpre). reflexivity.
  - intros pre img lab post fs e Hb Hlen Hpre Hs Hl He.
    destruct first as [images labels].
    unfold emitted, plot_data_model, bind, self_pipe, lift, raise, emit.
    rewrite Hdl. cbn [list_getitem0]. rewrite Hb.
    cbn [pipe persistence_diagrams trace random_draws].
    pose proof (@plot_data_model_loop_raises fs pre img lab post e 0 [] []
                  Hlen Hpre Hs Hl He) as Hloop.
    unfold Batch in *. rewrite Hloop.
    cbn [fst snd trace]. split; [reflexivity|].
    now rewrite skipn_app_exact.
Qed.

End DataModel.

Section DataModelExamples.

Import Examples.

(** A loader of three batches: the record has two rows. *)
Lemma plot_data_model_rows_witness :
  fst (plot_data_model (fresh (loader_of 3))) = Ok tt /\
  exists mat meta img,
    filter is_add_embedding (emitted plot_data_model (fresh (loader_of 3))) =
      [AddEmbedding mat (Some meta) img "dataset" 0] /\
    shape mat =
      [Nat.min 1000 (length (batches (loader_of 3)) - 1); numel [2]] /\
    length meta = Nat.min 1000 (length (batches (loader_of 3)) - 1) /\
    forall f,
      img = Some f ->
      hd 0 (shape f) = Nat.min 1000 (length (batches (loader_of 3)) - 1).
Proof.
  destruct (@plot_data_model_rows _ _ _ (fresh (loader_of 3)) (loader_of 3)
              [] eq_refl) as (_ & _ & H).
  apply H.
  - simpl. lia.
  - discriminate.
  - simpl. lia.
  - simpl. lia.
  - cbn. repeat constructor; exists 0; reflexivity.
Defined.

(** C1 as stated fails: a loader of two batches of one sample gives an
    embedding record of one row, not min(1000, 2) = 2, and a loader with
    no batch raises. *)
Lemma plot_data_model_rows_counterexample :
  (exists mat meta img,
     filter is_add_embedding (emitted plot_data_model (fresh (loader_of 2))) =
       [AddEmbedding mat meta img "dataset" 0] /\
     shape mat = [1; 2] /\
     hd 0 (shape mat) <> Nat.min 1000 2) /\
  fst (plot_data_model (fresh (loader_of 0))) = Raise StopIteration.
Proof.
  split.
  - eexists _, _, _. split; [vm_compute; reflexivity|].
    split; [reflexivity|]. vm_compute. discriminate.
  - reflexivity.
Qed.

(** A loader whose second batch has label rows of two entries: the
    placeholder is recorded for it, and the text of the label after it. *)
Lemma plot_data_model_label_placeholder_witness :
  exists mat img,
    filter is_add_embedding
      (emitted plot_data_model
         (fresh (mkDataLoader [batch_of 0; batch_of_pairs; batch_of 3] None))) =
      [AddEmbedding mat
         (Some [LStr "Label not available"; LStr "3"]) img "dataset" 0].
Proof.
  destruct (@plot_data_model_label_placeholder _ _ _
              (fresh (mkDataLoader [batch_of 0; batch_of_pairs; batch_of 3]
                        None))
              _ [] (batch_of 0) eq_refl) as (H & _).
  apply (H batch_of_pairs [batch_of 3] [2]).
  - reflexivity.
  - discriminate.
  - simpl. lia.
  - cbn. repeat constructor; exists 0; reflexivity.
Defined.

(** C7 as stated fails: converting a string label raises
    [AttributeError], which [plot_data_model] does not catch; the call
    ends with it and writes no embedding record. *)
Lemma plot_data_model_label_counterexample :
  label_text (snd batch_of_strings) = Raise AttributeError /\
  fst (plot_data_model
         (fresh (mkDataLoader [batch_of 0; batch_of_strings] None))) =
    Raise AttributeError /\
  filter is_add_embedding
    (emitted plot_data_model
       (fresh (mkDataLoader [batch_of 0; batch_of_strings] None))) = [].
Proof.
  repeat split; reflexivity.
Qed.

End DataModelExamples.

(* ------------------------------------------------------------------ *)
(** ** Methods that leave the diagram cache alone *)

Section Frames.

Context {A : Type} {B : Backend A} {C : Collaborators}.

Lemma state_eta (s : State) :
  s = mkState (pipe s) (persistence_diagrams s) (trace s ++ [])
        (random_draws s).
Proof.
  destruct s. cbn. now rewrite List.app_nil_r.
Qed.

Lemma frames_lift (P : Event -> bool) {T} (r : result T) :
  frames P (lift r).
Proof.
  intros s. exists [], (random_draws s). split; [apply state_eta | reflexivity].
Qed.

Lemma frames_ret (P : Event -> bool) {T} (v : T) : frames P (ret v).
Proof.
  intros s. exists [], (random_draws s). split; [apply state_eta | reflexivity].
Qed.

Lemma frames_raise (P : Event -> bool) {T} (e : Exn) :
  frames P (@raise _ _ _ T e).
Proof.
  apply frames_lift.
Qed.

Lemma frames_self_pipe (P : Event -> bool) : frames P self_pipe.
Proof.
  intros s. exists [], (random_draws s). split; [apply state_eta | reflexivity].
Qed.

Lemma frames_self_persistence_diagrams (P : Event -> bool) :
  frames P self_persistence_diagrams.
Proof.
  intros s. exists [], (random_draws s). split; [apply state_eta | reflexivity].
Qed.

Lemma frames_randint (P : Event -> bool) : frames P randint.
Proof.
  intros s. exists [], (S (random_draws s)). cbn.
  now rewrite List.app_nil_r.
Qed.

Lemma frames_emit (P : Event -> bool) (e : Event) :
  P e = true -> frames P (emit e).
Proof.
  intros He s. exists [e], (random_draws s). cbn. now rewrite He.
Qed.

Lemma frames_bind (P : Event -> bool) {T U} (m : M T) (k : T -> M U) :
  frames P m -> (forall v, frames P (k v)) -> frames P (bind m k).
Proof.
  intros Hm Hk s. unfold bind.
  destruct (Hm s) as (evs & n & Hs & Hevs).
  destruct (m s) as [[e|v] s1]; cbn [snd] in Hs; subst s1.
  - now exists evs, n.
  - destruct (Hk v (mkState (pipe s) (persistence_diagrams s)
                      (trace s ++ evs) n)) as (evs' & n' & Hs' & Hevs').
    cbn [pipe persistence_diagrams trace] in Hs'.
    exists (evs ++ evs'), n'. rewrite Hs', List.app_assoc, forallb_app.
    now rewrite Hevs, Hevs'.
Qed.

Lemma frames_weaken (P Q : Event -> bool) {T} (m : M T) :
  (forall e, P e = true -> Q e = true) -> frames P m -> frames Q m.
Proof.
  intros HPQ Hm s. destruct (Hm s) as (evs & n & Hs & Hevs).
  exists evs, n. split; [assumption|].
  rewrite forallb_forall in *. auto.
Qed.

End Frames.

Ltac frames_step :=
  lazymatch goal with
  | |- frames _ (bind _ _) => apply frames_bind; [|intros]
  | |- frames _ (ret _) => apply frames_ret
  | |- frames _ (lift _) => apply frames_lift
  | |- frames _ (raise _) => apply frames_raise
  | |- frames _ self_pipe => apply frames_self_pipe
  | |- frames _ self_persistence_diagrams =>
      apply frames_self_persistence_diagrams
  | |- frames _ randint => apply frames_randint
  | |- frames _ (emit _) => apply frames_emit; reflexivity
  | |- frames _ (match ?x with _ => _ end) => destruct x
  end.

Section FramedMethods.

Context {A : Type} {B : Backend A} {C : Collaborators}.

Lemma frames_plot_data_model : frames no_extraction plot_data_model.
Proof.
  unfold plot_data_model. repeat frames_step.
Qed.

Lemma frames_plot_decision_boundary (compact : bool) :
  frames no_extraction (plot_decision_boundary compact).
Proof.
  unfold plot_decision_boundary. cbv zeta. repeat frames_step.
Qed.

Lemma frames_plot_interpreter_text (i : Interpreter) :
  frames no_extraction (plot_interpreter_text i).
Proof.
  unfold plot_interpreter_text. cbv zeta. repeat frames_step.
Qed.

Lemma frames_plot_interpreter_image (i : Interpreter) :
  frames no_extraction (plot_interpreter_image i).
Proof.
  unfold plot_interpreter_image. cbv zeta. repeat frames_step.
Qed.

Lemma frames_feature_importance_bars (P : Event -> bool) (columns : nat)
    (l : list (Tensor A)) :
  forall fig, frames P (feature_importance_bars columns l fig).
Proof.
  induction l as [|a l IH]; intros fig; cbn [feature_importance_bars].
  - apply frames_ret.
  - repeat frames_step. apply IH.
Qed.

Lemma frames_plot_feature_importance (i : Interpreter) :
  frames no_extraction (plot_feature_importance i).
Proof.
  unfold plot_feature_importance. cbv zeta.
  apply frames_bind; [apply frames_lift|intros].
  apply frames_bind; [apply frames_feature_importance_bars|intros].
  repeat frames_step.
Qed.

Lemma frames_plot_attribution (i : Interpreter) (k : Kwargs) :
  frames no_extraction (plot_attribution i k).
Proof.
  unfold plot_attribution. cbv zeta. repeat frames_step.
Qed.

Lemma frames_plot_activations_send (acts : list (Tensor A)) :
  forall i n labels,
    frames no_extraction (plot_activations_send acts i n labels).
Proof.
  induction acts as [|act acts IH]; intros i n labels;
    cbn [plot_activations_send].
  - apply frames_ret.
  - repeat frames_step. apply IH.
Qed.

Lemma frames_plot_activations (example : option (Tensor A)) :
  frames (fun _ => true) (plot_activations example).
Proof.
  unfold plot_activations. cbv zeta.
  repeat (apply frames_bind; [|intros]);
    try (apply frames_lift || apply frames_self_pipe);
    try (apply frames_emit; reflexivity).
  destruct v1.
  repeat (apply frames_bind; [|intros]);
    try (apply frames_lift || apply frames_self_pipe);
    try (apply frames_emit; reflexivity).
  eapply frames_weaken; [|apply frames_plot_activations_send]. reflexivity.
Qed.

Lemma frames_show_all (P : Event -> bool) (plots : list Plot) :
  (forall p, P (ShowPlot p) = true) -> frames P (show_all plots).
Proof.
  intros HP. induction plots as [|p plots IH]; cbn [show_all].
  - apply frames_ret.
  - apply frames_bind; [apply frames_emit, HP | intros; exact IH].
Qed.

End FramedMethods.

(* ------------------------------------------------------------------ *)
(** ** The diagram cache *)

Section DiagramCache.

Context {A : Type} {B : Backend A} {C : Collaborators}.

(** With diagrams in the cache, [plot_persistence_diagrams] renders them
    and asks for nothing. *)
Lemma plot_persistence_diagrams_cached (s : State) (d : list Diagram)
    (example : option (Tensor A)) :
  persistence_diagrams s = Some d ->
  plot_persistence_diagrams example s =
  match diagram_images d with
  | Ok features =>
      (Ok tt,
       mkState (pipe s) (Some d)
         (trace s ++
          [AddImages "persistence_diagrams_of_activations" features "NHWC";
           Flush])
         (random_draws s))
  | Raise e => (Raise e, s)
  end.
Proof.
  intros Hpd.
  unfold plot_persistence_diagrams, bind, self_pipe,
    self_persistence_diagrams, lift, emit, ret.
  rewrite Hpd. fold (diagram_images d).
  destruct (diagram_images d); cbn; [reflexivity|].
  now rewrite Hpd, <- List.app_assoc.
Qed.

(** With an empty cache, it either raises before asking for activations,
    or asks once and fills the cache. *)
Lemma plot_persistence_diagrams_uncached (s : State)
    (example : option (Tensor A)) :
  persistence_diagrams s = None ->
  (exists e, plot_persistence_diagrams example s = (Raise e, s)) \/
  (exists inputs d evs,
     snd (plot_persistence_diagrams example s) =
       mkState (pipe s) (Some d) (trace s ++ GetActivations inputs :: evs)
         (random_draws s) /\
     forallb no_extraction evs = true /\
     (fst (plot_persistence_diagrams example s) = Ok tt \/
      exists e, fst (plot_persistence_diagrams example s) = Raise e)).
Proof.
  intros Hpd.
  unfold plot_persistence_diagrams, bind, self_pipe,
    self_persistence_diagrams, lift, emit, ret, set_persistence_diagrams.
  rewrite Hpd.
  destruct (list_getitem0 (dataloaders (pipe s))) as [e|loader];
    [left; now exists e|].
  destruct (plot_persistence_diagrams_loop (batches loader) 0 [])
    as [e|inputs]; [left; now exists e|].
  destruct (stack inputs) as [e|stacked]; [left; now exists e|].
  right. cbn [pipe persistence_diagrams trace random_draws].
  match goal with
  | |- context [stack (map _ ?d)] => fold (diagram_images d)
  end.
  eexists _, _.
  destruct (diagram_images _) as [e|features]; cbn [fst snd].
  - exists []. split; [reflexivity|]. split; [reflexivity|].
    right. now exists e.
  - eexists [_; _]. split; [now rewrite <- !List.app_assoc|].
    split; [reflexivity|]. now left.
Qed.

Lemma show_all_run (plots : list Plot) (s : State) :
  show_all plots s =
  (Ok tt,
   mkState (pipe s) (persistence_diagrams s) (trace s ++ map ShowPlot plots)
     (random_draws s)).
Proof.
  revert s. induction plots as [|p plots IH]; intros s; cbn [show_all map].
  - unfold ret. f_equal. apply state_eta.
  - unfold bind, emit. rewrite IH. cbn. now rewrite <- List.app_assoc.
Qed.

(** With diagrams in the cache, [betti_plot_layers] fits the curves, plots
    the surfaces and shows them. *)
Lemma betti_plot_layers_cached (s : State) (d : list Diagram)
    (h : option (list Z)) (example : option (Tensor A)) :
  persistence_diagrams s = Some d ->
  betti_plot_layers h example s =
  (Ok tt,
   mkState (pipe s) (Some d)
     (trace s ++
      PlotBettiSurfaces (fst (betti_curve_fit_transform d))
        (snd (betti_curve_fit_transform d)) (passed_homology_dimensions h)
      :: map ShowPlot
           (plot_betti_surfaces (fst (betti_curve_fit_transform d))
              (snd (betti_curve_fit_transform d))
              (passed_homology_dimensions h)))
     (random_draws s)).
Proof.
  intros Hpd.
  unfold betti_plot_layers, bind, self_pipe, self_persistence_diagrams,
    lift, emit, ret.
  rewrite Hpd. destruct (betti_curve_fit_transform d) as [dgms samplings].
  rewrite show_all_run. cbn. rewrite Hpd, <- List.app_assoc.
  destruct h; reflexivity.
Qed.

Lemma betti_plot_layers_uncached (s : State) (h : option (list Z))
    (example : option (Tensor A)) :
  persistence_diagrams s = None ->
  (exists e, betti_plot_layers h example s = (Raise e, s)) \/
  (exists inputs d,
     betti_plot_layers h example s =
     (Ok tt,
      mkState (pipe s) (Some d)
        (trace s ++
         GetActivations inputs
         :: PlotBettiSurfaces (fst (betti_curve_fit_transform d))
              (snd (betti_curve_fit_transform d))
              (passed_homology_dimensions h)
         :: map ShowPlot
              (plot_betti_surfaces (fst (betti_curve_fit_transform d))
                 (snd (betti_curve_fit_transform d))
                 (passed_homology_dimensions h)))
        (random_draws s))).
Proof.
  intros Hpd.
  unfold betti_plot_layers, bind, self_pipe, self_persistence_diagrams,
    lift, emit, ret, raise, set_persistence_diagrams.
  rewrite Hpd.
  destruct (list_getitem0 (dataloaders (pipe s))) as [e|loader];
    [left; now exists e|].
  destruct (dataset_data loader) as [data|]; [|left; now exists AttributeError].
  unfold lift.
  destruct (slice0 100 data) as [e|inputs]; [left; now exists e|].
  right. cbn [pipe persistence_diagrams trace random_draws].
  eexists _, _.
  match goal with
  | |- context [betti_curve_fit_transform ?d] =>
      destruct (betti_curve_fit_transform d) as [dgms samplings] eqn:Efit
  end.
  rewrite show_all_run. cbn. rewrite Efit. cbn [fst snd].
  rewrite <- !List.app_assoc. destruct h; reflexivity.
Qed.

Lemma count_get_activations_app (evs evs' : list Event) :
  count_get_activations (evs ++ evs') =
  count_get_activations evs + count_get_activations evs'.
Proof.
  unfold count_get_activations. now rewrite filter_app, length_app.
Qed.

Lemma count_no_extraction (evs : list Event) :
  forallb no_extraction evs = true -> count_get_activations evs = 0.
Proof.
  unfold count_get_activations, no_extraction.
  induction evs as [|e evs IH]; cbn; intros H; [reflexivity|].
  apply andb_prop in H. destruct H as [He Hevs].
  destruct (is_get_activations e); [discriminate | now apply IH].
Qed.

(** Every method but the two diagram methods leaves the cache as it is. *)
Lemma after_frames (c : Call) :
  match c with
  | Call_plot_persistence_diagrams _ | Call_betti_plot_layers _ _ => True
  | _ =>
      forall s,
      exists evs k,
        after c s =
          mkState (pipe s) (persistence_diagrams s) (trace s ++ evs) k /\
        (is_plot_activations_call c = false ->
         forallb no_extraction evs = true)
  end.
Proof.
  destruct c; try exact I; intros s; cbn [after is_plot_activations_call].
  - destruct (frames_plot_data_model s) as (evs & k & H & He).
    now exists evs, k.
  - destruct (frames_plot_activations example s) as (evs & k & H & He).
    exists evs, k. split; [assumption | discriminate].
  - destruct (frames_plot_decision_boundary compact s) as (evs & k & H & He).
    now exists evs, k.
  - destruct (frames_plot_interpreter_text interpreter s)
      as (evs & k & H & He).
    now exists evs, k.
  - destruct (frames_plot_interpreter_image interpreter s)
      as (evs & k & H & He).
    now exists evs, k.
  - destruct (frames_plot_feature_importance interpreter s)
      as (evs & k & H & He).
    now exists evs, k.
  - destruct (frames_plot_attribution interpreter kwargs s)
      as (evs & k & H & He).
    now exists evs, k.
Qed.

(** One call: the pipeline stays, the trace grows, a full cache keeps its
    diagrams, and an empty cache is filled by at most one request for
    activations. *)
Lemma after_step (c : Call) (s : State) :
  exists evs k pd,
    after c s = mkState (pipe s) pd (trace s ++ evs) k /\
    (forall d, persistence_diagrams s = Some d -> pd = Some d) /\
    (is_plot_activations_call c = false ->
     match persistence_diagrams s, pd with
     | Some _, _ => count_get_activations evs = 0
     | None, None => count_get_activations evs = 0
     | None, Some _ => count_get_activations evs <= 1
     end).
Proof.
  pose proof (after_frames c) as Hfr.
  destruct c;
    try (destruct (Hfr s) as (evs & k & H & He);
         exists evs, k, (persistence_diagrams s);
         split; [exact H|]; split; [auto|];
         intros Hc; specialize (He Hc); apply count_no_extraction in He;
         destruct (persistence_diagrams s); assumption).
  - (* plot_persistence_diagrams *)
    cbn [after is_plot_activations_call].
    destruct (persistence_diagrams s) as [d|] eqn:Hpd.
    + rewrite (plot_persistence_diagrams_cached s example Hpd).
      destruct (diagram_images d) as [e|features]; cbn [snd].
      * exists [], (random_draws s), (Some d).
        split; [rewrite (state_eta s) at 1; now rewrite Hpd|].
        split; [auto | reflexivity].
      * eexists [_; _], (random_draws s), (Some d).
        split; [reflexivity|]. split; [auto | reflexivity].
    + destruct (plot_persistence_diagrams_uncached s example Hpd)
        as [[e H]|(inputs & d & evs & H & Hevs & _)].
      * rewrite H. cbn [snd]. exists [], (random_draws s), None.
        split; [rewrite (state_eta s) at 1; now rewrite Hpd|].
        split; [discriminate | reflexivity].
      * rewrite H. exists (GetActivations inputs :: evs), (random_draws s),
          (Some d).
        split; [reflexivity|]. split; [discriminate|]. intros _.
        change (GetActivations inputs :: evs)
          with ([GetActivations inputs] ++ evs).
        rewrite count_get_activations_app, (count_no_extraction _ Hevs).
        cbn. lia.
  - (* betti_plot_layers *)
    cbn [after is_plot_activations_call].
    destruct (persistence_diagrams s) as [d|] eqn:Hpd.
    + rewrite (betti_plot_layers_cached s homology_dimension example Hpd).
      cbn [snd]. eexists _, (random_draws s), (Some d).
      split; [reflexivity|]. split; [auto|]. intros _.
      apply count_no_extraction. cbn [forallb]. apply forallb_forall.
      intros e He. apply in_map_iff in He. now destruct He as (p & <- & _).
    + destruct (betti_plot_layers_uncached s homology_dimension example Hpd)
        as [[e H]|(inputs & d & H)].
      * rewrite H. cbn [snd]. exists [], (random_draws s), None.
        split; [rewrite (state_eta s) at 1; now rewrite Hpd|].
        split; [discriminate | reflexivity].
      * rewrite H. cbn [snd]. eexists _, (random_draws s), (Some d).
        split; [reflexivity|]. split; [discriminate|]. intros _.
        match goal with
        | |- count_get_activations (?e :: ?l) <= 1 =>
            change (e :: l) with ([e] ++ l)
        end.
        rewrite count_get_activations_app.
        rewrite (@count_no_extraction (_ :: map ShowPlot _)).
        -- cbn. lia.
        -- cbn [forallb]. apply forallb_forall.
           intros e He. apply in_map_iff in He.
           now destruct He as (p & <- & _).
Qed.

Lemma after_all_cached (cs : list Call) :
  forall s d,
    persistence_diagrams s = Some d ->
    persistence_diagrams (after_all cs s) = Some d.
Proof.
  unfold after_all. induction cs as [|c cs IH]; intros s d Hpd; cbn.
  - exact Hpd.
  - apply IH. destruct (after_step c s) as (evs & k & pd & H & Hkeep & _).
    rewrite H. cbn. now apply Hkeep.
Qed.

Lemma after_all_extractions (cs : list Call) :
  forallb (fun c => negb (is_plot_activations_call c)) cs = true ->
  forall s base evs0,
    trace s = base ++ evs0 ->
    match persistence_diagrams s with
    | None => count_get_activations evs0 = 0
    | Some _ => count_get_activations evs0 <= 1
    end ->
    exists evs,
      trace (after_all cs s) = base ++ evs /\
      count_get_activations evs <= 1.
Proof.
  unfold after_all. induction cs as [|c cs IH]; intros Hcs s base evs0 Ht Hinv.
  - exists evs0. split; [exact Ht|].
    destruct (persistence_diagrams s); lia.
  - cbn [forallb] in Hcs. apply andb_prop in Hcs. destruct Hcs as [Hc Hcs].
    apply negb_true_iff in Hc.
    destruct (after_step c s) as (evs & k & pd & H & Hkeep & Hcount).
    specialize (Hcount Hc). cbn [fold_left].
    apply (IH Hcs (after c s) base (evs0 ++ evs)).
    + rewrite H. cbn. now rewrite Ht, List.app_assoc.
    + rewrite H. cbn [persistence_diagrams].
      rewrite count_get_activations_app.
      destruct (persistence_diagrams s) as [d|] eqn:Hpd.
      * rewrite (Hkeep d eq_refl). lia.
      * destruct pd; lia.
Qed.

(** C3: the cache is [None] in a new instance; diagrams once stored stay
    as they are through every later call; a second call of
    [plot_persistence_diagrams] after a first one that returned renders
    the stored diagrams and asks for no activations; and over any calls
    other than [plot_activations] the instance asks for activations at
    most once. *)
Theorem persistence_diagrams_computed_once :
  (forall p past draws,
     persistence_diagrams (__init__ p past draws) = None) /\
  (forall s d cs,
     persistence_diagrams s = Some d ->
     persistence_diagrams (after_all cs s) = Some d) /\
  (forall s example1 example2,
     fst (plot_persistence_diagrams example1 s) = Ok tt ->
     exists d,
       persistence_diagrams (snd (plot_persistence_diagrams example1 s)) =
         Some d /\
       persistence_diagrams
         (snd (plot_persistence_diagrams example2
                 (snd (plot_persistence_diagrams example1 s)))) = Some d /\
       emitted (plot_persistence_diagrams example2)
         (snd (plot_persistence_diagrams example1 s)) =
         match diagram_images d with
         | Ok features =>
             [AddImages "persistence_diagrams_of_activations" features
                "NHWC"; Flush]
         | Raise _ => []
         end /\
       count_get_activations
         (emitted (plot_persistence_diagrams example2)
            (snd (plot_persistence_diagrams example1 s))) = 0) /\
  (forall p past draws cs,
     forallb (fun c => negb (is_plot_activations_call c)) cs = true ->
     count_get_activations
       (skipn (length past) (trace (after_all cs (__init__ p past draws))))
     <= 1).
Proof.
  split; [reflexivity|]. split; [|split].
  - intros s d cs. apply after_all_cached.
  - intros s example1 example2 Hok.
    assert (Hd : exists d,
               persistence_diagrams
                 (snd (plot_persistence_diagrams example1 s)) = Some d).
    { destruct (persistence_diagrams s) as [d|] eqn:Hpd.
      - rewrite (plot_persistence_diagrams_cached s example1 Hpd) in *.
        destruct (diagram_images d); [discriminate|]. now exists d.
      - destruct (plot_persistence_diagrams_uncached s example1 Hpd)
          as [[e H]|(inputs & d & evs & H & _)].
        + rewrite H in Hok. discriminate.
        + rewrite H. now exists d. }
    destruct Hd as [d Hd]. exists d. split; [exact Hd|].
    set (s1 := snd (plot_persistence_diagrams example1 s)) in *.
    unfold emitted.
    rewrite !(plot_persistence_diagrams_cached s1 _ Hd).
    destruct (diagram_images d); cbn [snd trace persistence_diagrams];
      (split; [assumption || reflexivity|]).
    + rewrite skipn_all. split; reflexivity.
    + rewrite skipn_app_exact. split; reflexivity.
  - intros p past draws cs Hcs.
    destruct (@after_all_extractions cs Hcs (__init__ p past draws) past [])
      as (evs & Ht & Hcount).
    + cbn. now rewrite List.app_nil_r.
    + reflexivity.
    + rewrite Ht, skipn_app_exact. exact Hcount.
Qed.

(** C2: whatever list is passed for [homology_dimension], the surfaces are
    plotted for the dimensions [0; 1]; when nothing is passed, nothing is
    passed on. *)
Theorem betti_plot_layers_overrides_dimensions (s : State)
    (h : option (list Z)) (example : option (Tensor A)) :
  (forall l, passed_homology_dimensions (Some l) = Some [0%Z; 1%Z]) /\
  passed_homology_dimensions None = None /\
  (forall dgms samplings h',
     In (PlotBettiSurfaces dgms samplings h')
       (emitted (betti_plot_layers h example) s) ->
     h' = passed_homology_dimensions h) /\
  (forall d,
     persistence_diagrams s = Some d ->
     fst (betti_plot_layers h example s) = Ok tt /\
     emitted (betti_plot_layers h example) s =
       PlotBettiSurfaces (fst (betti_curve_fit_transform d))
         (snd (betti_curve_fit_transform d)) (passed_homology_dimensions h)
       :: map ShowPlot
            (plot_betti_surfaces (fst (betti_curve_fit_transform d))
               (snd (betti_curve_fit_transform d))
               (passed_homology_dimensions h))).
Proof.
  split; [reflexivity|]. split; [reflexivity|]. split.
  - intros dgms samplings h' Hin. unfold emitted in Hin.
    destruct (persistence_diagrams s) as [d|] eqn:Hpd.
    + rewrite (betti_plot_layers_cached s h example Hpd) in Hin.
      cbn [snd trace] in Hin. rewrite skipn_app_exact in Hin.
      destruct Hin as [E|Hin]; [now injection E|].
      apply in_map_iff in Hin. now destruct Hin as (p & E & _).
    + destruct (betti_plot_layers_uncached s h example Hpd)
        as [[e H]|(inputs & d & H)]; rewrite H in Hin; cbn [snd trace] in Hin.
      * rewrite skipn_all in Hin. destruct Hin.
      * rewrite skipn_app_exact in Hin.
        destruct Hin as [E|[E|Hin]]; [discriminate | now injection E|].
        apply in_map_iff in Hin. now destruct Hin as (p & E & _).
  - intros d Hpd. unfold emitted.
    rewrite (betti_plot_layers_cached s h example Hpd). cbn [fst snd trace].
    split; [reflexivity | apply skipn_app_exact].
Qed.

End DiagramCache.

(* ------------------------------------------------------------------ *)
(** ** [plot_activations] *)

Section Activations.

Context {A : Type} {B : Backend A} {C : Collaborators}.

Lemma str_nat_inj (n m : nat) : str_nat n = str_nat m -> n = m.
Proof.
  unfold str_nat. intros H.
  apply DecimalNat.Unsigned.to_uint_inj.
  pose proof (DecimalString.NilEmpty.usu (Nat.to_uint n)) as Hn.
  pose proof (DecimalString.NilEmpty.usu (Nat.to_uint m)) as Hm.
  rewrite H in Hn. congruence.
Qed.

(** The tags of the layers are pairwise distinct. *)
Lemma activation_tags_distinct (n : nat) :
  NoDup (map (fun i => ("activations_" ++ str_nat i)%string) (seq 0 n)).
Proof.
  generalize (seq_NoDup n 0).
  induction (seq 0 n) as [|i l IH]; intros Hnd; cbn [map].
  - constructor.
  - inversion Hnd as [|? ? Hin Hl]; subst. constructor; [|now apply IH].
    intros H. apply in_map_iff in H. destruct H as (j & E & Hj).
    cbn in E. injection E as E. apply str_nat_inj in E. now subst.
Qed.

Lemma view_batched (act : Tensor A) :
  batched act ->
  shape_first act = Ok (hd 0 (shape act)) /\
  view_infer [hd 0 (shape act)] [] act = Ok (flattened act).
Proof.
  intros (n & sh & Hsh). unfold shape_first, flattened. rewrite Hsh.
  cbn [hd tl]. split; [reflexivity|].
  rewrite (@view_rows _ _ act (S n) (numel sh)); [reflexivity | lia |].
  rewrite Hsh. cbn [numel fold_right]. apply Nat.mul_comm.
Qed.

(** The sending loop writes, for each layer in turn, its embedding record
    and a flush. *)
Lemma plot_activations_send_run (acts : list (Tensor A)) :
  forall i n labels s,
    Forall batched acts ->
    exists evs,
      plot_activations_send acts i n labels s =
        (Ok tt,
         mkState (pipe s) (persistence_diagrams s) (trace s ++ evs)
           (random_draws s)) /\
      filter is_writer_event evs = activation_records acts i labels.
Proof.
  induction acts as [|act acts IH]; intros i n labels s Hall;
    cbn [plot_activations_send activation_records].
  - exists []. split; [|reflexivity]. unfold ret. f_equal. apply state_eta.
  - inversion Hall as [|? ? Hact Hrest]; subst.
    destruct (view_batched Hact) as [Hfirst Hview].
    unfold bind, emit, lift. rewrite Hfirst, Hview.
    cbn [pipe persistence_diagrams trace random_draws].
    match goal with
    | |- context [plot_activations_send acts (S i) n labels ?s1] =>
        destruct (IH (S i) n labels s1 Hrest) as (evs & Hrun & Hevs);
        rewrite Hrun
    end.
    cbn [pipe persistence_diagrams trace random_draws].
    eexists (_ :: _ :: _ :: evs). split.
    + rewrite <- !List.app_assoc. reflexivity.
    + cbn [filter is_writer_event]. now rewrite Hevs.
Qed.

Lemma filter_embedding_writer (evs : list Event) :
  filter is_add_embedding evs =
  filter is_add_embedding (filter is_writer_event evs).
Proof.
  induction evs as [|e evs IH]; cbn; [reflexivity|].
  destruct e; cbn; rewrite ?IH; reflexivity.
Qed.

Lemma activation_records_count (acts : list (Tensor A)) :
  forall i labels,
    length (filter is_add_embedding (activation_records acts i labels)) =
    length acts.
Proof.
  induction acts as [|act acts IH]; intros i labels; cbn; [reflexivity|].
  now rewrite IH.
Qed.

(** C8: once the model extractor has returned the activations of the
    layers, each of shape (batch, *feature_dims), [plot_activations]
    returns after writing, for layer 0, 1, ... in turn, one embedding
    record tagged "activations_" followed by the index of the layer, and a
    flush after each record; the tags are pairwise distinct. *)
Theorem plot_activations_one_record_per_layer (s : State)
    (example : option (Tensor A)) (loader : DataLoader)
    (rest : list DataLoader) (inputs : list (Tensor A))
    (labels : list Label) (stacked : Tensor A) :
  dataloaders (pipe s) = loader :: rest ->
  plot_activations_loop (batches loader) 0 [] [] = Ok (inputs, labels) ->
  stack inputs = Ok stacked ->
  Forall batched
    (get_activations (model (pipe s)) (loss_fn (pipe s))
       match example with
       | Some e => to (dtype e) stacked
       | None => stacked
       end) ->
  fst (plot_activations example s) = Ok tt /\
  filter is_writer_event (emitted (plot_activations example) s) =
    activation_records
      (get_activations (model (pipe s)) (loss_fn (pipe s))
         match example with
         | Some e => to (dtype e) stacked
         | None => stacked
         end) 0 labels /\
  length (filter is_add_embedding (emitted (plot_activations example) s)) =
    length
      (get_activations (model (pipe s)) (loss_fn (pipe s))
         match example with
         | Some e => to (dtype e) stacked
         | None => stacked
         end) /\
  NoDup
    (map (fun i => ("activations_" ++ str_nat i)%string)
       (seq 0
          (length
             (get_activations (model (pipe s)) (loss_fn (pipe s))
                match example with
                | Some e => to (dtype e) stacked
                | None => stacked
                end)))).
Proof.
  intros Hdl Hloop Hstack Hacts.
  set (acts := get_activations _ _ _) in *.
  assert (Hrun : exists evs,
             plot_activations example s =
               (Ok tt,
                mkState (pipe s) (persistence_diagrams s) (trace s ++ evs)
                  (random_draws s)) /\
             filter is_writer_event evs = activation_records acts 0 labels).
  { unfold plot_activations, bind, self_pipe, lift, emit.
    rewrite Hdl. cbn [list_getitem0]. rewrite Hloop, Hstack.
    cbn [pipe persistence_diagrams trace random_draws model loss_fn].
    fold acts.
    match goal with
    | |- context [plot_activations_send acts 0 ?n labels ?s1] =>
        destruct (@plot_activations_send_run acts 0 n labels s1 Hacts)
          as (evs & Hrun & Hevs);
        rewrite Hrun
    end.
    cbn [pipe persistence_diagrams trace random_draws].
    eexists (_ :: _ :: evs). split.
    - rewrite <- !List.app_assoc. reflexivity.
    - cbn [filter is_writer_event]. exact Hevs. }
  destruct Hrun as (evs & Hrun & Hevs).
  unfold emitted. rewrite Hrun. cbn [fst snd trace].
  rewrite skipn_app_exact.
  split; [reflexivity|]. split; [exact Hevs|]. split.
  - rewrite filter_embedding_writer, Hevs. apply activation_records_count.
  - apply activation_tags_distinct.
Qed.

End Activations.

(* ------------------------------------------------------------------ *)
(** ** [plot_decision_boundary] *)

Section DecisionBoundary.

Context {A : Type} {B : Backend A} {C : Collaborators}.

(** C9: with [compact] set, [plot_decision_boundary] builds the
    [Compactification] with precision 0.1, 500 samples, epsilon 0.051 and
    100 epochs, fits a 3-component [MDS] on the precomputed distance
    matrix, writes the embedding and returns it with the distance matrix,
    of dimensions 500 x 500, and the labels. *)
Theorem plot_decision_boundary_compact (s : State) (loader : DataLoader)
    (rest : list DataLoader) (first : Batch) (others : list Batch)
    (x : Tensor A) (features : nat) (sh : list nat) :
  dataloaders (pipe s) = loader :: rest ->
  batches loader = first :: others ->
  select0 (fst first) = Ok x ->
  shape x = features :: sh ->
  exists cc d_final label_final db,
    cc = mkCompactification (model (pipe s)) (1 # 10) 500 (51 # 1000)
           features 100 /\
    (d_final, label_final) = create_final_distance_matrix cc /\
    db = mds_fit_transform 3 "precomputed" d_final /\
    shape d_final = [500; 500] /\
    fst (plot_decision_boundary true s) =
      Ok (db, Some d_final, Some label_final) /\
    emitted (plot_decision_boundary true) s =
      [NewCompactification cc; NewMDS 3 "precomputed";
       AddEmbedding db None None "compactified_decision_boundary" 0; Flush].
Proof.
  intros Hdl Hb Hx Hsh.
  eexists _, _, _, _.
  split; [reflexivity|]. split; [reflexivity|]. split; [reflexivity|].
  split; [reflexivity|].
  unfold emitted, plot_decision_boundary, bind, self_pipe, lift, emit, ret.
  rewrite Hdl. cbn [list_getitem0]. rewrite Hb, Hx.
  unfold shape_first. rewrite Hsh.
  cbn [fst snd pipe persistence_diagrams trace random_draws
       create_final_distance_matrix].
  split; [reflexivity|].
  rewrite <- !List.app_assoc. apply skipn_app_exact.
Qed.

End DecisionBoundary.

(* ------------------------------------------------------------------ *)
(** ** The statements on concrete inputs *)

Section ConcreteRuns.

Import Examples.

(** The shape (1, 2, 3, 4). *)
Lemma adjust_two_channels_witness :
  exists out,
    _adjust_tensors_to_plot (iota [1; 2; 3; 4]) = Ok out /\
    shape out = [Nat.min 3 4; Nat.max 3 4; 3] /\
    forall i j, i < Nat.min 3 4 -> j < Nat.max 3 4 -> get out [i; j; 2] = zero.
Proof.
  apply (@adjust_two_channels nat NatBackend (iota [1; 2; 3; 4]) 1 3 4).
  - exact stable_argsort_sorts.
  - reflexivity.
  - lia.
  - lia.
  - lia.
Defined.

(** C5 as stated fails: for the shape (1, 2, 1, 5) the last axis of the
    result has one entry, not three. *)
Lemma adjust_two_channels_counterexample :
  exists out,
    _adjust_tensors_to_plot (iota [1; 2; 1; 5]) = Ok out /\
    shape out = [2; 5; 1] /\
    last (shape out) 0 <> 3.
Proof.
  eexists. split; [vm_compute; reflexivity|].
  split; [reflexivity | cbn; discriminate].
Qed.

(** The shape (1, 5, 6, 7). *)
Lemma adjust_five_channels_witness :
  exists out,
    _adjust_tensors_to_plot (iota [1; 5; 6; 7]) = Ok out /\
    (exists m n, shape out = [m; n; 4]) /\
    (5 < 6 -> 5 < 7 ->
     (shape out = [6; 7; 4] /\
      forall i j k, i < 6 -> j < 7 -> k < 4 ->
        get out [i; j; k] = get (iota [1; 5; 6; 7]) [0; k; i; j]) \/
     (shape out = [7; 6; 4] /\
      forall i j k, i < 6 -> j < 7 -> k < 4 ->
        get out [j; i; k] = get (iota [1; 5; 6; 7]) [0; k; i; j])).
Proof.
  apply (@adjust_five_channels nat NatBackend (iota [1; 5; 6; 7]) 1 6 7).
  - exact stable_argsort_sorts.
  - reflexivity.
  - lia.
  - lia.
  - lia.
Defined.

(** C6 as stated fails: for the shape (1, 5, 3, 7) the last axis of the
    result has three entries, not four, and no channel is dropped. *)
Lemma adjust_five_channels_counterexample :
  exists out,
    _adjust_tensors_to_plot (iota [1; 5; 3; 7]) = Ok out /\
    shape out = [5; 7; 3] /\
    last (shape out) 0 <> 4.
Proof.
  eexists. split; [vm_compute; reflexivity|].
  split; [reflexivity | cbn; discriminate].
Qed.

(** The shape (5, 6, 3). *)
Lemma adjust_three_axes_permuted_copy_witness :
  exists q out,
    Permutation q [0; 1; 2] /\
    permute q (iota [5; 6; 3]) = Ok out /\
    _adjust_tensors_to_plot (iota [5; 6; 3]) = Ok out /\
    (5 <> 6 -> 6 <> 3 -> 5 <> 3 -> _adjust_tensors_to_plot out = Ok out).
Proof.
  apply (@adjust_three_axes_permuted_copy nat NatBackend (iota [5; 6; 3])
           5 6 3).
  - exact stable_argsort_sorts.
  - reflexivity.
  - lia.
  - cbn. lia.
Defined.

(** C4 as stated fails: the tensor of shape (4, 3, 2) has three axes and
    two channels; the result has shape (3, 4, 3), with a channel of zeros
    that no permutation of the axes of the input produces. *)
Lemma adjust_three_axes_counterexample :
  exists out,
    _adjust_tensors_to_plot (iota [4; 3; 2]) = Ok out /\
    shape out = [3; 4; 3] /\
    get out [0; 0; 2] = 0 /\
    ~ In 0 (data (iota [4; 3; 2])) /\
    ~ exists q, permute q (iota [4; 3; 2]) = Ok out.
Proof.
  eexists. split; [vm_compute; reflexivity|].
  split; [reflexivity|]. split; [reflexivity|]. split.
  - vm_compute. intuition discriminate.
  - intros [q Hq]. unfold permute in Hq.
    destruct (is_permutation q (rank (iota [4; 3; 2]))) eqn:Hperm;
      [|discriminate].
    injection Hq as Hshape _.
    destruct q as [|a [|b [|c [|? ?]]]]; try discriminate.
    cbn [map shape iota] in Hshape. injection Hshape as Ha Hb Hc.
    destruct a as [|[|[|a]]]; cbn in Ha;
      try discriminate; try (destruct a; discriminate).
    destruct b as [|[|[|b]]]; cbn in Hb;
      try discriminate; try (destruct b; discriminate).
    destruct c as [|[|[|c]]]; cbn in Hc;
      try discriminate; try (destruct c; discriminate).
Qed.

(** A tensor of two batch elements and its first element alone. *)
Lemma adjust_reads_first_slice_only_witness :
  _adjust_tensors_to_plot (iota [2; 2; 3; 4]) =
  _adjust_tensors_to_plot iota_first_element.
Proof.
  destruct (@adjust_reads_first_slice_only nat NatBackend
              (iota [2; 2; 3; 4]) iota_first_element
              stable_argsort_sorts) as [H4 _].
  apply H4.
  - reflexivity.
  - split; [reflexivity|].
    exists 1, 0, [2; 3; 4]. split; [reflexivity|]. split; [reflexivity|].
    intros idx Hb. apply in_indices in Hb. vm_compute in Hb.
    repeat (destruct Hb as [<-|Hb]; [reflexivity|]). destruct Hb.
Defined.

(** A loader of two batches and the two-layer network. *)
Lemma plot_activations_one_record_per_layer_witness :
  fst (plot_activations None (fresh (loader_of 2))) = Ok tt /\
  filter is_writer_event
    (emitted (plot_activations None) (fresh (loader_of 2))) =
    activation_records
      [tensor_of [2; 2] [0; 1; 1; 2]; tensor_of [2; 2] [0; 1; 1; 2]] 0
      [LTensor (tensor_of [] [0]); LTensor (tensor_of [] [1])] /\
  length
    (filter is_add_embedding
       (emitted (plot_activations None) (fresh (loader_of 2)))) = 2 /\
  NoDup (map (fun i => ("activations_" ++ str_nat i)%string) (seq 0 2)).
Proof.
  apply (@plot_activations_one_record_per_layer nat NatBackend
           ToyCollaborators (fresh (loader_of 2)) None (loader_of 2) []
           [tensor_of [2] [0; 1]; tensor_of [2] [1; 2]]
           [LTensor (tensor_of [] [0]); LTensor (tensor_of [] [1])]
           (tensor_of [2; 2] [0; 1; 1; 2])).
  - reflexivity.
  - reflexivity.
  - reflexivity.
  - repeat constructor; exists 1, [2]; reflexivity.
Defined.

(** A loader of one batch of samples with two features. *)
Lemma plot_decision_boundary_compact_witness :
  exists cc d_final label_final db,
    cc = mkCompactification tt (1 # 10) 500 (51 # 1000) 2 100 /\
    (d_final, label_final) = create_final_distance_matrix cc /\
    db = mds_fit_transform 3 "precomputed" d_final /\
    shape d_final = [500; 500] /\
    fst (plot_decision_boundary true (fresh (loader_of 1))) =
      Ok (db, Some d_final, Some label_final) /\
    emitted (plot_decision_boundary true) (fresh (loader_of 1)) =
      [NewCompactification cc; NewMDS 3 "precomputed";
       AddEmbedding db None None "compactified_decision_boundary" 0; Flush].
Proof.
  apply (@plot_decision_boundary_compact nat NatBackend ToyCollaborators
           (fresh (loader_of 1)) (loader_of 1) [] (batch_of 0) []
           (tensor_of [2] [0; 1]) 2 []).
  - reflexivity.
  - reflexivity.
  - reflexivity.
  - reflexivity.
Defined.

(** The list [5] is passed with diagrams in the cache: the surfaces are
    plotted for [0; 1]. *)
Lemma betti_plot_layers_overrides_dimensions_witness :
  fst (betti_plot_layers (Some [5%Z]) None
         (snd (plot_persistence_diagrams None (fresh (loader_of 2))))) =
    Ok tt /\
  emitted (betti_plot_layers (Some [5%Z]) None)
    (snd (plot_persistence_diagrams None (fresh (loader_of 2)))) =
    [PlotBettiSurfaces
       [tensor_of [2; 2] [0; 1; 1; 2]; tensor_of [2; 2] [0; 1; 1; 2]]
       tt (Some [0%Z; 1%Z]);
     ShowPlot (iota [1]); ShowPlot (iota [1])].
Proof.
  destruct (@betti_plot_layers_overrides_dimensions nat NatBackend
              ToyCollaborators
              (snd (plot_persistence_diagrams None (fresh (loader_of 2))))
              (Some [5%Z]) None) as (_ & _ & _ & H).
  apply (H [tensor_of [2; 2] [0; 1; 1; 2];
            tensor_of [2; 2] [0; 1; 1; 2]]).
  reflexivity.
Defined.

(** Two calls in a row on a loader of two batches. *)
Lemma persistence_diagrams_computed_once_witness :
  exists d,
    persistence_diagrams
      (snd (plot_persistence_diagrams None (fresh (loader_of 2)))) =
      Some d /\
    persistence_diagrams
      (snd (plot_persistence_diagrams None
              (snd (plot_persistence_diagrams None (fresh (loader_of 2))))))
      = Some d /\
    emitted (plot_persistence_diagrams None)
      (snd (plot_persistence_diagrams None (fresh (loader_of 2)))) =
      match diagram_images d with
      | Ok features =>
          [AddImages "persistence_diagrams_of_activations" features "NHWC";
           Flush]
      | Raise _ => []
      end /\
    count_get_activations
      (emitted (plot_persistence_diagrams None)
         (snd (plot_persistence_diagrams None (fresh (loader_of 2))))) = 0.
Proof.
  destruct (@persistence_diagrams_computed_once nat NatBackend
              ToyCollaborators) as (_ & _ & H & _).
  apply (H (fresh (loader_of 2)) None None). reflexivity.
Defined.

End ConcreteRuns.

(* ------------------------------------------------------------------ *)
(** ** [_adjust_tensors_to_plot]: the accepted shapes and the result *)

Section AdjustDomain.

Context {A : Type} {B : Backend A}.

Lemma permute_valid (p : list nat) (t : Tensor A) :
  is_permutation p (rank t) = true ->
  permute p t =
  Ok (tabulate (dtype t) (map (fun a => nth a (shape t) 0) p)
        (fun idx => get t (unpermute p idx))).
Proof.
  intros H. unfold permute. now rewrite H.
Qed.

Lemma adjust_rank0 (t : Tensor A) :
  sorting_argsort argsort ->
  shape t = [] -> _adjust_tensors_to_plot t = Raise IndexError.
Proof.
  intros Hsort Hsh.
  destruct (Hsort []) as [Hp _]. cbn in Hp.
  apply Permutation_sym, Permutation_nil in Hp.
  unfold _adjust_tensors_to_plot, rank. rewrite Hsh.
  cbn [length Nat.eqb Nat.ltb Nat.leb rbind]. rewrite Hsh, Hp.
  unfold permute, rank. rewrite Hsh. reflexivity.
Qed.

Lemma adjust_rank1 (t : Tensor A) (n : nat) :
  sorting_argsort argsort ->
  shape t = [n] -> _adjust_tensors_to_plot t = Raise IndexError.
Proof.
  intros Hsort Hsh.
  destruct (Hsort [n]) as [Hp _]. cbn in Hp.
  apply Permutation_sym, Permutation_length_1_inv in Hp.
  unfold _adjust_tensors_to_plot, rank. rewrite Hsh.
  cbn [length Nat.eqb Nat.ltb Nat.leb rbind]. rewrite Hsh, Hp.
  cbn [rev app].
  rewrite permute_valid by (unfold rank; rewrite Hsh; reflexivity).
  rewrite Hsh. cbn [rbind map nth]. unfold shape_last, getitem___upto.
  cbn [shape tabulate rev app rbind].
  destruct (n =? 2); reflexivity.
Qed.

(** On two axes only the 2 x 2 matrix goes through: its rows are
    broadcast over the leading axis of the zero tensor. *)
Lemma adjust_rank2 (t : Tensor A) (a b : nat) :
  sorting_argsort argsort ->
  shape t = [a; b] ->
  if (a =? 2) && (b =? 2) then
    exists out,
      _adjust_tensors_to_plot t = Ok out /\
      shape out = [2; 2; 3] /\ dtype out = default_dtype
  else exists e, _adjust_tensors_to_plot t = Raise e.
Proof.
  intros Hsort Hsh.
  destruct (Hsort [a; b]) as [Hp Hs]. cbn [length seq] in Hp.
  assert (Hcases : (argsort [a; b] = [0; 1] /\ a <= b) \/
                   (argsort [a; b] = [1; 0] /\ b <= a)).
  { apply Permutation_sym, Permutation_length_2_inv in Hp.
    destruct Hp as [E|E]; rewrite E in Hs |- *; cbn in Hs;
      inversion Hs as [|? ? _ Hh]; subst; inversion Hh; subst; auto. }
  unfold _adjust_tensors_to_plot, rank. rewrite Hsh.
  cbn [length Nat.eqb Nat.ltb Nat.leb rbind]. rewrite Hsh.
  destruct Hcases as [[E Hle]|[E Hle]]; rewrite E; cbn [rev app];
    rewrite permute_valid by (unfold rank; rewrite Hsh; reflexivity);
    rewrite Hsh; cbn [rbind map nth]; unfold shape_last, getitem___upto;
    cbn [shape tabulate rev app rbind].
  - (* permuted shape [b; a] *)
    destruct (Nat.eqb_spec a 2) as [->|Ha]; cbn [andb].
    + destruct b as [|[|b]]; try lia.
      unfold setitem___upto2, rank. cbn [shape zeros tabulate strip_ones].
      cbn [length Nat.sub Nat.ltb Nat.leb repeat app broadcastable
           Nat.min Nat.eqb orb andb].
      destruct b as [|b]; cbn [Nat.eqb orb andb rbind].
      * unfold permute, rank. cbn [shape tabulate length is_permutation].
        cbn -[tabulate get]. eexists. split; [reflexivity|].
        split; reflexivity.
      * now exists RuntimeError.
    + now exists IndexError.
  - (* permuted shape [a; b] *)
    destruct (Nat.eqb_spec b 2) as [->|Hb]; rewrite ?andb_false_r.
    + destruct a as [|[|a]]; try lia.
      unfold setitem___upto2, rank. cbn [shape zeros tabulate strip_ones].
      cbn [length Nat.sub Nat.ltb Nat.leb repeat app broadcastable
           Nat.min Nat.eqb orb andb].
      destruct a as [|a]; cbn [Nat.eqb orb andb rbind].
      * unfold permute, rank. cbn [shape tabulate length is_permutation].
        cbn -[tabulate get]. eexists. split; [reflexivity|].
        split; reflexivity.
      * now exists RuntimeError.
    + now exists IndexError.
Qed.

(** On three axes the method returns an image: three axes, the first not
    longer than the second, and 0, 1, 3 or 4 channels. *)
Lemma adjust_rank3_form (t : Tensor A) (a b c : nat) :
  sorting_argsort argsort ->
  shape t = [a; b; c] ->
  exists out m n ch,
    _adjust_tensors_to_plot t = Ok out /\
    shape out = [m; n; ch] /\ m <= n /\ ch <= 4 /\ ch <> 2 /\
    (dtype out = dtype t \/ (ch = 3 /\ dtype out = default_dtype)).
Proof.
  intros Hsort Hsh.
  destruct (adjust_rank3 t Hsort Hsh)
    as (p & x & y & z & _ & _ & Hle & Hadj).
  rewrite Hadj. unfold oriented_image.
  destruct (Nat.eqb_spec z 2) as [E|E].
  - eexists _, y, x, 3. split; [reflexivity|]. cbn [shape dtype tabulate].
    repeat split; try lia. right. split; reflexivity.
  - eexists _, y, x, (Nat.min 4 z). split; [reflexivity|].
    cbn [shape dtype tabulate]. repeat split; try lia. now left.
Qed.

Lemma adjust_rank45_form (t t' : Tensor A) (a b c : nat) :
  sorting_argsort argsort ->
  shape t' = [a; b; c] ->
  dtype t' = dtype t ->
  exists out m n ch,
    rbind (Ok t') _adjust_tensors_to_plot = Ok out /\
    shape out = [m; n; ch] /\ m <= n /\ ch <= 4 /\ ch <> 2 /\
    (dtype out = dtype t \/ (ch = 3 /\ dtype out = default_dtype)).
Proof.
  intros Hsort Hsh Hdt. cbn [rbind]. rewrite <- Hdt.
  now apply adjust_rank3_form with (a := a) (b := b) (c := c).
Qed.

(** The method, case by case on the number of axes. *)
Lemma adjust_cases (t : Tensor A) :
  sorting_argsort argsort ->
  if adjustable (shape t) then
    exists out m n ch,
      _adjust_tensors_to_plot t = Ok out /\
      shape out = [m; n; ch] /\ m <= n /\ ch <= 4 /\ ch <> 2 /\
      (dtype out = dtype t \/ (ch = 3 /\ dtype out = default_dtype))
  else exists e, _adjust_tensors_to_plot t = Raise e.
Proof.
  intros Hsort.
  destruct (shape t) as [|s0 [|s1 [|s2 [|s3 [|s4 [|s5 rest]]]]]] eqn:Hsh;
    cbn [adjustable].
  - exists IndexError. now apply adjust_rank0.
  - exists IndexError. now apply adjust_rank1 with (n := s0).
  - pose proof (adjust_rank2 t Hsort Hsh) as H2.
    destruct ((s0 =? 2) && (s1 =? 2)); [|exact H2].
    destruct H2 as (out & Hadj & Hshape & Hdt).
    exists out, 2, 2, 3. repeat split; try assumption; try lia.
    right. now split.
  - now apply adjust_rank3_form with (a := s0) (b := s1) (c := s2).
  - rewrite adjust_rank4 by (unfold rank; now rewrite Hsh).
    unfold select0. rewrite Hsh. destruct s0 as [|s0]; cbn [Nat.ltb Nat.leb].
    + now exists IndexError.
    + now apply adjust_rank45_form with (a := s1) (b := s2) (c := s3).
  - rewrite adjust_rank5 by (unfold rank; now rewrite Hsh).
    unfold getitem_0___0. rewrite Hsh.
    destruct s0 as [|s0]; [now exists IndexError|].
    destruct s4 as [|s4]; [now exists IndexError|].
    cbn [Nat.eqb orb Nat.ltb Nat.leb andb].
    now apply adjust_rank45_form with (a := s1) (b := s2) (c := s3).
  - rewrite (adjust_rank6 t Hsort Hsh).
    destruct ((s0 =? 0) || (s4 =? 0)); eexists; reflexivity.
Qed.

(** X1: [_adjust_tensors_to_plot] returns exactly on the tensors of three
    axes, on those of four or five axes that have a first batch element
    (and, with five axes, a first entry on the last axis), and on the
    2 x 2 matrix; on every other tensor, among them all tensors of one
    axis and of six axes or more, it raises. *)
Theorem adjust_returns_iff (t : Tensor A) :
  sorting_argsort argsort ->
  (adjustable (shape t) = true <->
   exists out, _adjust_tensors_to_plot t = Ok out).
Proof.
  intros Hsort. pose proof (adjust_cases t Hsort) as H.
  destruct (adjustable (shape t)).
  - destruct H as (out & _ & _ & _ & Hadj & _).
    split; [intros _; now exists out | reflexivity].
  - destruct H as (e & Hadj). split; [discriminate|].
    intros (out & Hout). rewrite Hadj in Hout. discriminate.
Qed.

(** X2: whatever [_adjust_tensors_to_plot] returns has three axes, the
    first not longer than the second, and a last axis of 0, 1, 3 or 4
    entries, never 2 and never more than 4.  The values keep the dtype of the input, except when a zero
    channel was added: the result then has the default dtype. *)
Theorem adjust_result_form (t out : Tensor A) :
  sorting_argsort argsort ->
  _adjust_tensors_to_plot t = Ok out ->
  exists m n ch,
    shape out = [m; n; ch] /\ m <= n /\ ch <= 4 /\ ch <> 2 /\
    (dtype out = dtype t \/ (ch = 3 /\ dtype out = default_dtype)).
Proof.
  intros Hsort Hout. pose proof (adjust_cases t Hsort) as H.
  destruct (adjustable (shape t)).
  - destruct H as (out' & m & n & ch & Hadj & Hform).
    rewrite Hadj in Hout. injection Hout as <-. now exists m, n, ch.
  - destruct H as (e & Hadj). rewrite Hadj in Hout. discriminate.
Qed.

(** X3: for a tensor of shape (B, 2, H, W) with B >= 1, H > 2 and W > 2,
    the two channels of the first batch element are kept, converted to the
    default dtype, in front of the zero channel, and the image is laid out
    with its shorter side first. *)
Theorem adjust_two_channels_kept (t : Tensor A) (b h w : nat) :
  sorting_argsort argsort ->
  shape t = [b; 2; h; w] ->
  1 <= b -> 2 < h -> 2 < w ->
  exists out,
    _adjust_tensors_to_plot t = Ok out /\
    dtype out = default_dtype /\
    ((shape out = [h; w; 3] /\
      forall i j k, i < h -> j < w -> k < 2 ->
        get out [i; j; k] = cast default_dtype (get t [0; k; i; j])) \/
     (shape out = [w; h; 3] /\
      forall i j k, i < h -> j < w -> k < 2 ->
        get out [j; i; k] = cast default_dtype (get t [0; k; i; j]))).
Proof.
  intros Hsort Hsh Hb Hh Hw.
  destruct b as [|b]; [lia|].
  rewrite adjust_rank4 by (unfold rank; now rewrite Hsh).
  rewrite (select0_shape4 t Hsh). cbn [rbind].
  set (t' := tabulate (dtype t) [2; h; w] (fun idx => get t (0 :: idx))).
  destruct (@adjust_rank3 _ _ t' 2 h w Hsort eq_refl)
    as (p & x & y & z & Hp & Hmap & Hle & Hadj).
  rewrite Hadj. unfold oriented_image.
  destruct (permutation3 Hp) as [E|[E|[E|[E|[E|E]]]]]; subst p;
    cbn [map nth] in Hmap; injection Hmap as <- <- <-;
    try (exfalso; clear - Hh Hw Hle; lia);
    cbn [Nat.eqb]; eexists; (split; [reflexivity|]);
    (split; [reflexivity|]); cbn [shape tabulate].
  - right. split; [reflexivity|]. intros i j k Hi Hj Hk.
    rewrite get_tabulate
      by (apply in_bounds3_intro; first [assumption | lia]).
    destruct (Nat.ltb_spec k 2) as [_|Hk2]; [|lia].
    cbn -[get tabulate]. unfold t'.
    rewrite get_tabulate
      by (apply in_bounds3_intro; first [assumption | lia]).
    reflexivity.
  - left. split; [reflexivity|]. intros i j k Hi Hj Hk.
    rewrite get_tabulate
      by (apply in_bounds3_intro; first [assumption | lia]).
    destruct (Nat.ltb_spec k 2) as [_|Hk2]; [|lia].
    cbn -[get tabulate]. unfold t'.
    rewrite get_tabulate
      by (apply in_bounds3_intro; first [assumption | lia]).
    reflexivity.
Qed.

End AdjustDomain.

(* ------------------------------------------------------------------ *)
(** ** [plot_data_model]: what is read and what is written *)

Section DataModelMore.

Context {A : Type} {B : Backend A} {C : Collaborators}.

(** The loop stops reading after [1000 - index] batches. *)
Lemma plot_data_model_loop_firstn (dataiter : list Batch) :
  forall index features_list labels_list,
    index < 1000 ->
    plot_data_model_loop dataiter index features_list labels_list =
    plot_data_model_loop (firstn (1000 - index) dataiter) index
      features_list labels_list.
Proof.
  induction dataiter as [|[img lab] rest IH];
    intros index features_list labels_list Hidx.
  - now rewrite firstn_nil.
  - replace (1000 - index) with (S (1000 - (index + 1))) by lia.
    rewrite firstn_cons. cbn [plot_data_model_loop].
    destruct (select0 img) as [e|img0]; [reflexivity|]. cbn [rbind].
    destruct (label_text lab) as [[]|text]; cbn [rbind]; try reflexivity;
      (destruct (Nat.eqb_spec (index + 1) 1000) as [E|E];
       [reflexivity | apply IH; lia]).
Qed.

Lemma firstn_cons_eq {T} (n : nat) (a a' : T) (l l' : list T) :
  firstn (S n) (a :: l) = firstn (S n) (a' :: l') ->
  a = a' /\ firstn n l = firstn n l'.
Proof.
  rewrite !firstn_cons. intros H. now injection H.
Qed.

(** X4: [plot_data_model] reads the first 1001 batches of the first loader
    and nothing else of the loaders: two pipelines whose first loaders yield
    the same first 1001 batches give the same result and the same records,
    whatever the later batches and the other loaders hold. *)
Theorem plot_data_model_reads_1001_batches (s : State)
    (loader loader' : DataLoader) (rest rest' : list DataLoader) :
  dataloaders (pipe s) = loader :: rest ->
  firstn 1001 (batches loader) = firstn 1001 (batches loader') ->
  fst (plot_data_model
         (with_pipe (mkTrainer (model (pipe s)) (loader' :: rest')
                       (loss_fn (pipe s))) s)) =
    fst (plot_data_model s) /\
  emitted plot_data_model
    (with_pipe (mkTrainer (model (pipe s)) (loader' :: rest')
                  (loss_fn (pipe s))) s) =
    emitted plot_data_model s.
Proof.
  intros Hdl Hfirst.
  unfold emitted, plot_data_model, bind, self_pipe, lift, raise, emit, ret,
    with_pipe.
  cbn [pipe persistence_diagrams trace random_draws dataloaders model
       list_getitem0].
  rewrite Hdl. cbn [list_getitem0].
  destruct (batches loader) as [|[images labels] others];
    destruct (batches loader') as [|[images' labels'] others'];
    try discriminate.
  - split; reflexivity.
  - change 1001 with (S 1000) in Hfirst.
    apply firstn_cons_eq in Hfirst. destruct Hfirst as [Hb Hothers].
    injection Hb as -> ->.
    cbn [pipe persistence_diagrams trace random_draws].
    rewrite (@plot_data_model_loop_firstn others 0 [] []) by lia.
    rewrite (@plot_data_model_loop_firstn others' 0 [] []) by lia.
    change (1000 - 0) with 1000. rewrite Hothers.
    destruct (plot_data_model_loop (firstn 1000 others') 0 [] [])
      as [e|[features_list labels_list]];
      [split; reflexivity|].
    destruct (cat features_list) as [e|features]; [split; reflexivity|].
    cbn [pipe persistence_diagrams trace random_draws].
    destruct (3 <=? rank features); [destruct (rank features =? 3)|];
      repeat match goal with
             | |- context [view_infer ?a ?b ?c] =>
                 destruct (view_infer a b c);
                 cbn [ret fst snd pipe persistence_diagrams trace
                      random_draws]
             end;
      split; reflexivity.
Qed.

(** X5: on a loader that yields at least two batches, each with a
    sample, whose samples share a shape without an empty axis and whose
    first labels convert to
    text or raise [ValueError] on conversion, what [plot_data_model]
    writes depends on the number of axes of the samples.  Samples of one
    or two axes give the graph record, the embedding record without label
    images and the flush.  Samples of three axes (C, H, W) give in
    addition an image record of the grid, and the embedding record
    carries the samples as label images of shape (k, C, H, W), k being
    the number of samples.  In every case the samples are kept in the
    order of the batches. *)
Theorem plot_data_model_image_record (s : State) (loader : DataLoader)
    (rest : list DataLoader) (first b1 : Batch) (others : list Batch)
    (fs : list nat) :
  dataloaders (pipe s) = loader :: rest ->
  batches loader = first :: b1 :: others ->
  fs <> [] ->
  0 < numel fs ->
  Forall (fun b => sample_shaped fs b /\ label_recordable (snd b))
    (firstn 1000 (b1 :: others)) ->
  exists mat meta,
    data mat =
      concat (map (fun b => data (first_sample b))
                (firstn 1000 (b1 :: others))) /\
    (length fs < 3 ->
     emitted plot_data_model s =
       [AddGraph (model (pipe s)) (fst first);
        AddEmbedding mat meta None "dataset" 0; Flush]) /\
    (forall c h w,
       fs = [c; h; w] ->
       exists features,
         shape features =
           [Nat.min 1000 (length (b1 :: others)); c; h; w] /\
         data features = data mat /\
         emitted plot_data_model s =
           [AddGraph (model (pipe s)) (fst first);
            AddImage "dataset" (make_grid features) (Some 0) None;
            AddEmbedding mat meta (Some features) "dataset" 0; Flush]).
Proof.
  intros Hdl Hb Hfs Hn Hall.
  pose proof (@plot_data_model_loop_run _ _ fs (b1 :: others) 0 [] []
                ltac:(lia)) as Hloop.
  change (1000 - 0) with 1000 in Hloop. specialize (Hloop Hall).
  cbn [app] in Hloop.
  set (batches1000 := firstn 1000 (b1 :: others)) in *.
  set (k := Nat.min 1000 (length (b1 :: others))).
  assert (Hlen : length batches1000 = k) by apply length_firstn.
  assert (Hk : 0 < k) by (unfold k; cbn [length]; lia).
  assert (Hshapes : Forall (fun t : Tensor A => shape t = fs)
                      (map first_sample batches1000)).
  { apply Forall_map. eapply Forall_impl; [|exact Hall].
    intros b [Hs _]. exact (first_sample_shape Hs). }
  destruct fs as [|f0 fs']; [congruence|].
  rewrite <- (map_map first_sample (@data A B)).
  destruct (map first_sample batches1000) as [|t0 ts] eqn:Hsamples.
  { apply (f_equal (@length _)) in Hsamples.
    rewrite length_map, Hlen in Hsamples. simpl in Hsamples. lia. }
  assert (Hcount : length (t0 :: ts) = k).
  { rewrite <- Hsamples, length_map. exact Hlen. }
  pose proof (cat_uniform Hshapes Hn) as Hcat. rewrite Hcount in Hcat.
  set (features := mkTensor (dtype t0) (k * f0 :: fs')
                     (concat (map (@data A B) (t0 :: ts)))) in *.
  assert (Hnumel : numel (shape features) = numel (f0 :: fs') * k).
  { unfold features. cbn [shape numel fold_right]. lia. }
  unfold emitted, plot_data_model, bind, self_pipe, lift, raise, emit.
  rewrite Hdl. cbn [list_getitem0]. rewrite Hb.
  destruct first as [images labels].
  cbn [pipe persistence_diagrams trace random_draws fst].
  rewrite Hloop, Hcat. unfold Batch in *. rewrite !length_map, Hlen.
  replace (Nat.min 1000 k) with k by (unfold k; lia).
  exists (mkTensor (dtype t0) [k; numel (f0 :: fs')]
            (concat (map (@data A B) (t0 :: ts)))).
  eexists. split; [reflexivity|]. split.
  - intros Hrank.
    assert (H3 : (3 <=? rank features) = false).
    { apply Nat.leb_gt. unfold rank, features. cbn [shape]. exact Hrank. }
    rewrite H3, (@view_rows _ _ features k (numel (f0 :: fs')))
      by assumption.
    cbn [snd pipe persistence_diagrams trace random_draws].
    rewrite <- !List.app_assoc. apply skipn_app_exact.
  - intros c h w E. injection E as -> ->.
    change (3 <=? rank features) with true.
    change (rank features =? 3) with true. cbv iota.
    cbn [numel fold_right] in Hn.
    cbn [shape features nth].
    rewrite (@reshape_images _ _ features k c h w)
      by (try (clear - Hn Hk; nia);
          unfold features; cbn [shape numel fold_right]; lia).
    cbn [ret pipe persistence_diagrams trace random_draws].
    rewrite (@view_rows _ _ _ k (numel [c; h; w]))
      by (try assumption; cbn [shape numel fold_right]; lia).
    cbn [snd pipe persistence_diagrams trace random_draws dtype data].
    eexists. split; [|split; [|rewrite <- !List.app_assoc;
                               apply skipn_app_exact]];
      reflexivity.
Qed.

End DataModelMore.

(* ------------------------------------------------------------------ *)
(** ** The samples handed to the model extractor *)

Section Samples.

Context {A : Type} {B : Backend A} {C : Collaborators}.

(** Stacking tensors of one shape. *)
Lemma stack_uniform (t0 : Tensor A) (ts : list (Tensor A)) (fs : list nat) :
  Forall (fun t => shape t = fs) (t0 :: ts) ->
  stack (t0 :: ts) =
  Ok (mkTensor (dtype t0) (length (t0 :: ts) :: fs)
        (concat (map (@data A B) (t0 :: ts)))).
Proof.
  intros Hall. unfold stack.
  assert (H : forallb (fun t => shape_eqb (shape t) (shape t0)) (t0 :: ts)
              = true).
  { apply forallb_forall. intros t Hin. rewrite Forall_forall in Hall.
    rewrite (Hall t Hin), (Hall t0 (or_introl eq_refl)).
    apply shape_eqb_refl. }
  rewrite H. inversion Hall as [|? ? Ht0 _]; subst. reflexivity.
Qed.

Lemma stack_samples (fs : list nat) (bs : list Batch) :
  bs <> [] ->
  Forall (sample_shaped fs) bs ->
  exists inputs,
    stack (map first_sample bs) = Ok inputs /\
    shape inputs = length bs :: fs /\
    data inputs = concat (map (fun b => data (first_sample b)) bs).
Proof.
  intros Hne Hall.
  assert (Hshapes : Forall (fun t : Tensor A => shape t = fs)
                      (map first_sample bs)).
  { apply Forall_map. eapply Forall_impl; [|exact Hall].
    intros b Hs. exact (first_sample_shape Hs). }
  rewrite <- (map_map first_sample (@data A B)).
  destruct (map first_sample bs) as [|t0 ts] eqn:E.
  { destruct bs; [congruence | discriminate]. }
  rewrite (stack_uniform Hshapes). eexists. split; [reflexivity|].
  cbn [shape data]. split; [|reflexivity].
  now rewrite <- E, length_map.
Qed.

(** The loop of [plot_activations] takes the first sample and the first
    label of each batch, for at most [101 - j] batches. *)
Lemma plot_activations_loop_run (fs : list nat) (items : list Batch) :
  forall j inputs labels,
    j <= 100 ->
    Forall (fun b => sample_shaped fs b /\ labelled b)
      (firstn (101 - j) items) ->
    plot_activations_loop items j inputs labels =
    Ok (inputs ++ map first_sample (firstn (101 - j) items),
        labels ++ map first_label (firstn (101 - j) items)).
Proof.
  induction items as [|item items IH]; intros j inputs labels Hj Hall.
  - rewrite firstn_nil. cbn. now rewrite !List.app_nil_r.
  - replace (101 - j) with (S (101 - S j)) in * by lia.
    rewrite firstn_cons in *.
    apply Forall_cons_iff in Hall. destruct Hall as [[Hs [l Hl]] Hrest].
    cbn [plot_activations_loop map]. unfold first_label at 1.
    rewrite Hl, (select0_sample Hs). cbn [rbind].
    destruct (Nat.eqb_spec j 100) as [E|E].
    + replace (101 - S j) with 0 by lia. rewrite firstn_0. reflexivity.
    + rewrite IH by (assumption || lia).
      now rewrite <- !List.app_assoc.
Qed.

(** The loop of [plot_persistence_diagrams] takes the first sample of each
    batch, for at most [101 - j] batches. *)
Lemma plot_persistence_diagrams_loop_run (fs : list nat)
    (items : list Batch) :
  forall j inputs,
    j <= 100 ->
    Forall (sample_shaped fs) (firstn (101 - j) items) ->
    plot_persistence_diagrams_loop items j inputs =
    Ok (inputs ++ map first_sample (firstn (101 - j) items)).
Proof.
  induction items as [|item items IH]; intros j inputs Hj Hall.
  - rewrite firstn_nil. cbn. now rewrite List.app_nil_r.
  - replace (101 - j) with (S (101 - S j)) in * by lia.
    rewrite firstn_cons in *.
    apply Forall_cons_iff in Hall. destruct Hall as [Hs Hrest].
    cbn [plot_persistence_diagrams_loop map].
    rewrite (select0_sample Hs). cbn [rbind].
    destruct (Nat.eqb_spec j 100) as [E|E].
    + replace (101 - S j) with 0 by lia. rewrite firstn_0. reflexivity.
    + rewrite IH by (assumption || lia).
      now rewrite <- !List.app_assoc.
Qed.

Lemma firstn_nonempty {T} (n : nat) (l : list T) :
  l <> [] -> firstn (S n) l <> [].
Proof.
  destruct l; [congruence | discriminate].
Qed.

(** What the sending loop adds to the trace: console lines, embedding
    records with the labels as metadata, and flushes. *)
Lemma plot_activations_send_events (acts : list (Tensor A)) :
  forall i n labels s,
  exists evs,
    snd (plot_activations_send acts i n labels s) =
      mkState (pipe s) (persistence_diagrams s) (trace s ++ evs)
        (random_draws s) /\
    forallb no_extraction evs = true /\
    forall mat meta img tag step,
      In (AddEmbedding mat meta img tag step) evs -> meta = Some labels.
Proof.
  induction acts as [|act acts IH]; intros i n labels s;
    cbn [plot_activations_send].
  - exists []. split; [apply state_eta|]. split; [reflexivity|].
    intros ? ? ? ? ? [].
  - unfold bind, emit, lift.
    cbn [pipe persistence_diagrams trace random_draws].
    destruct (shape_first act) as [e|len].
    { eexists [_]. split; [reflexivity|]. split; [reflexivity|].
      intros ? ? ? ? ? [E|[]]. discriminate. }
    destruct (view_infer [len] [] act) as [e|mat'].
    { eexists [_]. split; [reflexivity|]. split; [reflexivity|].
      intros ? ? ? ? ? [E|[]]. discriminate. }
    cbn [pipe persistence_diagrams trace random_draws].
    match goal with
    | |- context [plot_activations_send acts (S i) n labels ?s1] =>
        destruct (IH (S i) n labels s1) as (evs & Hrun & Hno & Hmeta);
        destruct (plot_activations_send acts (S i) n labels s1)
          as [r s2]
    end.
    cbn [snd pipe persistence_diagrams trace random_draws] in Hrun.
    subst s2.
    eexists (_ :: _ :: _ :: evs). split.
    + destruct r; cbn [snd]; now rewrite <- !List.app_assoc.
    + split; [cbn; exact Hno|].
      intros mat meta img tag step [E|[E|[E|Hin]]]; try discriminate.
      * now injection E.
      * now apply (Hmeta mat meta img tag step).
Qed.

(** X6: [plot_activations] hands the extractor the first sample of each of
    the first 101 batches of the first loader, stacked in order and
    converted to the dtype of the example when one is given; every
    embedding record it then writes carries the first labels of these
    batches as metadata, and no further request for activations is made. *)
Theorem plot_activations_first_101 (s : State)
    (example : option (Tensor A)) (loader : DataLoader)
    (rest : list DataLoader) (fs : list nat) :
  dataloaders (pipe s) = loader :: rest ->
  batches loader <> [] ->
  Forall (fun b => sample_shaped fs b /\ labelled b)
    (firstn 101 (batches loader)) ->
  exists inputs evs,
    shape inputs = Nat.min 101 (length (batches loader)) :: fs /\
    data inputs =
      concat (map (fun b => data (first_sample b))
                (firstn 101 (batches loader))) /\
    emitted (plot_activations example) s =
      GetActivations (as_example example inputs) :: evs /\
    count_get_activations evs = 0 /\
    forall mat meta img tag step,
      In (AddEmbedding mat meta img tag step) evs ->
      meta = Some (map first_label (firstn 101 (batches loader))).
Proof.
  intros Hdl Hne Hall.
  pose proof (@plot_activations_loop_run fs (batches loader) 0 [] []
                ltac:(lia)) as Hloop.
  change (101 - 0) with 101 in Hloop. specialize (Hloop Hall).
  cbn [app] in Hloop.
  destruct (@stack_samples fs (firstn 101 (batches loader)))
    as (inputs & Hstack & Hshape & Hdata).
  { now apply firstn_nonempty. }
  { eapply Forall_impl; [|exact Hall]. now intros b [Hs _]. }
  rewrite length_firstn in Hshape.
  unfold emitted, plot_activations, bind, self_pipe, lift, emit.
  rewrite Hdl. cbn [list_getitem0]. rewrite Hloop, Hstack.
  cbn [pipe persistence_diagrams trace random_draws].
  fold (as_example example inputs).
  match goal with
  | |- context [plot_activations_send ?acts 0 ?n ?labels ?s1] =>
      destruct (plot_activations_send_events acts 0 n labels s1)
        as (evs & Hrun & Hno & Hmeta);
      destruct (plot_activations_send acts 0 n labels s1) as [r s2]
  end.
  cbn [snd pipe persistence_diagrams trace random_draws] in Hrun. subst s2.
  exists inputs. eexists (_ :: evs).
  split; [exact Hshape|]. split; [exact Hdata|]. split.
  - destruct r; cbn [snd trace]; rewrite <- !List.app_assoc;
      apply skipn_app_exact.
  - split.
    + apply count_no_extraction. cbn. exact Hno.
    + intros mat meta img tag step [E|Hin]; [discriminate|].
      now apply (Hmeta mat meta img tag step).
Qed.

(** X7: with an empty cache, [plot_persistence_diagrams] computes the
    diagrams from the first sample of each of the first 101 batches of the
    first loader, stores them, and renders them; the request for
    activations is the first event of the call and the only one. *)
Theorem plot_persistence_diagrams_first_101 (s : State)
    (example : option (Tensor A)) (loader : DataLoader)
    (rest : list DataLoader) (fs : list nat) :
  persistence_diagrams s = None ->
  dataloaders (pipe s) = loader :: rest ->
  batches loader <> [] ->
  Forall (sample_shaped fs) (firstn 101 (batches loader)) ->
  exists inputs d,
    shape inputs = Nat.min 101 (length (batches loader)) :: fs /\
    data inputs =
      concat (map (fun b => data (first_sample b))
                (firstn 101 (batches loader))) /\
    d = persistence_diagrams_of_activations
          (get_activations (model (pipe s)) (loss_fn (pipe s))
             (as_example example inputs)) /\
    persistence_diagrams (snd (plot_persistence_diagrams example s)) =
      Some d /\
    emitted (plot_persistence_diagrams example) s =
      GetActivations (as_example example inputs)
      :: match diagram_images d with
         | Ok features =>
             [AddImages "persistence_diagrams_of_activations" features
                "NHWC"; Flush]
         | Raise _ => []
         end.
Proof.
  intros Hpd Hdl Hne Hall.
  pose proof (@plot_persistence_diagrams_loop_run fs (batches loader) 0 []
                ltac:(lia)) as Hloop.
  change (101 - 0) with 101 in Hloop. specialize (Hloop Hall).
  cbn [app] in Hloop.
  destruct (@stack_samples fs (firstn 101 (batches loader)))
    as (inputs & Hstack & Hshape & Hdata);
    [now apply firstn_nonempty | exact Hall |].
  rewrite length_firstn in Hshape.
  exists inputs. eexists.
  split; [exact Hshape|]. split; [exact Hdata|]. split; [reflexivity|].
  unfold emitted, plot_persistence_diagrams, bind, self_pipe,
    self_persistence_diagrams, lift, emit, ret, set_persistence_diagrams.
  rewrite Hpd, Hdl. cbn [list_getitem0]. rewrite Hloop, Hstack.
  cbn [pipe persistence_diagrams trace random_draws].
  fold (as_example example inputs).
  match goal with
  | |- context [stack (map _ ?d)] => fold (diagram_images d)
  end.
  destruct (diagram_images _); cbn [snd persistence_diagrams trace];
    (split; [reflexivity|]); rewrite <- ?List.app_assoc;
    apply skipn_app_exact.
Qed.

End Samples.

(* ------------------------------------------------------------------ *)
(** ** The two methods that share the diagram cache *)

Section SharedCache.

Context {A : Type} {B : Backend A} {C : Collaborators}.

(** X8: with an empty cache, [betti_plot_layers] does not iterate the
    loader: it takes the first 100 rows of [loader.dataset.data].  A
    dataset without [data] makes it raise [AttributeError] with nothing
    done; otherwise it asks for the activations of these rows once, stores
    the diagrams and shows the surfaces. *)
Theorem betti_plot_layers_first_100_rows (s : State) (h : option (list Z))
    (example : option (Tensor A)) (loader : DataLoader)
    (rest : list DataLoader) :
  persistence_diagrams s = None ->
  dataloaders (pipe s) = loader :: rest ->
  (dataset_data loader = None ->
   betti_plot_layers h example s = (Raise AttributeError, s)) /\
  (forall d n sh,
     dataset_data loader = Some d ->
     shape d = n :: sh ->
     exists inputs diagrams,
       shape inputs = Nat.min 100 n :: sh /\
       dtype inputs = dtype d /\
       (forall idx,
          in_bounds idx (Nat.min 100 n :: sh) ->
          get inputs idx = get d idx) /\
       diagrams =
         persistence_diagrams_of_activations
           (get_activations (model (pipe s)) (loss_fn (pipe s))
              (as_example example inputs)) /\
       fst (betti_plot_layers h example s) = Ok tt /\
       persistence_diagrams (snd (betti_plot_layers h example s)) =
         Some diagrams /\
       emitted (betti_plot_layers h example) s =
         GetActivations (as_example example inputs)
         :: PlotBettiSurfaces (fst (betti_curve_fit_transform diagrams))
              (snd (betti_curve_fit_transform diagrams))
              (passed_homology_dimensions h)
         :: map ShowPlot
              (plot_betti_surfaces (fst (betti_curve_fit_transform diagrams))
                 (snd (betti_curve_fit_transform diagrams))
                 (passed_homology_dimensions h))).
Proof.
  intros Hpd Hdl. split.
  - intros Hdata.
    unfold betti_plot_layers, bind, self_pipe, self_persistence_diagrams,
      lift, raise.
    rewrite Hpd, Hdl. cbn [list_getitem0]. now rewrite Hdata.
  - intros d n sh Hdata Hsh.
    exists (tabulate (dtype d) (Nat.min 100 n :: sh) (fun idx => get d idx)).
    eexists.
    split; [reflexivity|]. split; [reflexivity|].
    split; [intros idx Hb; now apply get_tabulate|].
    split; [reflexivity|].
    unfold emitted, betti_plot_layers, bind, self_pipe,
      self_persistence_diagrams, lift, emit, ret, raise,
      set_persistence_diagrams.
    rewrite Hpd, Hdl. cbn [list_getitem0]. rewrite Hdata.
    unfold slice0. rewrite Hsh.
    cbn [pipe persistence_diagrams trace random_draws].
    match goal with
    | |- context [tabulate ?dt ?shp ?f] =>
        fold (as_example example (tabulate dt shp f))
    end.
    match goal with
    | |- context [betti_curve_fit_transform ?dd] =>
        destruct (betti_curve_fit_transform dd) as [dgms samplings]
    end.
    rewrite show_all_run.
    cbn [fst snd pipe persistence_diagrams trace random_draws].
    split; [destruct h; reflexivity|]. split; [reflexivity|].
    rewrite <- !List.app_assoc. rewrite skipn_app_exact.
    destruct h; reflexivity.
Qed.

(** X9: the two methods share one cache, and the first of them to return
    decides the diagrams.  After [betti_plot_layers] has returned,
    [plot_persistence_diagrams] renders the diagrams of the rows of the
    dataset, not of the samples of the loader, and asks for nothing; after
    [plot_persistence_diagrams] has returned, [betti_plot_layers] returns
    too, on the diagrams of the loader, whether or not the dataset has
    [data]. *)
Theorem diagram_cache_shared (s : State) (h : option (list Z))
    (example1 example2 : option (Tensor A)) :
  (fst (betti_plot_layers h example1 s) = Ok tt ->
   exists d,
     persistence_diagrams (snd (betti_plot_layers h example1 s)) = Some d /\
     emitted (plot_persistence_diagrams example2)
       (snd (betti_plot_layers h example1 s)) =
       match diagram_images d with
       | Ok features =>
           [AddImages "persistence_diagrams_of_activations" features "NHWC";
            Flush]
       | Raise _ => []
       end) /\
  (fst (plot_persistence_diagrams example1 s) = Ok tt ->
   exists d,
     persistence_diagrams (snd (plot_persistence_diagrams example1 s)) =
       Some d /\
     fst (betti_plot_layers h example2
            (snd (plot_persistence_diagrams example1 s))) = Ok tt /\
     emitted (betti_plot_layers h example2)
       (snd (plot_persistence_diagrams example1 s)) =
       PlotBettiSurfaces (fst (betti_curve_fit_transform d))
         (snd (betti_curve_fit_transform d)) (passed_homology_dimensions h)
       :: map ShowPlot
            (plot_betti_surfaces (fst (betti_curve_fit_transform d))
               (snd (betti_curve_fit_transform d))
               (passed_homology_dimensions h))).
Proof.
  split; intros Hok.
  - assert (Hd : exists d,
               persistence_diagrams (snd (betti_plot_layers h example1 s)) =
               Some d).
    { destruct (persistence_diagrams s) as [d|] eqn:Hpd.
      - rewrite (betti_plot_layers_cached s h example1 Hpd). now exists d.
      - destruct (betti_plot_layers_uncached s h example1 Hpd)
          as [[e H]|(inputs & d & H)]; rewrite H in Hok |- *;
          [discriminate | now exists d]. }
    destruct Hd as [d Hd]. exists d. split; [exact Hd|].
    unfold emitted.
    rewrite (plot_persistence_diagrams_cached _ example2 Hd).
    destruct (diagram_images d); cbn [snd trace];
      [apply skipn_all | apply skipn_app_exact].
  - assert (Hd : exists d,
               persistence_diagrams
                 (snd (plot_persistence_diagrams example1 s)) = Some d).
    { destruct (persistence_diagrams s) as [d|] eqn:Hpd.
      - rewrite (plot_persistence_diagrams_cached s example1 Hpd) in *.
        destruct (diagram_images d); [discriminate | now exists d].
      - destruct (plot_persistence_diagrams_uncached s example1 Hpd)
          as [[e H]|(inputs & d & evs & H & _)].
        + rewrite H in Hok. discriminate.
        + rewrite H. now exists d. }
    destruct Hd as [d Hd]. exists d. split; [exact Hd|].
    unfold emitted. rewrite (betti_plot_layers_cached _ h example2 Hd).
    cbn [fst snd trace]. split; [reflexivity | apply skipn_app_exact].
Qed.

(** X10: once diagrams are in the cache they are never refreshed: the
    result and the events of [plot_persistence_diagrams] and of
    [betti_plot_layers] are the same for every example and for every
    pipeline, so that a change of the model or of the data after the first
    call goes unnoticed. *)
Theorem cached_diagrams_are_stale (s : State) (d : list Diagram)
    (p' : Trainer) (h : option (list Z))
    (example example' : option (Tensor A)) :
  persistence_diagrams s = Some d ->
  fst (plot_persistence_diagrams example' (with_pipe p' s)) =
    fst (plot_persistence_diagrams example s) /\
  emitted (plot_persistence_diagrams example') (with_pipe p' s) =
    emitted (plot_persistence_diagrams example) s /\
  fst (betti_plot_layers h example' (with_pipe p' s)) =
    fst (betti_plot_layers h example s) /\
  emitted (betti_plot_layers h example') (with_pipe p' s) =
    emitted (betti_plot_layers h example) s.
Proof.
  intros Hpd.
  assert (Hpd' : persistence_diagrams (with_pipe p' s) = Some d)
    by exact Hpd.
  unfold emitted.
  rewrite (plot_persistence_diagrams_cached _ example' Hpd'),
    (plot_persistence_diagrams_cached _ example Hpd),
    (betti_plot_layers_cached _ h example' Hpd'),
    (betti_plot_layers_cached _ h example Hpd).
  cbn [fst snd trace with_pipe].
  destruct (diagram_images d); cbn [fst snd trace with_pipe];
    rewrite ?skipn_all, ?skipn_app_exact; repeat split; reflexivity.
Qed.

(** X11: when the diagrams stored are the empty list, as for a model
    without layers, [plot_persistence_diagrams] raises on the empty stack
    of images, and it does so on every later call, whatever is called in
    between: the empty list stays in the cache and no activations are
    asked for again. *)
Theorem empty_diagrams_stay (s : State) (cs : list Call)
    (example : option (Tensor A)) :
  persistence_diagrams s = Some [] ->
  fst (plot_persistence_diagrams example (after_all cs s)) =
    Raise RuntimeError /\
  emitted (plot_persistence_diagrams example) (after_all cs s) = [] /\
  persistence_diagrams
    (snd (plot_persistence_diagrams example (after_all cs s))) = Some [].
Proof.
  intros Hpd.
  pose proof (after_all_cached cs s Hpd) as Hpd'.
  unfold emitted.
  rewrite (plot_persistence_diagrams_cached _ example Hpd').
  cbn [diagram_images map stack fst snd].
  split; [reflexivity|]. split; [apply skipn_all | exact Hpd'].
Qed.

End SharedCache.

(* ------------------------------------------------------------------ *)
(** ** The decision boundary and the empty loader *)

Section Boundary.

Context {A : Type} {B : Backend A} {C : Collaborators}.

(** X12: without [compact], [plot_decision_boundary] asks the extractor
    for the boundary at the first sample of the first batch, writes it as
    the embedding "decision_boundary", flushes, and returns it with [None]
    for the distance matrix and the labels; no compactification and no
    scaling is built.  A sample without axes is fine here, while with
    [compact] it makes the call raise [IndexError] on [x.shape[0]] before
    anything is built or written. *)
Theorem plot_decision_boundary_plain (s : State) (loader : DataLoader)
    (rest : list DataLoader) (first : Batch) (others : list Batch)
    (x : Tensor A) :
  dataloaders (pipe s) = loader :: rest ->
  batches loader = first :: others ->
  select0 (fst first) = Ok x ->
  fst (plot_decision_boundary false s) =
    Ok (get_decision_boundary (model (pipe s)) (loss_fn (pipe s)) x,
        None, None) /\
  emitted (plot_decision_boundary false) s =
    [GetDecisionBoundary x;
     AddEmbedding
       (get_decision_boundary (model (pipe s)) (loss_fn (pipe s)) x)
       None None "decision_boundary" 0;
     Flush] /\
  (shape x = [] ->
   plot_decision_boundary true s = (Raise IndexError, s)).
Proof.
  intros Hdl Hb Hx.
  unfold emitted, plot_decision_boundary, bind, self_pipe, lift, emit, ret.
  rewrite Hdl. cbn [list_getitem0]. rewrite Hb, Hx.
  cbn [fst snd pipe persistence_diagrams trace random_draws].
  split; [reflexivity|]. split.
  - rewrite <- !List.app_assoc. apply skipn_app_exact.
  - intros Hsh. unfold shape_first. now rewrite Hsh.
Qed.

(** X13: on a first loader that yields no batch, every method that reads
    the loader raises before it has written or asked anything:
    [plot_decision_boundary] and [plot_data_model] raise [StopIteration]
    on [next], [plot_activations] and, with an empty cache,
    [plot_persistence_diagrams] raise on the stack of an empty list, and
    the cache stays empty. *)
Theorem empty_loader_raises (s : State) (loader : DataLoader)
    (rest : list DataLoader) (example : option (Tensor A))
    (compact : bool) :
  dataloaders (pipe s) = loader :: rest ->
  batches loader = [] ->
  plot_decision_boundary compact s = (Raise StopIteration, s) /\
  plot_data_model s = (Raise StopIteration, s) /\
  plot_activations example s = (Raise RuntimeError, s) /\
  (persistence_diagrams s = None ->
   plot_persistence_diagrams example s = (Raise RuntimeError, s)).
Proof.
  intros Hdl Hb. repeat split.
  - unfold plot_decision_boundary, bind, self_pipe, lift, raise.
    rewrite Hdl. cbn [list_getitem0]. now rewrite Hb.
  - unfold plot_data_model, bind, self_pipe, lift, raise.
    rewrite Hdl. cbn [list_getitem0]. now rewrite Hb.
  - unfold plot_activations, bind, self_pipe, lift.
    rewrite Hdl. cbn [list_getitem0]. now rewrite Hb.
  - intros Hpd.
    unfold plot_persistence_diagrams, bind, self_pipe,
      self_persistence_diagrams, lift.
    rewrite Hpd, Hdl. cbn [list_getitem0]. now rewrite Hb.
Qed.

End Boundary.

(* ------------------------------------------------------------------ *)
(** ** The interpreter plots *)

Section InterpreterPlots.

Context {A : Type} {B : Backend A} {C : Collaborators}.

(** X14: [plot_attribution] writes both figures or none.  When the input
    and the attribution both have a shape that [_adjust_tensors_to_plot]
    accepts, it hands both results to the plotting call and writes the two
    figures as "Datum x" and "Generic attribution of x", in this order;
    otherwise it raises before anything is plotted and the writer has
    received nothing.  (The plotting call is a collaborator, taken to
    return a figure.) *)
Theorem plot_attribution_both_or_none (s : State) (i : Interpreter)
    (k : Kwargs) :
  sorting_argsort argsort ->
  if adjustable (shape (x i)) && adjustable (shape (attribution i)) then
    exists t1 t2,
      _adjust_tensors_to_plot (x i) = Ok t1 /\
      _adjust_tensors_to_plot (attribution i) = Ok t2 /\
      fst (plot_attribution i k s) =
        Ok (visualize_image_attr t1 k, visualize_image_attr t2 k) /\
      emitted (plot_attribution i k) s =
        [AddFigure "Datum x" (visualize_image_attr t1 k);
         AddFigure "Generic attribution of x" (visualize_image_attr t2 k)]
  else exists e, plot_attribution i k s = (Raise e, s).
Proof.
  intros Hsort.
  pose proof (adjust_cases (x i) Hsort) as Hx.
  pose proof (adjust_cases (attribution i) Hsort) as Ha.
  unfold emitted, plot_attribution, bind, lift, emit, ret.
  destruct (adjustable (shape (x i))); cbn [andb].
  - destruct Hx as (t1 & _ & _ & _ & Hx & _). rewrite Hx.
    destruct (adjustable (shape (attribution i))).
    + destruct Ha as (t2 & _ & _ & _ & Ha & _). rewrite Ha.
      exists t1, t2.
      cbn [fst snd pipe persistence_diagrams trace random_draws].
      repeat split. rewrite <- !List.app_assoc. apply skipn_app_exact.
    + destruct Ha as (e & Ha). rewrite Ha. now exists e.
  - destruct Hx as (e & Hx). rewrite Hx. now exists e.
Qed.



Lemma squeeze_batch (t : Tensor A) (c h w : nat) :
  shape t = [1; c; h; w] -> 2 <= c -> 2 <= h -> 2 <= w ->
  shape (squeeze t) = [c; h; w] /\
  forall idx, get (squeeze t) idx = get t (0 :: idx).
Proof.
  intros Hsh Hc Hh Hw. unfold squeeze, get. cbn [shape data].
  rewrite Hsh. cbn [filter Nat.eqb negb].
  destruct (Nat.eqb_spec c 1); [lia|].
  destruct (Nat.eqb_spec h 1); [lia|].
  destruct (Nat.eqb_spec w 1); [lia|].
  cbn [negb]. split; [reflexivity|]. intros idx. reflexivity.
Qed.

(** Channels first to channels last. *)
Lemma permute_channels_last (t : Tensor A) (c h w : nat) :
  shape t = [c; h; w] ->
  exists out,
    permute [1; 2; 0] t = Ok out /\
    shape out = [h; w; c] /\
    forall i j k, i < h -> j < w -> k < c ->
      get out [i; j; k] = get t [k; i; j].
Proof.
  intros Hsh.
  rewrite permute_valid by (unfold rank; rewrite Hsh; reflexivity).
  rewrite Hsh. eexists. split; [reflexivity|].
  cbn [shape tabulate map nth]. split; [reflexivity|].
  intros i j k Hi Hj Hk.
  rewrite get_tabulate by (cbn [nth]; now apply in_bounds3_intro).
  reflexivity.
Qed.

(** X16: for one image, input and attribution of shape (1, C, H, W) with
    C, H, W >= 2, [plot_interpreter_image] drops the batch axis and hands
    both to the plotting call with the channels last: shape (H, W, C), the
    entry (h, w, c) being the entry (0, c, h, w) of the tensor.  It writes
    the one figure under the name of the method of the interpreter. *)
Theorem plot_interpreter_image_channels_last (s : State) (i : Interpreter)
    (c h w : nat) :
  shape (attribution i) = [1; c; h; w] ->
  shape (x i) = [1; c; h; w] ->
  2 <= c -> 2 <= h -> 2 <= w ->
  exists attrib img,
    shape attrib = [h; w; c] /\
    shape img = [h; w; c] /\
    (forall a b k, a < h -> b < w -> k < c ->
       get attrib [a; b; k] = get (attribution i) [0; k; a; b] /\
       get img [a; b; k] = get (x i) [0; k; a; b]) /\
    fst (plot_interpreter_image i s) =
      Ok (visualize_image_attr_multiple attrib img) /\
    emitted (plot_interpreter_image i) s =
      [AddFigure (method i) (visualize_image_attr_multiple attrib img)].
Proof.
  intros Ha Hx Hc Hh Hw.
  destruct (squeeze_batch (attribution i) Ha Hc Hh Hw) as [Hsa Hga].
  destruct (squeeze_batch (x i) Hx Hc Hh Hw) as [Hsx Hgx].
  destruct (permute_channels_last (squeeze (attribution i)) Hsa)
    as (attrib & Hpa & Hshape_a & Hget_a).
  destruct (permute_channels_last (squeeze (x i)) Hsx)
    as (img & Hpx & Hshape_x & Hget_x).
  exists attrib, img.
  split; [exact Hshape_a|]. split; [exact Hshape_x|]. split.
  - intros a b k Hlt_a Hlt_b Hlt_k.
    rewrite Hget_a, Hget_x, Hga, Hgx by assumption. split; reflexivity.
  - unfold emitted, plot_interpreter_image, bind, lift, emit, ret.
    rewrite Hpa, Hpx.
    cbn [fst snd pipe persistence_diagrams trace random_draws].
    split; [reflexivity | apply skipn_app_exact].
Qed.

End InterpreterPlots.

(* ------------------------------------------------------------------ *)
(** ** Flushing the writer *)

Section Flushing.

Context {A : Type} {B : Backend A} {C : Collaborators}.

Lemma emitted_ends (s : State) (tr : list Event) (e : Event) :
  exists evs, skipn (length (trace s)) ((trace s ++ tr) ++ [e]) = evs ++ [e].
Proof.
  exists tr. rewrite <- List.app_assoc. apply skipn_app_exact.
Qed.

Ltac flush_cases :=
  repeat (match goal with
          | |- context [match ?x with _ => _ end] =>
              lazymatch x with
              | context [match _ with _ => _ end] => fail
              | _ => destruct x
              end
          end; cbv beta iota zeta);
  cbn [fst snd pipe persistence_diagrams trace random_draws];
  intros; try discriminate.

Ltac flush_last :=
  rewrite <- ?List.app_assoc;
  match goal with
  | |- exists evs, skipn (length ?tr) (?tr ++ ?l) = evs ++ [Flush] =>
      rewrite skipn_app_exact; cbn [app];
      first [ now exists [] | now eexists [_] | now eexists [_; _]
            | now eexists [_; _; _] ]
  end.

(** X17: the methods that write the data, the diagrams and the decision
    boundary never return with a record left in the writer: whenever
    [plot_data_model], [plot_decision_boundary] or
    [plot_persistence_diagrams] returns, the last thing the call did to
    its collaborators is the flush of the writer. *)
Theorem writer_flushed_on_return (s : State)
    (example : option (Tensor A)) (compact : bool) :
  (fst (plot_data_model s) = Ok tt ->
   exists evs, emitted plot_data_model s = evs ++ [Flush]) /\
  (forall r,
     fst (plot_decision_boundary compact s) = Ok r ->
     exists evs,
       emitted (plot_decision_boundary compact) s = evs ++ [Flush]) /\
  (fst (plot_persistence_diagrams example s) = Ok tt ->
   exists evs,
     emitted (plot_persistence_diagrams example) s = evs ++ [Flush]).
Proof.
  repeat split.
  - unfold emitted, plot_data_model, bind, self_pipe, lift, emit, ret, raise.
    flush_cases; flush_last.
  - intros r.
    unfold emitted, plot_decision_boundary, bind, self_pipe, lift, emit,
      ret, raise.
    destruct (list_getitem0 (dataloaders (pipe s))) as [e|loader];
      cbv beta iota; [discriminate|].
    destruct (batches loader) as [|first others]; [discriminate|].
    flush_cases; flush_last.
  - unfold emitted, plot_persistence_diagrams, bind, self_pipe,
      self_persistence_diagrams, set_persistence_diagrams, lift, emit, ret.
    flush_cases; flush_last.
Qed.

(** X18: the four plots of an interpreter never flush the writer, ask the
    extractor for nothing, and leave the pipeline and the stored diagrams
    of the instance as they were, whether they return or raise. *)
Theorem interpreter_plots_never_flush (i : Interpreter) (k : Kwargs)
    (c : Call) (s : State) :
  In c [Call_plot_interpreter_text i; Call_plot_interpreter_image i;
        Call_plot_feature_importance i; Call_plot_attribution i k] ->
  exists evs,
    trace (after c s) = trace s ++ evs /\
    forallb (fun e => negb (is_flush e) && no_extraction e) evs = true /\
    pipe (after c s) = pipe s /\
    persistence_diagrams (after c s) = persistence_diagrams s.
Proof.
  intros Hin.
  assert (Hfr : exists T (m : M T),
             after c s = snd (m s) /\
             frames (fun e => negb (is_flush e) && no_extraction e) m).
  { cbn [In] in Hin.
    destruct Hin as [<-|[<-|[<-|[<-|[]]]]]; cbn [after];
      eexists _, _; (split; [reflexivity|]).
    - unfold plot_interpreter_text. cbv zeta. repeat frames_step.
    - unfold plot_interpreter_image. cbv zeta. repeat frames_step.
    - unfold plot_feature_importance. cbv zeta.
      apply frames_bind; [apply frames_lift|intros].
      apply frames_bind; [|intros; repeat frames_step].
      apply frames_feature_importance_bars.
    - unfold plot_attribution. cbv zeta. repeat frames_step. }
  destruct Hfr as (T & m & -> & Hfr).
  destruct (Hfr s) as (evs & d & -> & Hevs).
  exists evs. now cbn.
Qed.

End Flushing.

(* ------------------------------------------------------------------ *)
(** ** Further concrete runs *)

Section FurtherRuns.

Import Examples.

(** The shape (1, 2, 3, 4) is accepted. *)
Lemma adjust_returns_iff_witness :
  adjustable (shape (iota [1; 2; 3; 4])) = true <->
  exists out, _adjust_tensors_to_plot (iota [1; 2; 3; 4]) = Ok out.
Proof.
  apply (@adjust_returns_iff nat NatBackend (iota [1; 2; 3; 4])).
  exact stable_argsort_sorts.
Defined.

(** The 2 x 2 matrix, to which a zero channel is added. *)
Lemma adjust_result_form_witness :
  exists m n ch,
    shape (tensor_of [2; 2; 3] [1; 3; 0; 1; 3; 0; 2; 4; 0; 2; 4; 0]) =
      [m; n; ch] /\
    m <= n /\ ch <= 4 /\ ch <> 2 /\
    (dtype (tensor_of [2; 2; 3] [1; 3; 0; 1; 3; 0; 2; 4; 0; 2; 4; 0]) =
       dtype (iota [2; 2]) \/
     (ch = 3 /\
      dtype (tensor_of [2; 2; 3] [1; 3; 0; 1; 3; 0; 2; 4; 0; 2; 4; 0]) =
        default_dtype)).
Proof.
  apply (@adjust_result_form nat NatBackend (iota [2; 2])
           (tensor_of [2; 2; 3] [1; 3; 0; 1; 3; 0; 2; 4; 0; 2; 4; 0])).
  - exact stable_argsort_sorts.
  - reflexivity.
Defined.

(** The shape (1, 2, 3, 4). *)
Lemma adjust_two_channels_kept_witness :
  exists out,
    _adjust_tensors_to_plot (iota [1; 2; 3; 4]) = Ok out /\
    dtype out = default_dtype /\
    ((shape out = [3; 4; 3] /\
      forall i j k, i < 3 -> j < 4 -> k < 2 ->
        get out [i; j; k] =
          cast default_dtype (get (iota [1; 2; 3; 4]) [0; k; i; j])) \/
     (shape out = [4; 3; 3] /\
      forall i j k, i < 3 -> j < 4 -> k < 2 ->
        get out [j; i; k] =
          cast default_dtype (get (iota [1; 2; 3; 4]) [0; k; i; j]))).
Proof.
  apply (@adjust_two_channels_kept nat NatBackend (iota [1; 2; 3; 4]) 1 3 4).
  - exact stable_argsort_sorts.
  - reflexivity.
  - lia.
  - lia.
  - lia.
Defined.

(** The same two batches over a dataset with [data] and with a second
    loader. *)
Lemma plot_data_model_reads_1001_batches_witness :
  fst (plot_data_model
         (with_pipe (pipe_of [loader_with_data; loader_of 1])
            (fresh (loader_of 2)))) =
    fst (plot_data_model (fresh (loader_of 2))) /\
  emitted plot_data_model
    (with_pipe (pipe_of [loader_with_data; loader_of 1])
       (fresh (loader_of 2))) =
    emitted plot_data_model (fresh (loader_of 2)).
Proof.
  apply (@plot_data_model_reads_1001_batches nat NatBackend ToyCollaborators
           (fresh (loader_of 2)) (loader_of 2) loader_with_data []
           [loader_of 1]).
  - reflexivity.
  - reflexivity.
Defined.

(** Three batches of one image of shape (1, 2, 2). *)
Lemma plot_data_model_image_record_witness :
  exists mat meta features,
    shape features = [2; 1; 2; 2] /\
    data features = data mat /\
    emitted plot_data_model
      (fresh (mkDataLoader
                (map (fun k => (iota [1; 1; 2; 2],
                                LabelTensor (tensor_of [1] [k])))
                   (seq 0 3)) None)) =
      [AddGraph tt (iota [1; 1; 2; 2]);
       AddImage "dataset" (make_grid features) (Some 0) None;
       AddEmbedding mat meta (Some features) "dataset" 0; Flush].
Proof.
  destruct (@plot_data_model_image_record nat NatBackend ToyCollaborators
              (fresh (mkDataLoader
                        (map (fun k => (iota [1; 1; 2; 2],
                                        LabelTensor (tensor_of [1] [k])))
                           (seq 0 3)) None))
              _ [] _ _ _ [1; 2; 2] eq_refl eq_refl)
    as (mat & meta & _ & _ & H).
  - discriminate.
  - simpl. lia.
  - cbn. repeat constructor; exists 0; reflexivity.
  - destruct (H 1 2 2 eq_refl) as (features & Hshape & Hdata & Hev).
    exists mat, meta, features. repeat split; assumption.
Defined.

(** A loader of two batches. *)
Lemma plot_activations_first_101_witness :
  exists inputs evs,
    shape inputs = [Nat.min 101 2; 2] /\
    data inputs =
      concat (map (fun b => data (first_sample b))
                (firstn 101 (batches (loader_of 2)))) /\
    emitted (plot_activations None) (fresh (loader_of 2)) =
      GetActivations (as_example None inputs) :: evs /\
    count_get_activations evs = 0 /\
    forall mat meta img tag step,
      In (AddEmbedding mat meta img tag step) evs ->
      meta = Some (map first_label (firstn 101 (batches (loader_of 2)))).
Proof.
  apply (@plot_activations_first_101 nat NatBackend ToyCollaborators
           (fresh (loader_of 2)) None (loader_of 2) [] [2]).
  - reflexivity.
  - discriminate.
  - cbn. repeat constructor;
      first [exists 0; reflexivity | eexists; reflexivity].
Defined.

(** The same loader, with an empty cache. *)
Lemma plot_persistence_diagrams_first_101_witness :
  exists inputs d,
    shape inputs = [Nat.min 101 2; 2] /\
    data inputs =
      concat (map (fun b => data (first_sample b))
                (firstn 101 (batches (loader_of 2)))) /\
    d = persistence_diagrams_of_activations
          (get_activations tt tt (as_example None inputs)) /\
    persistence_diagrams
      (snd (plot_persistence_diagrams None (fresh (loader_of 2)))) =
      Some d /\
    emitted (plot_persistence_diagrams None) (fresh (loader_of 2)) =
      GetActivations (as_example None inputs)
      :: match diagram_images d with
         | Ok features =>
             [AddImages "persistence_diagrams_of_activations" features
                "NHWC"; Flush]
         | Raise _ => []
         end.
Proof.
  apply (@plot_persistence_diagrams_first_101 nat NatBackend
           ToyCollaborators (fresh (loader_of 2)) None (loader_of 2) []
           [2]).
  - reflexivity.
  - reflexivity.
  - discriminate.
  - cbn. repeat constructor; exists 0; reflexivity.
Defined.

(** A dataset of four rows: all four are taken. *)
Lemma betti_plot_layers_first_100_rows_witness :
  exists inputs diagrams,
    shape inputs = [Nat.min 100 4; 2] /\
    dtype inputs = dtype (iota [4; 2]) /\
    (forall idx,
       in_bounds idx [Nat.min 100 4; 2] ->
       get inputs idx = get (iota [4; 2]) idx) /\
    diagrams =
      persistence_diagrams_of_activations
        (get_activations tt tt (as_example None inputs)) /\
    fst (betti_plot_layers None None (fresh loader_with_data)) = Ok tt /\
    persistence_diagrams
      (snd (betti_plot_layers None None (fresh loader_with_data))) =
      Some diagrams /\
    emitted (betti_plot_layers None None) (fresh loader_with_data) =
      GetActivations (as_example None inputs)
      :: PlotBettiSurfaces (fst (betti_curve_fit_transform diagrams))
           (snd (betti_curve_fit_transform diagrams))
           (passed_homology_dimensions None)
      :: map ShowPlot
           (plot_betti_surfaces (fst (betti_curve_fit_transform diagrams))
              (snd (betti_curve_fit_transform diagrams))
              (passed_homology_dimensions None)).
Proof.
  destruct (@betti_plot_layers_first_100_rows nat NatBackend
              ToyCollaborators (fresh loader_with_data) None None
              loader_with_data [] eq_refl eq_refl) as [_ H].
  apply (H (iota [4; 2]) 4 [2]); reflexivity.
Defined.

(** The surfaces first, then the diagrams, on the dataset of four rows. *)
Lemma diagram_cache_shared_witness :
  exists d,
    persistence_diagrams
      (snd (betti_plot_layers None None (fresh loader_with_data))) =
      Some d /\
    emitted (plot_persistence_diagrams None)
      (snd (betti_plot_layers None None (fresh loader_with_data))) =
      match diagram_images d with
      | Ok features =>
          [AddImages "persistence_diagrams_of_activations" features "NHWC";
           Flush]
      | Raise _ => []
      end.
Proof.
  destruct (@diagram_cache_shared nat NatBackend ToyCollaborators
              (fresh loader_with_data) None None None) as [H _].
  apply H. reflexivity.
Defined.

(** The diagrams of a loader of two batches, then a pipeline without any
    batch. *)
Lemma cached_diagrams_are_stale_witness :
  fst (plot_persistence_diagrams None
         (with_pipe (pipe_of [loader_of 0])
            (snd (plot_persistence_diagrams None (fresh (loader_of 2)))))) =
    fst (plot_persistence_diagrams None
           (snd (plot_persistence_diagrams None (fresh (loader_of 2))))) /\
  emitted (plot_persistence_diagrams None)
    (with_pipe (pipe_of [loader_of 0])
       (snd (plot_persistence_diagrams None (fresh (loader_of 2))))) =
    emitted (plot_persistence_diagrams None)
      (snd (plot_persistence_diagrams None (fresh (loader_of 2)))) /\
  fst (betti_plot_layers None None
         (with_pipe (pipe_of [loader_of 0])
            (snd (plot_persistence_diagrams None (fresh (loader_of 2)))))) =
    fst (betti_plot_layers None None
           (snd (plot_persistence_diagrams None (fresh (loader_of 2))))) /\
  emitted (betti_plot_layers None None)
    (with_pipe (pipe_of [loader_of 0])
       (snd (plot_persistence_diagrams None (fresh (loader_of 2))))) =
    emitted (betti_plot_layers None None)
      (snd (plot_persistence_diagrams None (fresh (loader_of 2)))).
Proof.
  apply (@cached_diagrams_are_stale nat NatBackend ToyCollaborators
           (snd (plot_persistence_diagrams None (fresh (loader_of 2))))
           [tensor_of [2; 2] [0; 1; 1; 2]; tensor_of [2; 2] [0; 1; 1; 2]]
           (pipe_of [loader_of 0]) None None None).
  reflexivity.
Defined.

(** An instance that holds the empty list of diagrams, after two other
    calls. *)
Lemma empty_diagrams_stay_witness :
  fst (plot_persistence_diagrams None
         (after_all [Call_plot_data_model; Call_betti_plot_layers None None]
            (mkState (pipe_of [loader_of 2]) (Some []) [] 0))) =
    Raise RuntimeError /\
  emitted (plot_persistence_diagrams None)
    (after_all [Call_plot_data_model; Call_betti_plot_layers None None]
       (mkState (pipe_of [loader_of 2]) (Some []) [] 0)) = [] /\
  persistence_diagrams
    (snd (plot_persistence_diagrams None
            (after_all
               [Call_plot_data_model; Call_betti_plot_layers None None]
               (mkState (pipe_of [loader_of 2]) (Some []) [] 0)))) =
    Some [].
Proof.
  apply (@empty_diagrams_stay nat NatBackend ToyCollaborators
           (mkState (pipe_of [loader_of 2]) (Some []) [] 0)
           [Call_plot_data_model; Call_betti_plot_layers None None] None).
  reflexivity.
Defined.

(** A loader of two batches: the boundary at the sample [[0; 1]]. *)
Lemma plot_decision_boundary_plain_witness :
  fst (plot_decision_boundary false (fresh (loader_of 2))) =
    Ok (get_decision_boundary tt tt (tensor_of [2] [0; 1]), None, None) /\
  emitted (plot_decision_boundary false) (fresh (loader_of 2)) =
    [GetDecisionBoundary (tensor_of [2] [0; 1]);
     AddEmbedding (get_decision_boundary tt tt (tensor_of [2] [0; 1]))
       None None "decision_boundary" 0;
     Flush] /\
  (shape (tensor_of [2] [0; 1]) = [] ->
   plot_decision_boundary true (fresh (loader_of 2)) =
     (Raise IndexError, fresh (loader_of 2))).
Proof.
  apply (@plot_decision_boundary_plain nat NatBackend ToyCollaborators
           (fresh (loader_of 2)) (loader_of 2) [] (batch_of 0)
           [batch_of 1] (tensor_of [2] [0; 1])).
  - reflexivity.
  - reflexivity.
  - reflexivity.
Defined.

(** A loader without batches. *)
Lemma empty_loader_raises_witness :
  plot_decision_boundary true (fresh (loader_of 0)) =
    (Raise StopIteration, fresh (loader_of 0)) /\
  plot_data_model (fresh (loader_of 0)) =
    (Raise StopIteration, fresh (loader_of 0)) /\
  plot_activations None (fresh (loader_of 0)) =
    (Raise RuntimeError, fresh (loader_of 0)) /\
  (persistence_diagrams (fresh (loader_of 0)) = None ->
   plot_persistence_diagrams None (fresh (loader_of 0)) =
     (Raise RuntimeError, fresh (loader_of 0))).
Proof.
  apply (@empty_loader_raises nat NatBackend ToyCollaborators
           (fresh (loader_of 0)) (loader_of 0) [] None true).
  - reflexivity.
  - reflexivity.
Defined.

(** An image of shape (1, 3, 4, 5) and its attribution. *)
Lemma plot_attribution_both_or_none_witness :
  exists t1 t2,
    _adjust_tensors_to_plot (x image_interpreter) = Ok t1 /\
    _adjust_tensors_to_plot (attribution image_interpreter) = Ok t2 /\
    fst (plot_attribution image_interpreter tt (fresh (loader_of 2))) =
      Ok (visualize_image_attr t1 tt, visualize_image_attr t2 tt) /\
    emitted (plot_attribution image_interpreter tt) (fresh (loader_of 2)) =
      [AddFigure "Datum x" (visualize_image_attr t1 tt);
       AddFigure "Generic attribution of x" (visualize_image_attr t2 tt)].
Proof.
  exact (@plot_attribution_both_or_none nat NatBackend ToyCollaborators
           (fresh (loader_of 2)) image_interpreter tt stable_argsort_sorts).
Defined.


(** The image of shape (1, 3, 4, 5). *)
Lemma plot_interpreter_image_channels_last_witness :
  exists attrib img,
    shape attrib = [4; 5; 3] /\
    shape img = [4; 5; 3] /\
    (forall a b k, a < 4 -> b < 5 -> k < 3 ->
       get attrib [a; b; k] =
         get (attribution image_interpreter) [0; k; a; b] /\
       get img [a; b; k] = get (x image_interpreter) [0; k; a; b]) /\
    fst (plot_interpreter_image image_interpreter (fresh (loader_of 2))) =
      Ok (visualize_image_attr_multiple attrib img) /\
    emitted (plot_interpreter_image image_interpreter)
      (fresh (loader_of 2)) =
      [AddFigure (method image_interpreter)
         (visualize_image_attr_multiple attrib img)].
Proof.
  apply (@plot_interpreter_image_channels_last nat NatBackend
           ToyCollaborators (fresh (loader_of 2)) image_interpreter 3 4 5).
  - reflexivity.
  - reflexivity.
  - lia.
  - lia.
  - lia.
Defined.

(** A loader of three batches: each of the three calls returns. *)
Lemma writer_flushed_on_return_witness :
  (exists evs,
     emitted plot_data_model (fresh (loader_of 3)) = evs ++ [Flush]) /\
  (exists evs,
     emitted (plot_decision_boundary false) (fresh (loader_of 3)) =
       evs ++ [Flush]) /\
  (exists evs,
     emitted (plot_persistence_diagrams None) (fresh (loader_of 3)) =
       evs ++ [Flush]).
Proof.
  destruct (@writer_flushed_on_return nat NatBackend ToyCollaborators
              (fresh (loader_of 3)) None false) as (H1 & H2 & H3).
  split; [apply H1; reflexivity|].
  split; [eapply H2; reflexivity | apply H3; reflexivity].
Defined.

(** The generic attribution plot on the image of shape (1, 3, 4, 5). *)
Lemma interpreter_plots_never_flush_witness :
  exists evs,
    trace (after (Call_plot_attribution image_interpreter tt)
             (fresh (loader_of 2))) =
      trace (fresh (loader_of 2)) ++ evs /\
    forallb (fun e => negb (is_flush e) && no_extraction e) evs = true /\
    pipe (after (Call_plot_attribution image_interpreter tt)
            (fresh (loader_of 2))) = pipe (fresh (loader_of 2)) /\
    persistence_diagrams
      (after (Call_plot_attribution image_interpreter tt)
         (fresh (loader_of 2))) =
      persistence_diagrams (fresh (loader_of 2)).
Proof.
  apply (@interpreter_plots_never_flush nat NatBackend ToyCollaborators
           image_interpreter tt).
  right; right; right; left; reflexivity.
Defined.

End FurtherRuns.
